(** * apiDirectory: the MongoDB data-access layer

    A shallow embedding of [backend/node/express/databases/mongodb/index.js]
    (class [DB]) and of the [errors.js] module it requires.

    - JavaScript numbers are IEEE 754 binary64 values: Rocq's primitive
      [float]; the literals [.01], [5.99], [9999] are the same doubles.
    - JavaScript strings are modelled as [string] (one character per code
      unit).
    - [async] methods are programs over the two storage requests the class
      issues, [ProductModel.find({id}).exec()] and [Document.save()]; each
      [await] of one of them is a node of the program.  Programs are run
      either one call at a time ([run]) or interleaved ([Promise_all]), the
      order in which the storage layer answers being a parameter.
    - Mongoose and MongoDB are modelled as far as the class uses them: a
      strict schema, the cast of [Number] paths, the unique index on [id].
      [save()] writes the document as it is held in memory; how the driver
      encodes the number [-0] is not modelled (see [negative_zero]).

    - The read-only queries ([getProductsByName], [getProductsByPrice],
      [getProductsByStock], [getAllProducts]) are a validation followed by
      one [ProductModel.find(filter).exec()]; they are modelled as the
      filter they issue, and the filter is answered for a number on a
      [Number] path and for no filter at all.  [getProductsByName] builds
      a regular expression from its argument first, which is modelled for
      a fragment of the sources.
    - [resetTest] is modelled over the collections of the connection's
      database.

    The methods that only open or close the connection ([connect],
    [testConnect], [tearDownTest]) are not part of the development. *)

From Stdlib Require Import Floats ZArith String Ascii List Bool Arith Lia.
From Stdlib Require Import Permutation.
From Stdlib Require Uint63.
Import ListNotations.

Set Implicit Arguments.
Set Warnings "-inexact-float".
Open Scope string_scope.
Open Scope list_scope.

(* ================================================================== *)
(** ** JavaScript values *)

Module JS.

Inductive value : Type :=
| VUndefined
| VNull
| VBool (b : bool)
| VNum (n : float)
| VStr (s : string)
| VObject.                       (* some non-null object reference *)

Inductive type := TUndefined | TObject | TBoolean | TNumber | TString.

(** [typeof v] *)
Definition typeof (v : value) : type :=
  match v with
  | VUndefined => TUndefined
  | VNull | VObject => TObject
  | VBool _ => TBoolean
  | VNum _ => TNumber
  | VStr _ => TString
  end.

(** ToBoolean: [undefined], [null], [false], [+0], [-0], [NaN] and the
    empty string are falsy; everything else is truthy. *)
Definition ToBoolean (v : value) : bool :=
  match v with
  | VUndefined | VNull => false
  | VBool b => b
  | VNum n => negb (PrimFloat.eqb n 0 || PrimFloat.is_nan n)
  | VStr s => negb (String.eqb s "")
  | VObject => true
  end.

(** [a < b] and [a > b] on numbers: false as soon as one side is NaN. *)
Definition lt (a b : float) : bool := PrimFloat.ltb a b.
Definition gt (a b : float) : bool := PrimFloat.ltb b a.

(** The number that is the integer [z], for [0 <= z < 2^53]. *)
Definition of_integer (z : Z) : float := PrimFloat.of_uint63 (Uint63.of_Z z).

(** [a ?? b] *)
Definition coalesce (a b : value) : value :=
  match a with
  | VUndefined | VNull => b
  | _ => a
  end.

(** A parameter default, [function f(x = d)]: used when the argument is
    [undefined]. *)
Definition default (d v : value) : value :=
  match v with
  | VUndefined => d
  | _ => v
  end.

(** An object literal / a plain bag of own properties. *)
Definition object := list (string * value).

Fixpoint get (o : object) (key : string) : value :=
  match o with
  | [] => VUndefined
  | (k, v) :: o' => if String.eqb k key then v else get o' key
  end.

Fixpoint has (o : object) (key : string) : bool :=
  match o with
  | [] => false
  | (k, _) :: o' => String.eqb k key || has o' key
  end.

Fixpoint put (o : object) (key : string) (v : value) : object :=
  match o with
  | [] => [(key, v)]
  | (k, w) :: o' =>
      if String.eqb k key then (k, v) :: o' else (k, w) :: put o' key v
  end.

(** [array.includes(s)] for a string [s]: some element is that string
    (an element of another type is never the same value as a string). *)
Definition includes_string (array : list value) (s : string) : bool :=
  existsb (fun v => match v with
                    | VStr s' => String.eqb s' s
                    | _ => false
                    end) array.

End JS.
Import JS.

(* ================================================================== *)
(** ** Regular expressions (the fragment the source uses)

    A pattern is a sequence of terms; a term is an atom matching one
    character, repeated between [rmin] and [rmax] times.  The pattern is
    read from its source text by [RegExp]: outside unicode mode a [{] that
    does not open a well-formed quantifier [{n}], [{n,}] or [{n,m}] (decimal
    digits only, no blanks) is an ordinary pattern character. *)

Module Regex.

Inductive atom :=
| Char (c : ascii)
| Class (ranges : list (ascii * ascii)).

Record term := Term { tatom : atom; rmin : nat; rmax : option nat }.

Definition once (a : atom) : term := Term a 1 (Some 1).

Definition in_range (c : ascii) (r : ascii * ascii) : bool :=
  Nat.leb (nat_of_ascii (fst r)) (nat_of_ascii c) &&
  Nat.leb (nat_of_ascii c) (nat_of_ascii (snd r)).

Definition atom_matches (a : atom) (c : ascii) : bool :=
  match a with
  | Char d => Ascii.eqb c d
  | Class rs => existsb (in_range c) rs
  end.

(** [rep a k lo hi s]: between [lo] and [hi] characters of [s] matched by
    [a], then the continuation [k] on the rest ([hi = None]: no upper
    bound). *)
Fixpoint rep (a : atom) (k : string -> bool) (lo : nat) (hi : option nat)
         (s : string) : bool :=
  (if Nat.eqb lo 0 then k s else false) ||
  match s with
  | EmptyString => false
  | String c s' =>
      match hi with
      | Some 0 => false
      | Some (S h) => atom_matches a c && rep a k (pred lo) (Some h) s'
      | None => atom_matches a c && rep a k (pred lo) None s'
      end
  end.

(** The pattern matches a prefix of the string. *)
Fixpoint match_here (r : list term) : string -> bool :=
  match r with
  | [] => fun _ => true
  | t :: r' => rep (tatom t) (match_here r') (rmin t) (rmax t)
  end.

(** The pattern matches somewhere in the string: what a non-global
    [str.match(re)] tests when its result is used as a condition. *)
Fixpoint search (r : list term) (s : string) : bool :=
  match_here r s ||
  match s with
  | EmptyString => false
  | String _ s' => search r s'
  end.

(** *** Reading a pattern *)

Definition is_digit (c : ascii) : bool :=
  Nat.leb 48 (nat_of_ascii c) && Nat.leb (nat_of_ascii c) 57.

(** Decimal digits at the head of [s]: their value and the rest; [None]
    when [s] does not start with a digit. *)
Fixpoint digits_from (acc : nat) (s : string) : nat * string :=
  match s with
  | String c s' =>
      if is_digit c then digits_from (10 * acc + (nat_of_ascii c - 48)) s'
      else (acc, s)
  | EmptyString => (acc, s)
  end.

Definition digits (s : string) : option (nat * string) :=
  match s with
  | String c _ => if is_digit c then Some (digits_from 0 s) else None
  | EmptyString => None
  end.

(** A quantifier at the head of [s] (after the atom): [{n}], [{n,}],
    [{n,m}]; anything else, [{3, 24}] included, is no quantifier. *)
Definition quantifier (s : string) : option (nat * option nat * string) :=
  match s with
  | String "{" s1 =>
      match digits s1 with
      | Some (n, String "}" s2) => Some (n, Some n, s2)
      | Some (n, String "," (String "}" s2)) => Some (n, None, s2)
      | Some (n, String "," s2) =>
          match digits s2 with
          | Some (m, String "}" s3) => Some (n, Some m, s3)
          | _ => None
          end
      | _ => None
      end
  | _ => None
  end.

(** The inside of a character class up to its closing bracket: single
    characters and [a-z] ranges (a [-] that is not between two class
    characters stands for itself). *)
Fixpoint class_body (fuel : nat) (s : string)
  : option (list (ascii * ascii) * string) :=
  match fuel with
  | 0 => None
  | S fuel' =>
      match s with
      | EmptyString => None
      | String "]" s' => Some ([], s')
      | String a (String "-" (String b s')) =>
          if Ascii.eqb b "]" then
            match class_body fuel' (String "-" (String b s')) with
            | Some (rs, rest) => Some ((a, a) :: rs, rest)
            | None => None
            end
          else
            match class_body fuel' s' with
            | Some (rs, rest) => Some ((a, b) :: rs, rest)
            | None => None
            end
      | String a s' =>
          match class_body fuel' s' with
          | Some (rs, rest) => Some ((a, a) :: rs, rest)
          | None => None
          end
      end
  end.

Definition with_quantifier (a : atom) (rest : string) : term * string :=
  match quantifier rest with
  | Some (n, m, rest') => (Term a n m, rest')
  | None => (once a, rest)
  end.

Fixpoint parse (fuel : nat) (s : string) : option (list term) :=
  match fuel with
  | 0 => None
  | S fuel' =>
      match s with
      | EmptyString => Some []
      | String "[" s' =>
          match class_body (S (String.length s')) s' with
          | Some (rs, rest) =>
              let (t, rest') := with_quantifier (Class rs) rest in
              option_map (cons t) (parse fuel' rest')
          | None => None
          end
      | String c s' =>
          let (t, rest') := with_quantifier (Char c) s' in
          option_map (cons t) (parse fuel' rest')
      end
  end.

(** [new RegExp(source)] for the fragment above; a source outside it reads
    as the pattern that matches nothing the class accepts (never used). *)
Definition RegExp (source : string) : list term :=
  match parse (S (String.length source)) source with
  | Some r => r
  | None => [Term (Class []) 1 (Some 1)]
  end.

(** *** A source given at run time

    [new RegExp(source)] throws a [SyntaxError] for a source that is no
    pattern.  The sources recognised here are those in which none of the
    characters [^ $ \ . * + ? ( ) [ |] occurs: there every character stands
    for itself and may be followed by one quantifier [{n}], [{n,}] or
    [{n,m}], and the source is a pattern unless a quantifier stands where a
    character is expected or has its bounds out of order.  [is_pattern] is
    true for such patterns only; of a source for which it is false nothing
    is said. *)

Definition special (c : ascii) : bool :=
  existsb (Ascii.eqb c)
          ["^"; "$"; "\"; "."; "*"; "+"; "?"; "("; ")"; "["; "|"]%char.

Definition in_order (n : nat) (m : option nat) : bool :=
  match m with
  | Some m' => Nat.leb n m'
  | None => true
  end.

Fixpoint is_pattern_from (fuel : nat) (s : string) : bool :=
  match fuel with
  | 0 => false
  | S fuel' =>
      match s with
      | EmptyString => true
      | String c s' =>
          if special c then false
          else
            match quantifier s with
            | Some _ => false                      (* nothing to repeat *)
            | None =>
                match quantifier s' with
                | Some (n, m, rest) => in_order n m && is_pattern_from fuel' rest
                | None => is_pattern_from fuel' s'
                end
            end
      end
  end.

Definition is_pattern (source : string) : bool :=
  is_pattern_from (S (String.length source)) source.

End Regex.

(* ================================================================== *)
(** ** errors.js *)

Module errors.

(** The classes the module declares, each [extends Error]. *)
Inductive class :=
| ProductIdExistsError
| ProductIdNotExistsError
| IdNotDefinedError
| InvalidIdError
| InvalidProductNameError
| InvalidPriceError
| InvalidStockError.

(** The default [message] of each constructor. *)
Definition message (c : class) : string :=
  match c with
  | ProductIdExistsError => "Product Id Exists"
  | ProductIdNotExistsError => "Product Id does not exist"
  | IdNotDefinedError => "Product Id not defined"
  | InvalidIdError => "Invalid Id format"
  | InvalidProductNameError => "Invalid product name format"
  | InvalidPriceError => "Invalid price format"
  | InvalidStockError => "Invalid stock format"
  end.

(** [module.exports], property by property as the object literal lists
    them ([InvalidPriceError] twice). *)
Definition exports : list (string * class) :=
  [ ("ProductIdExistsError", ProductIdExistsError);
    ("ProductIdNotExistsError", ProductIdNotExistsError);
    ("IdNotDefinedError", IdNotDefinedError);
    ("InvalidIdError", InvalidIdError);
    ("InvalidProductNameError", InvalidProductNameError);
    ("InvalidPriceError", InvalidPriceError);
    ("InvalidPriceError", InvalidPriceError) ].

(** [errors.name]: the exported class, [None] for [undefined]. *)
Fixpoint lookup (name : string) (l : list (string * class)) : option class :=
  match l with
  | [] => None
  | (k, c) :: l' => if String.eqb k name then Some c else lookup name l'
  end.

Definition get (name : string) : option class := lookup name exports.

End errors.

(** What a call can be rejected with: an instance of a class of [errors.js],
    the runtime's [TypeError], or one of the storage layer's two errors. *)
Inductive error :=
| Err (c : errors.class)
| TypeError                  (* [new undefined()]: "is not a constructor" *)
| ValidationError            (* Mongoose: [save()] of a document with a failed cast *)
| DuplicateKeyError.         (* MongoDB E11000: the unique index on [id] *)

(** [new errors.name()]: constructing from [undefined] throws [TypeError]. *)
Definition new_error (name : string) : error :=
  match errors.get name with
  | Some c => Err c
  | None => TypeError
  end.

(** The completion of a synchronous call. *)
Inductive result (A : Type) :=
| Return (a : A)
| Threw (e : error).
Arguments Threw {A} e.

(* ================================================================== *)
(** ** The storage layer: Mongoose over one MongoDB collection

    Mongoose and MongoDB are libraries the class calls; this module states
    the behaviour of theirs that the class relies on.
    - A schema is strict: the model constructor keeps the properties that
      are schema paths and drops the others; assigning a property that is
      no schema path only sets a property of the in-memory object, which
      [save()] does not write.
    - A value set on a [Number] path is cast; a value that cannot be cast
      (NaN is one) marks the document invalid and [save()] rejects.
    - [unique: true] is a unique index of the collection: inserting a
      second document with an equal [id] is rejected.
    - [find] with a number for a [Number] path answers with the documents
      whose value at the path equals the number, and without a filter with
      all documents, in the order of the collection.
    - [listCollections().toArray()] answers with one information object
      per collection of the database. *)

Module Mongoose.

Inductive SchemaType := Number | String_.

Definition Schema := list (string * SchemaType).

Fixpoint path_type (sch : Schema) (path : string) : option SchemaType :=
  match sch with
  | [] => None
  | (k, t) :: sch' => if String.eqb k path then Some t else path_type sch' path
  end.

(** The outcome of a cast; [Unmodelled] where the cast goes through a
    conversion this development does not model (a non-empty string or an
    object to a number, a non-string to a string). *)
Inductive casted :=
| Cast (v : value)
| CastError
| Unmodelled.

Definition castNumber (v : value) : casted :=
  match v with
  | VUndefined | VNull => Cast v
  | VStr s => if String.eqb s "" then Cast VNull else Unmodelled
  | VBool b => Cast (VNum (if b then 1 else 0)%float)
  | VNum n => if PrimFloat.is_nan n then CastError else Cast (VNum n)
  | VObject => Unmodelled
  end.

Definition castString (v : value) : casted :=
  match v with
  | VUndefined | VNull | VStr _ => Cast v
  | _ => Unmodelled
  end.

Definition cast (t : SchemaType) (v : value) : casted :=
  match t with
  | Number => castNumber v
  | String_ => castString v
  end.

(** A document in memory: its position in the collection ([_id]), whether
    it was never saved, the values of its schema paths, the other
    properties set on the object, and the paths whose last cast failed. *)
Record Document := mkDocument {
  _id : nat;
  isNew : bool;
  _doc : object;
  own : object;
  castErrors : list string
}.

Definition remove_path (path : string) (l : list string) : list string :=
  filter (fun p => negb (String.eqb p path)) l.

(** Setting a schema path on a document: cast, then store or record the
    failure. *)
Definition set_path (t : SchemaType) (d : Document) (path : string)
           (v : value) : option Document :=
  match cast t v with
  | Cast v' =>
      Some (mkDocument (_id d) (isNew d) (put (_doc d) path v') (own d)
                       (remove_path path (castErrors d)))
  | CastError =>
      Some (mkDocument (_id d) (isNew d) (_doc d) (own d)
                       (path :: remove_path path (castErrors d)))
  | Unmodelled => None
  end.

(** [doc.path = v] *)
Definition assign (sch : Schema) (d : Document) (path : string) (v : value)
  : option Document :=
  match path_type sch path with
  | Some t => set_path t d path v
  | None =>
      Some (mkDocument (_id d) (isNew d) (_doc d) (put (own d) path v)
                       (castErrors d))
  end.

(** [doc.path] *)
Definition read (sch : Schema) (d : Document) (path : string) : value :=
  match path_type sch path with
  | Some _ => get (_doc d) path
  | None => get (own d) path
  end.

(** [new Model(obj)] under a strict schema. *)
Fixpoint construct (sch : Schema) (d : Document) (obj : object)
  : option Document :=
  match obj with
  | [] => Some d
  | (k, v) :: obj' =>
      match path_type sch k with
      | Some t =>
          match set_path t d k v with
          | Some d' => construct sch d' obj'
          | None => None
          end
      | None => construct sch d obj'
      end
  end.

Definition Model (sch : Schema) (obj : object) : option Document :=
  construct sch (mkDocument 0 true [] [] []) obj.

(** The collection: the stored documents, in insertion order. *)
Definition collection := list object.

(** Equality of two stored [id]s, as the query and the unique index
    compare them. *)
Definition same_id (a b : value) : bool :=
  match a, b with
  | VNum x, VNum y => PrimFloat.eqb x y
  | (VNull | VUndefined), (VNull | VUndefined) => true
  | _, _ => false
  end.

Fixpoint find_from (i : nat) (n : float) (c : collection) : list Document :=
  match c with
  | [] => []
  | o :: c' =>
      if same_id (get o "id") (VNum n)
      then mkDocument i false o [] [] :: find_from (S i) n c'
      else find_from (S i) n c'
  end.

(** [Model.find({id}).exec()]: the stored documents whose [id] equals the
    query's, for a query that is a number (the only ones issued). *)
Definition find (q : value) (c : collection) : option (list Document) :=
  match q with
  | VNum n => if PrimFloat.is_nan n then None else Some (find_from 0 n c)
  | _ => None
  end.

Fixpoint replace (i : nat) (o : object) (c : collection) : collection :=
  match c, i with
  | [], _ => []
  | _ :: c', 0 => o :: c'
  | o' :: c', S i' => o' :: replace i' o c'
  end.

(** [doc.save()]: rejected for a document with a failed cast; a new
    document is inserted unless the unique index refuses it; a loaded
    document is written back in place.

    The document is written as it is held in memory, every path of it.  Two
    things Mongoose and the driver do are not modelled.  A loaded document
    sends the changed paths only, which leaves the same collection as long
    as no other call has written that document since it was loaded.  And
    the number [-0] is encoded by some versions of the driver as the
    integer 0, so that what is stored for it depends on the version
    installed; ids and prices that pass validation are never [-0], a stock
    can be. *)
Definition save (d : Document) (c : collection)
  : result Document * collection :=
  match castErrors d with
  | _ :: _ => (Threw ValidationError, c)
  | [] =>
      if isNew d then
        if existsb (fun o => same_id (get o "id") (get (_doc d) "id")) c
        then (Threw DuplicateKeyError, c)
        else (Return (mkDocument (List.length c) false (_doc d) (own d) []),
              c ++ [_doc d])
      else (Return d, replace (_id d) (_doc d) c)
  end.

(** The filter of a [Model.find(filter)]: none, a value for a path, or a
    regular expression for a path (the value its source is built from, and
    its flags). *)
Inductive Filter :=
| NoFilter
| Equals (path : string) (v : value)
| Matches (path : string) (source : value) (flags : string).

(** The stored documents from position [i] on, loaded. *)
Fixpoint load_from (i : nat) (c : collection) : list Document :=
  match c with
  | [] => []
  | o :: c' => mkDocument i false o [] [] :: load_from (S i) c'
  end.

(** The stored documents whose value at [path] is the number [n]. *)
Fixpoint find_equal_from (path : string) (i : nat) (n : float) (c : collection)
  : list Document :=
  match c with
  | [] => []
  | o :: c' =>
      if same_id (get o path) (VNum n)
      then mkDocument i false o [] [] :: find_equal_from path (S i) n c'
      else find_equal_from path (S i) n c'
  end.

(** [Model.find(filter).exec()], for the filters whose answer is modelled:
    no filter, and a number other than NaN for a [Number] path of the
    schema.  The matches come in the order of the collection. *)
Definition find_filter (sch : Schema) (f : Filter) (c : collection)
  : option (list Document) :=
  match f with
  | NoFilter => Some (load_from 0 c)
  | Equals path (VNum n) =>
      match path_type sch path with
      | Some Number =>
          if PrimFloat.is_nan n then None
          else Some (find_equal_from path 0 n c)
      | _ => None
      end
  | _ => None
  end.

(** The database of the connection: its collections, by name. *)
Definition database := list (string * collection).

(** [db.listCollections().toArray()]: one information object per
    collection. *)
Definition listCollections (db : database) : list value :=
  map (fun _ => VObject) db.

(** [connection.dropCollection(name)]; dropping a collection that does not
    exist is not modelled. *)
Definition dropCollection (name : string) (db : database) : option database :=
  if existsb (fun nc => String.eqb (fst nc) name) db
  then Some (filter (fun nc => negb (String.eqb (fst nc) name)) db)
  else None.

End Mongoose.
Import Mongoose.

(* ================================================================== *)
(** ** Asynchronous programs

    An [async] method runs until it returns, throws, or awaits a request to
    the storage layer; [Stuck] stands for a run that left the modelled
    fragment of Mongoose (see [Mongoose.casted]). *)

Inductive prog (A : Type) : Type :=
| Ret (a : A)
| Throw (e : error)
| Find (q : value) (k : list Document -> prog A)
| Save (d : Document) (k : Document -> prog A)
| Stuck.
Arguments Throw {A} e.
Arguments Stuck {A}.

Fixpoint bind {A B : Type} (p : prog A) (f : A -> prog B) : prog B :=
  match p with
  | Ret a => f a
  | Throw e => Throw e
  | Find q k => Find q (fun r => bind (k r) f)
  | Save d k => Save d (fun r => bind (k r) f)
  | Stuck => Stuck
  end.

Declare Scope prog_scope.
Delimit Scope prog_scope with prog.
Notation "x <- p ;; q" := (bind p (fun x => q))
  (at level 61, p at next level, right associativity) : prog_scope.
Notation "p ;; q" := (bind p (fun _ => q))
  (at level 61, right associativity) : prog_scope.
Open Scope prog_scope.

(** A synchronous call inside an [async] method. *)
Definition call {A : Type} (r : result A) : prog A :=
  match r with
  | Return a => Ret a
  | Threw e => Throw e
  end.

(** A step of the storage model that may leave the modelled fragment. *)
Definition model {A : Type} (o : option A) : prog A :=
  match o with
  | Some a => Ret a
  | None => Stuck
  end.

(** [await Model.find({id}).exec()] and [await doc.save()]. *)
Definition find_exec (q : value) : prog (list Document) := Find q (@Ret _).
Definition save_doc (d : Document) : prog Document := Save d (@Ret _).

(** One call run to completion against the collection, nothing else
    touching the collection meanwhile: the call's completion and the
    collection it leaves; [None] when the run is [Stuck]. *)
Fixpoint run {A : Type} (p : prog A) (c : collection)
  : option (result A * collection) :=
  match p with
  | Ret a => Some (Return a, c)
  | Throw e => Some (Threw e, c)
  | Find q k =>
      match Mongoose.find q c with
      | Some docs => run (k docs) c
      | None => None
      end
  | Save d k =>
      match Mongoose.save d c with
      | (Return d', c') => run (k d') c'
      | (Threw e, c') => Some (Threw e, c')
      end
  | Stuck => None
  end.

(** *** [Promise.all]

    The calls of a batch are all started before any storage request is
    answered.  The storage layer then answers the pending requests one at a
    time, in an order the program does not choose: a schedule is the list of
    the tasks whose pending request is answered next. *)

(** The pending request of a task is answered and the task runs up to its
    next [await]; a settled task stays as it is. *)
Definition advance {A : Type} (p : prog A) (c : collection)
  : option (prog A * collection) :=
  match p with
  | Ret _ | Throw _ => Some (p, c)
  | Find q k =>
      match Mongoose.find q c with
      | Some docs => Some (k docs, c)
      | None => None
      end
  | Save d k =>
      match Mongoose.save d c with
      | (Return d', c') => Some (k d', c')
      | (Threw e, c') => Some (Throw e, c')
      end
  | Stuck => None
  end.

Definition rejection {A : Type} (p : prog A) : option error :=
  match p with
  | Throw e => Some e
  | _ => None
  end.

(** The first task, in list order, that is already rejected. *)
Fixpoint first_rejection {A : Type} (tasks : list (prog A)) : option error :=
  match tasks with
  | [] => None
  | p :: tasks' =>
      match rejection p with
      | Some e => Some e
      | None => first_rejection tasks'
      end
  end.

Fixpoint set_nth {A : Type} (i : nat) (x : A) (l : list A) : list A :=
  match l, i with
  | [], _ => []
  | _ :: l', 0 => x :: l'
  | y :: l', S i' => y :: set_nth i' x l'
  end.

(** The tasks, the collection and the rejection [Promise.all] has seen so
    far, after the requests are answered in the order of the schedule. *)
Fixpoint deliver {A : Type} (sched : list nat) (tasks : list (prog A))
         (c : collection) (rej : option error)
  : option (list (prog A) * collection * option error) :=
  match sched with
  | [] => Some (tasks, c, rej)
  | i :: sched' =>
      match nth_error tasks i with
      | None => None
      | Some p =>
          match advance p c with
          | None => None
          | Some (p', c') =>
              deliver sched' (set_nth i p' tasks) c'
                      (match rej with
                       | Some e => Some e
                       | None => rejection p'
                       end)
          end
      end
  end.

Fixpoint fulfilled {A : Type} (tasks : list (prog A)) : option (list A) :=
  match tasks with
  | [] => Some []
  | Ret a :: tasks' => option_map (cons a) (fulfilled tasks')
  | _ :: _ => None
  end.

(** [await Promise.all(tasks)] under a schedule: rejected with the first
    rejection observed, fulfilled with the results in list order once every
    task is; [None] while neither (the schedule is too short) or when a run
    is [Stuck]. *)
Definition Promise_all {A : Type} (sched : list nat) (tasks : list (prog A))
           (c : collection) : option (result (list A) * collection) :=
  match deliver sched tasks c (first_rejection tasks) with
  | Some (_, c', Some e) => Some (Threw e, c')
  | Some (tasks', c', None) =>
      option_map (fun l => (Return l, c')) (fulfilled tasks')
  | None => None
  end.

(* ================================================================== *)
(** ** index.js *)

(** [mongoose.Schema({ id: {type: Number, unique: true}, product: String,
    price: Number, stock: Number })] *)
Definition productSchema : Schema :=
  [ ("id", Number); ("product", String_); ("price", Number); ("stock", Number) ].

Definition ProductModel (obj : object) : option Document :=
  Mongoose.Model productSchema obj.

(** The methods of class [DB] that validate, add, update and query, and
    the test helper [resetTest].  A
    [try { ... } catch (e) { throw e; }] around a body rethrows what the
    body throws and is left out; a [throw new errors.X()] is the
    construction [new_error "X"], which itself throws when [errors.X] is
    [undefined]. *)
Module DB.

(** [async validateId(id, mutation = false)] *)
Definition validateId (id : value) (mutation : bool) : prog unit :=
  if negb (ToBoolean id) then
    Throw (new_error "IdNotDefinedError")
  else
    match id with
    | VNum n =>
        if lt n 1 then Throw (new_error "InvalidIdError")
        else if negb mutation then
          docs <- find_exec id ;;
          match docs with
          | _ :: _ => Throw (new_error "ProductIdExistsError")
          | [] => Ret tt
          end
        else Ret tt
    | _ => Throw (new_error "InvalidIdError")    (* typeof id !== 'number' *)
    end.

(** [validateProductName(productName)] *)
Definition validateProductName (productName : value) : result unit :=
  match productName with
  | VStr s =>
      if negb (Regex.search (Regex.RegExp "[A-Za-z0-9- ]{3, 24}") s)
      then Threw (new_error "InvalidProductNameError")
      else Return tt
  | _ => Threw (new_error "InvalidProductNameError")
  end.

(** [validatePrice(price)] *)
Definition validatePrice (price : value) : result unit :=
  match price with
  | VNum n =>
      if lt n 0.01 || gt n 9999
      then Threw (new_error "InvalidPriceError")
      else Return tt
  | _ => Threw (new_error "InvalidPriceError")
  end.

(** [validateStock(stock)] *)
Definition validateStock (stock : value) : result unit :=
  match stock with
  | VNum n =>
      if lt n 0 || gt n 9999
      then Threw (new_error "InvalidStockError")
      else Return tt
  | _ => Threw (new_error "InvalidStockError")
  end.

(** [async getProduct(id)]; the result is the element [0] of what the query
    returns: the first match, or [undefined] ([None]). *)
Definition getProduct (id : value) : prog (option Document) :=
  validateId id false ;;
  docs <- find_exec id ;;
  Ret (hd_error docs).

(** [async addProduct(id, productName = '', price = 0, stock = 0)] *)
Definition addProduct (id productName price stock : value) : prog Document :=
  let productName := default (VStr "") productName in
  let price := default (VNum 0) price in
  let stock := default (VNum 0) stock in
  validateId id false ;;
  call (validateProductName productName) ;;
  call (validatePrice price) ;;
  call (validateStock stock) ;;
  Product <- model (ProductModel [ ("id", id); ("productName", productName);
                                   ("price", price); ("stock", stock) ]) ;;
  Product <- save_doc Product ;;
  Ret Product.

(** The lookup the update methods share: [(await find({id}).exec())[0]],
    then [throw new errors.ProductIdNotExistsError()] when there is none. *)
Definition lookup (id : value) : prog Document :=
  docs <- find_exec id ;;
  match docs with
  | Product :: _ => Ret Product
  | [] => Throw (new_error "ProductIdNotExistsError")
  end.

(** [async updateProductName(id, productName = '')] *)
Definition updateProductName (id productName : value) : prog Document :=
  let productName := default (VStr "") productName in
  validateId id true ;;
  call (validateProductName productName) ;;
  Product <- lookup id ;;
  Product <- model (assign productSchema Product "productName" productName) ;;
  Product <- save_doc Product ;;
  Ret Product.

(** [async updateProductPrice(id, price = 0)] *)
Definition updateProductPrice (id price : value) : prog Document :=
  let price := default (VNum 0) price in
  validateId id true ;;
  call (validatePrice price) ;;
  Product <- lookup id ;;
  Product <- model (assign productSchema Product "price" price) ;;
  Product <- save_doc Product ;;
  Ret Product.

(** [async updateProductStock(id, stock = 0)] *)
Definition updateProductStock (id stock : value) : prog Document :=
  let stock := default (VNum 0) stock in
  validateId id true ;;
  call (validateStock stock) ;;
  Product <- lookup id ;;
  Product <- model (assign productSchema Product "stock" stock) ;;
  Product <- save_doc Product ;;
  Ret Product.

(** [v && this.validate(v)]: the validator runs for a truthy [v] only. *)
Definition when_truthy (v : value) (validate : value -> result unit)
  : result unit :=
  if ToBoolean v then validate v else Return tt.

(** [Product.path = v ?? Product.path] *)
Definition assign_or_keep (Product : Document) (path : string) (v : value)
  : option Document :=
  assign productSchema Product path
         (coalesce v (read productSchema Product path)).

(** [async updateProduct(id, productName = null, price = null, stock = null)] *)
Definition updateProduct (id productName price stock : value) : prog Document :=
  let productName := default VNull productName in
  let price := default VNull price in
  let stock := default VNull stock in
  validateId id true ;;
  call (when_truthy productName validateProductName) ;;
  call (when_truthy price validatePrice) ;;
  call (when_truthy stock validateStock) ;;
  Product <- lookup id ;;
  Product <- model (assign_or_keep Product "productName" productName) ;;
  Product <- model (assign_or_keep Product "price" price) ;;
  Product <- model (assign_or_keep Product "stock" stock) ;;
  Product <- save_doc Product ;;
  Ret Product.

(** [async updateProducts(Products)]: [Promise.all] over
    [Products.map(Product => db.updateProduct(...))]. *)
Definition updateProducts (sched : list nat) (Products : list object)
           (c : collection) : option (result (list Document) * collection) :=
  Promise_all sched
    (map (fun Product => updateProduct (get Product "id")
                                       (get Product "productName")
                                       (get Product "price")
                                       (get Product "stock")) Products) c.

(** [async addProducts(Products)]: [Promise.all] over
    [Products.map(Product => db.addProduct(...))]. *)
Definition addProducts (sched : list nat) (Products : list object)
           (c : collection) : option (result (list Document) * collection) :=
  Promise_all sched
    (map (fun Product => addProduct (get Product "id")
                                    (get Product "productName")
                                    (get Product "price")
                                    (get Product "stock")) Products) c.

(** [async resetTest()]:
    [(await listCollections().toArray()).includes('Products')
     && (await dropCollection('Products'))]. *)
Definition resetTest (db : database) : option database :=
  if includes_string (listCollections db) "Products"
  then dropCollection "Products" db
  else Some db.

(** The read-only queries: what the method throws before it queries, or
    the filter of the [find] whose answer it returns. *)

(** [async getProductsByName(productName)].  After the validation the
    method builds [new RegExp(productName, 'i')], which throws for a name
    that is no pattern: the filter is modelled for the names
    [Regex.is_pattern] recognises, and the call is outside the model
    ([None]) for the other names the validation lets through. *)
Definition getProductsByName (productName : value) : option (result Filter) :=
  match validateProductName productName, productName with
  | Threw e, _ => Some (Threw e)
  | Return _, VStr s =>
      if Regex.is_pattern s
      then Some (Return (Matches "productName" productName "i"))
      else None
  | Return _, _ => None
  end.

(** [async getProductsByPrice(price)] *)
Definition getProductsByPrice (price : value) : result Filter :=
  match validatePrice price with
  | Return _ => Return (Equals "price" price)
  | Threw e => Threw e
  end.

(** [async getProductsByStock(stock)] *)
Definition getProductsByStock (stock : value) : result Filter :=
  match validateStock stock with
  | Return _ => Return (Equals "stock" stock)
  | Threw e => Threw e
  end.

(** [async getAllProducts()] *)
Definition getAllProducts : result Filter := Return NoFilter.

(** A query method run against the collection: [None] where the answer to
    the filter is not modelled. *)
Definition query (q : result Filter) (c : collection)
  : option (result (list Document)) :=
  match q with
  | Threw e => Some (Threw e)
  | Return f =>
      match find_filter productSchema f c with
      | Some docs => Some (Return docs)
      | None => None
      end
  end.

End DB.

(* ================================================================== *)
(** ** Sample data *)

(** [validProducts] of the test file. *)
Definition pizza : object :=
  [ ("id", VNum 1); ("productName", VStr "pizza"); ("price", VNum 5.99);
    ("stock", VNum 55) ].
Definition cheese : object :=
  [ ("id", VNum 2); ("productName", VStr "cheese"); ("price", VNum 2.99);
    ("stock", VNum 115) ].

(** The first of them under a name that [validateProductName] lets
    through, and the document the collection holds once it is added. *)
Definition braced_pizza : object := put pizza "productName" (VStr "a{3, 24}").
Definition stored_pizza : object :=
  [ ("id", VNum 1); ("price", VNum 5.99); ("stock", VNum 55) ].


(** The same for the second of them. *)
Definition braced_cheese : object := put cheese "productName" (VStr "b{3, 24}").
Definition stored_cheese : object :=
  [ ("id", VNum 2); ("price", VNum 2.99); ("stock", VNum 115) ].

(** The second of them with no stock given. *)
Definition unstocked_cheese : object :=
  [ ("id", VNum 2); ("productName", VStr "b{3, 24}"); ("price", VNum 2.99) ].

(* ================================================================== *)
(** ** Vocabulary of the statements *)

Module Names.

(** The pattern of [validateProductName], as [RegExp] reads it. *)
Definition pattern : list Regex.term :=
  Regex.RegExp "[A-Za-z0-9- ]{3, 24}".

(** The characters of the class: letters, digits, hyphen, space. *)
Definition allowed (c : ascii) : bool :=
  Regex.atom_matches
    (Regex.Class [("A", "Z"); ("a", "z"); ("0", "9"); ("-", "-"); (" ", " ")]%char)
    c.

Fixpoint all_allowed (s : string) : bool :=
  match s with
  | EmptyString => true
  | String c s' => allowed c && all_allowed s'
  end.

(** The rule of the data model, in its own words: 3 to 24 characters,
    letters, digits, hyphens and spaces only. *)
Definition spec_valid (s : string) : bool :=
  Nat.leb 3 (String.length s) && Nat.leb (String.length s) 24 && all_allowed s.

(** The string holds an opening brace. *)
Fixpoint has_brace (s : string) : bool :=
  match s with
  | EmptyString => false
  | String c s' => Ascii.eqb c "{" || has_brace s'
  end.

End Names.

(** Some stored document has the id [n]. *)
Definition stored_id (c : collection) (n : float) : bool :=
  existsb (fun o => same_id (get o "id") (VNum n)) c.

(** The stored document an operation on id [n] reads and writes: the first
    one the query returns. *)
Definition stored (c : collection) (n : float) : option object :=
  option_map _doc (hd_error (find_from 0 n c)).

(** A stored value that a [Number] path keeps as it is when it is set
    again: a number other than NaN, [null] or [undefined]. *)
Definition stable (v : value) : Prop := castNumber v = Cast v.

(** The object literal [addProduct] hands to the model constructor. *)
Definition product_literal (id productName price stock : value) : object :=
  [ ("id", id); ("productName", productName); ("price", price); ("stock", stock) ].

(** [null] or [undefined]. *)
Definition nullish (v : value) : bool :=
  match v with
  | VUndefined | VNull => true
  | _ => false
  end.

(** The number [-0].  What the collection holds once [-0] is saved depends
    on the version of the driver (older encoders write it as the integer
    0), so a statement about a stored number names it where a caller can
    pass it. *)
Definition negative_zero (v : value) : bool :=
  match v with
  | VNum n =>
      match PrimFloat.classify n with
      | NZero => true
      | _ => false
      end
  | _ => false
  end.

(** An argument for a [Number] field of [updateProduct] that is either left
    out ([null], [undefined]) or a number, not NaN, that the field's
    validator accepts. *)
Definition absent_or_valid (validate : value -> result unit) (v : value) : Prop :=
  nullish v = true \/
  exists x, v = VNum x /\ PrimFloat.is_nan x = false /\ validate v = Return tt.

(** The call [addProducts] starts for one element of its argument. *)
Definition add_task (Product : object) : prog Document :=
  DB.addProduct (get Product "id") (get Product "productName")
                (get Product "price") (get Product "stock").

(** The task has returned. *)
Definition is_done {A : Type} (p : prog A) : bool :=
  match p with
  | Ret _ => true
  | _ => false
  end.

(** The task has thrown. *)
Definition thrown {A : Type} (p : prog A) : bool :=
  match p with
  | Throw _ => true
  | _ => false
  end.

(** The storage requests a task of [addProduct] still has to get answered. *)
Definition rank {A : Type} (p : prog A) : nat :=
  match p with
  | Find _ _ => 2
  | Save _ _ => 1
  | _ => 0
  end.

(** No two stored documents have the same id: a document never equals, as
    the query and the unique index compare ids, one stored before it. *)
Definition unique_ids (c : collection) : Prop :=
  forall i j o1 o2,
    i < j -> nth_error c i = Some o1 -> nth_error c j = Some o2 ->
    same_id (get o1 "id") (get o2 "id") = false.

(** A document in memory that was loaded from the collection and still
    carries the id of the stored document at its position. *)
Definition anchored (c : collection) (d : Document) : Prop :=
  isNew d = false /\
  exists o, nth_error c (_id d) = Some o /\ get (_doc d) "id" = get o "id".

(** The only documents the program saves are new ones. *)
Inductive inserting {A : Type} : prog A -> Prop :=
| inserting_ret (a : A) : inserting (Ret a)
| inserting_throw (e : error) : inserting (Throw e)
| inserting_stuck : inserting Stuck
| inserting_find (q : value) (k : list Document -> prog A) :
    (forall docs, inserting (k docs)) -> inserting (Find q k)
| inserting_save (d : Document) (k : Document -> prog A) :
    isNew d = true -> (forall d', inserting (k d')) -> inserting (Save d k).

(** The call [updateProducts] starts for one element of its argument. *)
Definition update_task (Product : object) : prog Document :=
  DB.updateProduct (get Product "id") (get Product "productName")
                   (get Product "price") (get Product "stock").

(** What [validateId] throws before any storage request: for a falsy id,
    and for a truthy one that is not a number or is below 1. *)
Definition id_error (id : value) : option error :=
  if negb (ToBoolean id) then Some (new_error "IdNotDefinedError")
  else match id with
       | VNum n => if lt n 1 then Some (new_error "InvalidIdError") else None
       | _ => Some (new_error "InvalidIdError")
       end.

(** The ids of the stored documents, position by position. *)
Definition ids (c : collection) : list value := map (fun o => get o "id") c.

(** A document in memory that was loaded from a collection of these ids and
    carries the id stored at its position. *)
Definition loaded (sk : list value) (d : Document) : Prop :=
  isNew d = false /\ nth_error sk (_id d) = Some (get (_doc d) "id").

(** The only documents the program saves are loaded ones, whatever
    collection of these ids its queries are answered from. *)
Inductive updating (sk : list value) {A : Type} : prog A -> Prop :=
| updating_ret (a : A) : updating sk (Ret a)
| updating_throw (e : error) : updating sk (Throw e)
| updating_stuck : updating sk Stuck
| updating_find (q : value) (k : list Document -> prog A) :
    (forall c docs, ids c = sk -> Mongoose.find q c = Some docs ->
                    updating sk (k docs)) ->
    updating sk (Find q k)
| updating_save (d : Document) (k : Document -> prog A) :
    loaded sk d -> (forall d', updating sk (k d')) -> updating sk (Save d k).

(** The document [addProduct] stores for an element, the stock being 0
    when the element has none. *)
Definition document_of (Product : object) : object :=
  [ ("id", get Product "id"); ("price", get Product "price");
    ("stock", default (VNum 0) (get Product "stock")) ].

Definition returns (r : result unit) : bool :=
  match r with
  | Return _ => true
  | Threw _ => false
  end.

(** An element whose id, name, price and stock [addProduct] accepts, the
    price and the stock being numbers the storage layer holds. *)
Definition acceptable (Product : object) : bool :=
  match get Product "id", get Product "price", get Product "stock" with
  | VNum n, VNum p, VNum s =>
      ToBoolean (VNum n) && negb (lt n 1)
      && returns (DB.validateProductName
                    (default (VStr "") (get Product "productName")))
      && returns (DB.validatePrice (VNum p)) && negb (PrimFloat.is_nan p)
      && returns (DB.validateStock (VNum s)) && negb (PrimFloat.is_nan s)
  | _, _, _ => false
  end.

(** An element [addProducts] can add: the fields it hands to [addProduct]
    are [acceptable], the stock being 0 when the element has none, and the
    stock is not [-0]. *)
Definition addable (Product : object) : bool :=
  acceptable (product_literal (get Product "id") (get Product "productName")
                              (get Product "price")
                              (default (VNum 0) (get Product "stock")))
  && negb (negative_zero (get Product "stock")).

(** The pending [save()] of the call for an element. *)
Definition saving (Product : object) : prog Document :=
  Save (mkDocument 0 true (document_of Product) [] []) (fun r => Ret r).

(** The id error of the first element, in list order, that has one. *)
Fixpoint first_id_error (Products : list object) : option error :=
  match Products with
  | [] => None
  | Product :: Products' =>
      match id_error (get Product "id") with
      | Some e => Some e
      | None => first_id_error Products'
      end
  end.

(** How far the call for an element of a batch of additions has got, the
    element being either addable or refused for its id: its existence
    check is pending and its id not stored; its [save()] is pending and its
    id not stored; it has returned the document it stored; it was rejected
    before any storage request. *)
Inductive add_phase (c : collection) (Product : object) : prog Document -> Prop :=
| phase_checking (n : float) :
    addable Product = true -> get Product "id" = VNum n ->
    stored_id c n = false ->
    add_phase c Product (add_task Product)
| phase_saving (n : float) :
    addable Product = true -> get Product "id" = VNum n ->
    stored_id c n = false ->
    add_phase c Product (saving Product)
| phase_done (d : Document) :
    addable Product = true -> _doc d = document_of Product ->
    In (document_of Product) c ->
    add_phase c Product (Ret d)
| phase_refused (e : error) :
    id_error (get Product "id") = Some e ->
    add_phase c Product (Throw e).

(** The phases of the calls of a batch, element by element. *)
Definition add_phases (Products : list object) (tasks : list (prog Document))
           (c : collection) : Prop :=
  List.length tasks = List.length Products
  /\ forall j P t, nth_error Products j = Some P -> nth_error tasks j = Some t ->
                   add_phase c P t.



(** Every error the program throws by itself satisfies [S]. *)
Inductive throwing (S : error -> Prop) {A : Type} : prog A -> Prop :=
| throwing_ret (a : A) : throwing S (Ret a)
| throwing_throw (e : error) : S e -> throwing S (Throw e)
| throwing_stuck : throwing S Stuck
| throwing_find (q : value) (k : list Document -> prog A) :
    (forall docs, throwing S (k docs)) -> throwing S (Find q k)
| throwing_save (d : Document) (k : Document -> prog A) :
    (forall d', throwing S (k d')) -> throwing S (Save d k).

(** The program issues no [save()]. *)
Inductive reading {A : Type} : prog A -> Prop :=
| reading_ret (a : A) : reading (Ret a)
| reading_throw (e : error) : reading (Throw e)
| reading_stuck : reading Stuck
| reading_find (q : value) (k : list Document -> prog A) :
    (forall docs, reading (k docs)) -> reading (Find q k).

(** The program issues at most one [save()], and returns once it is
    answered. *)
Inductive saves_last {A : Type} : prog A -> Prop :=
| saves_last_ret (a : A) : saves_last (Ret a)
| saves_last_throw (e : error) : saves_last (Throw e)
| saves_last_stuck : saves_last Stuck
| saves_last_find (q : value) (k : list Document -> prog A) :
    (forall docs, saves_last (k docs)) -> saves_last (Find q k)
| saves_last_save (d : Document) (k : Document -> prog A) :
    (forall d', is_done (k d') = true) -> saves_last (Save d k).

(** The stored document [o] after [updateProduct] has applied an element:
    the price and the stock of the element where it gives them. *)
Definition update_of (o Product : object) : object :=
  put (put o "price" (coalesce (get Product "price") (get o "price")))
      "stock" (coalesce (get Product "stock") (get o "stock")).

(** An element [updateProduct] applies to the collection: its id passes
    [validateId] and is the id of a stored document whose price and stock
    are values a [Number] path holds, its name is accepted or left out, and
    its price and stock are left out or accepted numbers, NaN and [-0]
    apart. *)
Definition updatable (c : collection) (Product : object) : Prop :=
  exists n o,
    get Product "id" = VNum n
    /\ ToBoolean (VNum n) = true /\ lt n 1 = false
    /\ stored c n = Some o
    /\ stable (get o "price") /\ stable (get o "stock")
    /\ DB.when_truthy (default VNull (get Product "productName"))
                      DB.validateProductName = Return tt
    /\ absent_or_valid DB.validatePrice (get Product "price")
    /\ absent_or_valid DB.validateStock (get Product "stock")
    /\ negative_zero (get Product "stock") = false.

(** How far the call for an element of a batch of updates has got, the
    element being updatable in the collection [c0] the batch started from
    or refused before any storage request; [c] is the collection now.  The
    lookup is pending, or the [save()] is, and the stored document is
    still the one of [c0]; or the call has returned and the stored
    document is the updated one. *)
Inductive update_phase (c0 c : collection) (Product : object)
  : prog Document -> Prop :=
| uphase_looking (n : float) (j : nat) (o : object) (rest : list Document) :
    updatable c0 Product -> get Product "id" = VNum n ->
    find_from 0 n c0 = mkDocument j false o [] [] :: rest ->
    nth_error c j = Some o ->
    update_phase c0 c Product (update_task Product)
| uphase_saving (n : float) (j : nat) (o : object) (rest : list Document) :
    updatable c0 Product -> get Product "id" = VNum n ->
    find_from 0 n c0 = mkDocument j false o [] [] :: rest ->
    nth_error c j = Some o ->
    update_phase c0 c Product
      (Save (mkDocument j false (update_of o Product)
                        [("productName",
                          coalesce (default VNull (get Product "productName"))
                                   VUndefined)] [])
            (fun r => Ret r))
| uphase_done (n : float) (j : nat) (o : object) (rest : list Document)
              (d : Document) :
    updatable c0 Product -> get Product "id" = VNum n ->
    find_from 0 n c0 = mkDocument j false o [] [] :: rest ->
    nth_error c j = Some (update_of o Product) ->
    _doc d = update_of o Product ->
    update_phase c0 c Product (Ret d)
| uphase_refused (e : error) :
    rejection (update_task Product) = Some e ->
    update_phase c0 c Product (Throw e).

(** The phases of the calls of a batch of updates, element by element;
    the ids are those of [c0], and a document of [c0] is still stored
    unless it is the one an updatable element is applied to. *)
Definition update_phases (c0 : collection) (Products : list object)
           (tasks : list (prog Document)) (c : collection) : Prop :=
  List.length tasks = List.length Products
  /\ ids c = ids c0
  /\ (forall i P t, nth_error Products i = Some P -> nth_error tasks i = Some t ->
                    update_phase c0 c P t)
  /\ forall j o, nth_error c0 j = Some o ->
                 nth_error c j = Some o
                 \/ exists P n rest,
                     In P Products /\ updatable c0 P /\ get P "id" = VNum n
                     /\ find_from 0 n c0 = mkDocument j false o [] [] :: rest.

(* ================================================================== *)
(** * Properties *)

(** ** The error classes the module can construct *)

Lemma new_error_exported :
  new_error "ProductIdExistsError" = Err errors.ProductIdExistsError /\
  new_error "ProductIdNotExistsError" = Err errors.ProductIdNotExistsError /\
  new_error "IdNotDefinedError" = Err errors.IdNotDefinedError /\
  new_error "InvalidIdError" = Err errors.InvalidIdError /\
  new_error "InvalidProductNameError" = Err errors.InvalidProductNameError /\
  new_error "InvalidPriceError" = Err errors.InvalidPriceError.
Proof. repeat split; reflexivity. Qed.

(** [InvalidStockError] is declared but not exported: constructing it from
    the module object throws [TypeError]. *)
Lemma new_error_InvalidStockError : new_error "InvalidStockError" = TypeError.
Proof. reflexivity. Qed.

(** ** Product names *)

Module NamesFacts.
Import Names.

(** The source text reads as the class followed by the seven literal
    characters [{3, 24}]: the blank keeps the braces from being a
    quantifier. *)
Lemma pattern_read :
  pattern =
  map Regex.once
      [ Regex.Class [("A", "Z"); ("a", "z"); ("0", "9"); ("-", "-"); (" ", " ")]%char;
        Regex.Char "{"; Regex.Char "3"; Regex.Char ","; Regex.Char " ";
        Regex.Char "2"; Regex.Char "4"; Regex.Char "}" ]%char.
Proof. reflexivity. Qed.

(** Without the blank the same text is the class repeated 3 to 24 times. *)
Lemma pattern_without_blank :
  Regex.RegExp "[A-Za-z0-9- ]{3,24}" =
  [ Regex.Term
      (Regex.Class [("A", "Z"); ("a", "z"); ("0", "9"); ("-", "-"); (" ", " ")]%char)
      3 (Some 24) ].
Proof. reflexivity. Qed.

Lemma rep_once (a : Regex.atom) (k : string -> bool) (s : string) :
  Regex.rep a k 1 (Some 1) s =
  match s with
  | EmptyString => false
  | String c s' => Regex.atom_matches a c && k s'
  end.
Proof.
  destruct s as [|c s']; [reflexivity|].
  cbn. destruct (Regex.atom_matches a c); [|reflexivity].
  cbn. destruct s'; cbn; now rewrite orb_false_r.
Qed.

(** A match of the pattern starts at a character followed by [{]. *)
Lemma match_here_brace (s : string) :
  Regex.match_here pattern s = true ->
  exists c rest, s = String c (String "{" rest).
Proof.
  rewrite pattern_read. cbn [map Regex.match_here Regex.once Regex.tatom
                             Regex.rmin Regex.rmax].
  rewrite rep_once. destruct s as [|c s]; [discriminate|].
  rewrite rep_once. destruct s as [|c' s]; [rewrite andb_false_r; discriminate|].
  intros H. apply andb_prop in H as [_ H]. apply andb_prop in H as [H _].
  cbn in H. apply Ascii.eqb_eq in H. subst c'. now exists c, s.
Qed.

Lemma search_has_brace (s : string) :
  Regex.search pattern s = true -> has_brace s = true.
Proof.
  induction s as [|c s IH]; cbn [Regex.search has_brace]; intros H.
  - apply orb_prop in H as [H|H]; [|discriminate].
    apply match_here_brace in H as (c & rest & E). discriminate.
  - apply orb_prop in H as [H|H].
    + apply match_here_brace in H as (c' & rest & E).
      injection E as -> ->. cbn. now rewrite orb_true_r.
    + rewrite (IH H). now rewrite orb_true_r.
Qed.

Lemma allowed_not_brace (c : ascii) : allowed c = true -> Ascii.eqb c "{" = false.
Proof.
  destruct (Ascii.eqb c "{") eqn:E; [|reflexivity].
  apply Ascii.eqb_eq in E. subst c. cbv. discriminate.
Qed.

Lemma all_allowed_no_brace (s : string) :
  all_allowed s = true -> has_brace s = false.
Proof.
  induction s as [|c s IH]; cbn [all_allowed has_brace]; [reflexivity|].
  intros H. apply andb_prop in H as [Hc Hs].
  now rewrite (allowed_not_brace _ Hc), (IH Hs).
Qed.

End NamesFacts.

(** C2. [validateProductName] does not implement the naming rule: every
    name the rule allows (3 to 24 letters, digits, hyphens and spaces),
    ["cheese"] among them, is rejected with [InvalidProductNameError],
    because a name of allowed characters cannot contain the literal text
    [{3, 24}] the pattern asks for. *)
Theorem validateProductName_rejects_allowed_names (s : string) :
  Names.spec_valid s = true ->
  DB.validateProductName (VStr s) = Threw (Err errors.InvalidProductNameError).
Proof.
  intros H. unfold Names.spec_valid in H.
  apply andb_prop in H as [_ H].
  apply NamesFacts.all_allowed_no_brace in H.
  unfold DB.validateProductName. fold Names.pattern.
  destruct (Regex.search Names.pattern s) eqn:E; [|reflexivity].
  apply NamesFacts.search_has_brace in E. congruence.
Qed.

Lemma validateProductName_cheese :
  Names.spec_valid "cheese" = true /\
  DB.validateProductName (VStr "cheese") = Threw (Err errors.InvalidProductNameError).
Proof.
  split; [reflexivity|].
  apply (validateProductName_rejects_allowed_names "cheese"). reflexivity.
Defined.

(** A name the rule forbids and the validator accepts. *)
Lemma validateProductName_accepts_braces :
  Names.spec_valid "a{3, 24}" = false /\
  DB.validateProductName (VStr "a{3, 24}") = Return tt.
Proof. split; reflexivity. Qed.

(** ** Stock levels *)

(** C5 (as amended). [validateStock] throws exactly when its argument is not
    number-typed, or is a number below 0 or above 9999.  There is no
    integrality test and every comparison with NaN is false, so 1.5 and NaN
    are accepted. *)
Theorem validateStock_throws_iff (stock : value) :
  ((exists e, DB.validateStock stock = Threw e) <->
   (typeof stock <> TNumber \/
    exists n, stock = VNum n /\ (lt n 0 = true \/ gt n 9999 = true)))
  /\ (DB.validateStock stock = Return tt <->
      exists n, stock = VNum n /\ lt n 0 = false /\ gt n 9999 = false).
Proof.
  split; split.
  - intros [e H]. destruct stock; try (left; cbn; discriminate).
    right. exists n. split; [reflexivity|].
    unfold DB.validateStock in H. destruct (lt n 0); [now left|].
    destruct (gt n 9999); [now right|discriminate].
  - intros [H | (n & -> & H)].
    + destruct stock; cbn; eauto. now contradiction H.
    + unfold DB.validateStock.
      destruct H as [-> | ->]; [|rewrite orb_true_r]; cbn [orb]; eauto.
  - intros H. destruct stock; try discriminate.
    exists n. unfold DB.validateStock in H.
    destruct (lt n 0); [discriminate|]. destruct (gt n 9999); [discriminate|].
    auto.
  - intros (n & -> & H1 & H2). unfold DB.validateStock. now rewrite H1, H2.
Qed.

(** The claim as stated fails at 1.5: a non-integer stock is accepted. *)
Lemma validateStock_accepts_fraction :
  DB.validateStock (VNum 1.5) = Return tt.
Proof. reflexivity. Qed.

Lemma validateStock_accepts_NaN : DB.validateStock (VNum nan) = Return tt.
Proof. reflexivity. Qed.

(** Every integer from 0 to 9999 is an accepted stock. *)
Theorem validateStock_accepts_integers (z : Z) :
  (0 <= z <= 9999)%Z -> DB.validateStock (VNum (of_integer z)) = Return tt.
Proof.
  intros Hz.
  assert (All : forallb (fun k => match DB.validateStock (VNum (of_integer (Z.of_nat k))) with
                                  | Return _ => true
                                  | Threw _ => false
                                  end) (seq 0 (100 * 100)) = true)
    by (vm_compute; reflexivity).
  rewrite forallb_forall in All.
  specialize (All (Z.to_nat z)). rewrite Z2Nat.id in All by lia.
  destruct (DB.validateStock (VNum (of_integer z))) as [[]|e]; [reflexivity|].
  assert (In (Z.to_nat z) (seq 0 (100 * 100))) by (apply in_seq; lia).
  now specialize (All H).
Qed.

Lemma validateStock_accepts_integers_witness :
  (0 <= 55 <= 9999)%Z /\ DB.validateStock (VNum (of_integer 55)) = Return tt.
Proof.
  split; [lia|]. apply (@validateStock_accepts_integers 55%Z). lia.
Defined.

(** The constructor [validateStock] reaches for is missing from the module
    object ([module.exports] lists [InvalidPriceError] twice and
    [InvalidStockError] not at all), so whatever it refuses it refuses with
    a [TypeError]: below 0, above 9999, not a number. *)
Theorem validateStock_throws_TypeError :
  (forall stock, DB.validateStock stock = Return tt
                 \/ DB.validateStock stock = Threw TypeError)
  /\ DB.validateStock (VNum (-1)) = Threw TypeError
  /\ DB.validateStock (VNum 10000) = Threw TypeError
  /\ DB.validateStock (VStr "5") = Threw TypeError.
Proof.
  split; [|repeat split; reflexivity].
  intros stock. unfold DB.validateStock. rewrite new_error_InvalidStockError.
  destruct stock; auto. destruct (lt n 0 || gt n 9999); auto.
Qed.

Lemma validateStock_returns_number (stock : value) :
  DB.validateStock stock = Return tt -> exists n, stock = VNum n.
Proof. destruct stock; try discriminate. eauto. Qed.

(** ** Prices *)

Lemma validatePrice_returns_iff (price : value) :
  DB.validatePrice price = Return tt <->
  exists n, price = VNum n /\ lt n 0.01 = false /\ gt n 9999 = false.
Proof.
  split.
  - intros H. destruct price; try discriminate.
    exists n. unfold DB.validatePrice in H.
    destruct (lt n 0.01); [discriminate|]. destruct (gt n 9999); [discriminate|].
    auto.
  - intros (n & -> & H1 & H2). unfold DB.validatePrice. now rewrite H1, H2.
Qed.

Lemma validatePrice_examples :
  DB.validatePrice (VNum 0) = Threw (Err errors.InvalidPriceError) /\
  DB.validatePrice (VNum (-1)) = Threw (Err errors.InvalidPriceError) /\
  DB.validatePrice (VNum 10000) = Threw (Err errors.InvalidPriceError) /\
  DB.validatePrice (VNum 0.01) = Return tt /\
  DB.validatePrice (VNum 9999) = Return tt /\
  DB.validatePrice (VNum nan) = Return tt.
Proof. repeat split; reflexivity. Qed.

(** ** Looking documents up *)

Lemma find_from_nil (i : nat) (n : float) (c : collection) :
  find_from i n c = [] <-> stored_id c n = false.
Proof.
  revert i. induction c as [|o c IH]; intros i; cbn; [tauto|].
  destruct (same_id (get o "id") (VNum n)); cbn.
  - split; discriminate.
  - apply IH.
Qed.

Lemma stored_id_In (c : collection) (n : float) :
  stored_id c n = true <->
  exists o, In o c /\ same_id (get o "id") (VNum n) = true.
Proof. unfold stored_id. apply existsb_exists. Qed.

(** A truthy number is not NaN: queries on validated ids are modelled. *)
Lemma truthy_not_nan (n : float) :
  ToBoolean (VNum n) = true -> PrimFloat.is_nan n = false.
Proof.
  cbn. intros H. apply negb_true_iff in H.
  now apply orb_false_iff in H as [_ H].
Qed.

(** ** Ids *)

(** What [validateId] does, case by case. *)
Lemma validateId_run (c : collection) (id : value) (mutation : bool) :
  run (DB.validateId id mutation) c =
  Some (if negb (ToBoolean id) then Threw (Err errors.IdNotDefinedError)
        else match id with
             | VNum n =>
                 if lt n 1 then Threw (Err errors.InvalidIdError)
                 else if negb mutation && stored_id c n
                      then Threw (Err errors.ProductIdExistsError)
                      else Return tt
             | _ => Threw (Err errors.InvalidIdError)
             end, c).
Proof.
  unfold DB.validateId.
  destruct (ToBoolean id) eqn:T; cbn [negb]; [|reflexivity].
  destruct id; try reflexivity.
  destruct (lt n 1); [reflexivity|].
  destruct mutation; cbn [negb andb]; [reflexivity|].
  cbn -[ToBoolean]. rewrite (truthy_not_nan _ T).
  destruct (find_from 0 n c) eqn:F.
  - apply find_from_nil in F. now rewrite F.
  - destruct (stored_id c n) eqn:S; [reflexivity|].
    apply (find_from_nil 0) in S. congruence.
Qed.

(** C6 (as amended). [validateId] throws [IdNotDefinedError] exactly for a
    falsy id; [InvalidIdError] exactly for a truthy id that is not
    number-typed or is below 1; and, when [mutation] is false only,
    [ProductIdExistsError] exactly for an id that passed both tests and is
    the id of a stored document.  Whether a number is an integer is never
    tested. *)
Theorem validateId_throws_iff (c : collection) (id : value) (mutation : bool) :
  (run (DB.validateId id mutation) c = Some (Threw (Err errors.IdNotDefinedError), c)
   <-> ToBoolean id = false)
  /\ (run (DB.validateId id mutation) c = Some (Threw (Err errors.InvalidIdError), c)
      <-> ToBoolean id = true /\
          (typeof id <> TNumber \/ exists n, id = VNum n /\ lt n 1 = true))
  /\ (run (DB.validateId id mutation) c = Some (Threw (Err errors.ProductIdExistsError), c)
      <-> mutation = false /\ ToBoolean id = true /\
          exists n, id = VNum n /\ lt n 1 = false /\
                    exists o, In o c /\ same_id (get o "id") id = true).
Proof.
  rewrite validateId_run.
  destruct (ToBoolean id) eqn:T; cbn [negb].
  2:{ split; [|split]; split; intros H; try discriminate; try reflexivity.
      - destruct H as [H _]; discriminate.
      - destruct H as (_ & H & _); discriminate. }
  assert (N : (exists n, id = VNum n) \/ typeof id <> TNumber).
  { destruct id; try (right; cbn; discriminate). left; eauto. }
  destruct N as [[n ->] | N].
  2:{ assert (E : match id with
                      | VNum n =>
                          if lt n 1 then Threw (Err errors.InvalidIdError)
                          else if negb mutation && stored_id c n
                               then Threw (Err errors.ProductIdExistsError)
                               else Return tt
                      | _ => Threw (Err errors.InvalidIdError)
                      end = Threw (A:=unit) (Err errors.InvalidIdError)).
      { destruct id; try reflexivity. now contradiction N. }
      rewrite E. split; [|split]; split; intros H; try discriminate; auto.
      destruct H as (_ & _ & n & -> & _). now contradiction N. }
  destruct (lt n 1) eqn:L.
  { split; [|split]; split; intros H; try discriminate; auto.
    - split; [reflexivity|]. right. eauto.
    - destruct H as (_ & _ & m & E & L' & _). injection E as <-. congruence. }
  destruct (negb mutation && stored_id c n) eqn:S.
  - apply andb_prop in S as [M S]. apply negb_true_iff in M.
    apply stored_id_In in S.
    split; [|split]; split; intros H; try discriminate; auto.
    + destruct H as [_ [H | (m & E & L')]]; [now contradiction H|].
      injection E as <-. congruence.
    + split; [assumption|]. split; [reflexivity|]. eauto.
  - split; [|split]; split; intros H; try discriminate.
    + destruct H as [_ [H | (m & E & L')]]; [now contradiction H|].
      injection E as <-. congruence.
    + destruct H as (M & _ & m & E & _ & S'). injection E as <-.
      apply stored_id_In in S'. subst mutation. cbn in S. congruence.
Qed.

(** The claim as stated fails at 1.5: a non-integer id of at least 1 passes. *)
Lemma validateId_accepts_fraction :
  run (DB.validateId (VNum 1.5) false) [] = Some (Return tt, []).
Proof. reflexivity. Qed.

Lemma validateId_examples :
  run (DB.validateId (VNum 2) false) [] = Some (Return tt, []) /\
  run (DB.validateId (VStr "k") false) [] = Some (Threw (Err errors.InvalidIdError), []) /\
  run (DB.validateId (VNum 0) false) [] = Some (Threw (Err errors.IdNotDefinedError), []) /\
  run (DB.validateId (VNum 0.5) true) [] = Some (Threw (Err errors.InvalidIdError), []) /\
  run (DB.validateId VUndefined false) [] = Some (Threw (Err errors.IdNotDefinedError), []).
Proof. repeat split; reflexivity. Qed.

(** ** Running programs *)

Lemma run_bind {A B : Type} (p : prog A) (f : A -> prog B) (c : collection) :
  run (bind p f) c =
  match run p c with
  | Some (Return a, c') => run (f a) c'
  | Some (Threw e, c') => Some (Threw e, c')
  | None => None
  end.
Proof.
  revert c. induction p as [a|e|q k IH|d k IH|]; intros c; cbn; try reflexivity.
  - destruct (Mongoose.find q c); [apply IH|reflexivity].
  - destruct (Mongoose.save d c) as [[d'|e] c']; [apply IH|reflexivity].
Qed.

(** Answering the pending request of a call and running what is left is
    running the call: [run] is the interleaving of one task. *)
Lemma run_advance {A : Type} (p p' : prog A) (c c' : collection) :
  advance p c = Some (p', c') -> run p c = run p' c'.
Proof.
  destruct p as [a|e|q k|d k|]; cbn.
  - intros E. now injection E as <- <-.
  - intros E. now injection E as <- <-.
  - destruct (Mongoose.find q c); [|discriminate].
    intros E. now injection E as <- <-.
  - destruct (Mongoose.save d c) as [[d'|e] c1]; intros E; now injection E as <- <-.
  - discriminate.
Qed.

Lemma run_call {A : Type} (r : result A) (c : collection) :
  run (call r) c = Some (r, c).
Proof. destruct r; reflexivity. Qed.

Lemma run_save_doc (d : Document) (c : collection) :
  run (save_doc d) c = Some (Mongoose.save d c).
Proof.
  unfold save_doc. cbn. destruct (Mongoose.save d c) as [[d'|e] c']; reflexivity.
Qed.

Lemma run_find_exec (n : float) (c : collection) :
  PrimFloat.is_nan n = false ->
  run (find_exec (VNum n)) c = Some (Return (find_from 0 n c), c).
Proof. intros H. unfold find_exec. cbn. now rewrite H. Qed.

Lemma run_lookup (n : float) (c : collection) :
  PrimFloat.is_nan n = false ->
  run (DB.lookup (VNum n)) c =
  Some (match find_from 0 n c with
        | Product :: _ => Return Product
        | [] => Threw (Err errors.ProductIdNotExistsError)
        end, c).
Proof.
  intros H. unfold DB.lookup. rewrite run_bind, run_find_exec by assumption.
  destruct (find_from 0 n c); reflexivity.
Qed.

(** ** Objects *)


Lemma get_put_other (o : object) (k k' : string) (v : value) :
  String.eqb k k' = false -> get (put o k v) k' = get o k'.
Proof.
  intros N. induction o as [|[k0 w] o IH]; cbn.
  - now rewrite N.
  - destruct (String.eqb k0 k) eqn:E; cbn.
    + apply String.eqb_eq in E. subst k0. now rewrite N.
    + destruct (String.eqb k0 k'); [reflexivity|apply IH].
Qed.


(** ** The collection *)

Lemma stable_number (p : float) :
  PrimFloat.is_nan p = false -> stable (VNum p).
Proof. intros H. unfold stable. cbn. now rewrite H. Qed.

Lemma find_from_head (i : nat) (n : float) (c : collection) (P : Document)
      (rest : list Document) :
  find_from i n c = P :: rest ->
  exists j o,
    P = mkDocument (i + j) false o [] [] /\
    nth_error c j = Some o /\
    same_id (get o "id") (VNum n) = true /\
    forall o', same_id (get o' "id") (VNum n) = true ->
               find_from i n (replace j o' c) = mkDocument (i + j) false o' [] [] :: rest.
Proof.
  revert i. induction c as [|o c IH]; intros i; cbn; [discriminate|].
  destruct (same_id (get o "id") (VNum n)) eqn:E.
  - intros H. injection H as <- <-. exists 0, o.
    rewrite Nat.add_0_r. repeat split; try assumption.
    intros o' E'. cbn. now rewrite E'.
  - intros H. destruct (IH _ H) as (j & o1 & -> & N & Sm & R).
    exists (Datatypes.S j), o1. rewrite Nat.add_succ_r. repeat split; try assumption.
    intros o' E'. cbn. rewrite E. now apply R.
Qed.

Lemma stored_find (c : collection) (n : float) (o : object) :
  stored c n = Some o ->
  exists j rest,
    find_from 0 n c = mkDocument j false o [] [] :: rest /\
    nth_error c j = Some o /\
    same_id (get o "id") (VNum n) = true /\
    forall o', same_id (get o' "id") (VNum n) = true ->
               stored (replace j o' c) n = Some o'.
Proof.
  unfold stored. destruct (find_from 0 n c) as [|P rest] eqn:F; [discriminate|].
  cbn. intros H. injection H as <-.
  destruct (find_from_head _ _ _ F) as (j & o & -> & N & Sm & R).
  exists j, rest. cbn. repeat split; try assumption.
  intros o' E'. now rewrite (R o' E').
Qed.

(** Writing the document of id [n] back leaves the documents of the other
    ids as they were. *)
Lemma find_from_replace_other (i j : nat) (m : float) (c : collection)
      (o o' : object) :
  nth_error c j = Some o ->
  same_id (get o "id") (VNum m) = false ->
  same_id (get o' "id") (VNum m) = false ->
  find_from i m (replace j o' c) = find_from i m c.
Proof.
  revert i j. induction c as [|o0 c IH]; intros i j N E E';
    [destruct j; discriminate|].
  destruct j as [|j]; cbn in *.
  - injection N as ->. now rewrite E, E'.
  - rewrite (IH (S i) j N E E'). reflexivity.
Qed.

(** ** Adding a product *)

(** The model constructor on validated arguments: [productName] is no path
    of [productSchema] and is dropped; a NaN price or stock fails its cast. *)
Lemma ProductModel_numbers (n p s : float) (name : value) :
  PrimFloat.is_nan n = false ->
  ProductModel (product_literal (VNum n) name (VNum p) (VNum s)) =
  Some (mkDocument 0 true
          (("id", VNum n)
             :: (if PrimFloat.is_nan p then [] else [("price", VNum p)])
             ++ (if PrimFloat.is_nan s then [] else [("stock", VNum s)]))
          []
          ((if PrimFloat.is_nan s then ["stock"] else [])
             ++ (if PrimFloat.is_nan p then ["price"] else []))).
Proof.
  intros H. unfold ProductModel, Mongoose.Model, product_literal.
  cbn -[PrimFloat.is_nan]. unfold set_path. cbn -[PrimFloat.is_nan]. rewrite H.
  cbn -[PrimFloat.is_nan].
  destruct (PrimFloat.is_nan p); cbn -[PrimFloat.is_nan];
    destruct (PrimFloat.is_nan s); reflexivity.
Qed.

(** [addProduct], step by step. *)
Lemma addProduct_run (c : collection) (id productName price stock : value) :
  run (DB.addProduct id productName price stock) c =
  match run (DB.validateId id false) c with
  | Some (Return _, _) =>
      match DB.validateProductName (default (VStr "") productName) with
      | Threw e => Some (Threw e, c)
      | Return _ =>
          match DB.validatePrice (default (VNum 0) price) with
          | Threw e => Some (Threw e, c)
          | Return _ =>
              match DB.validateStock (default (VNum 0) stock) with
              | Threw e => Some (Threw e, c)
              | Return _ =>
                  match ProductModel
                          (product_literal id (default (VStr "") productName)
                                           (default (VNum 0) price)
                                           (default (VNum 0) stock)) with
                  | Some Product => Some (Mongoose.save Product c)
                  | None => None
                  end
              end
          end
      end
  | Some (Threw e, _) => Some (Threw e, c)
  | None => None
  end.
Proof.
  unfold DB.addProduct. rewrite run_bind, validateId_run.
  match goal with
  | |- match ?r with Return _ => _ | Threw _ => _ end = _ => destruct r as [[]|e]
  end; [|reflexivity].
  rewrite run_bind, run_call.
  destruct (DB.validateProductName _) as [[]|e]; [|reflexivity].
  rewrite run_bind, run_call.
  destruct (DB.validatePrice _) as [[]|e]; [|reflexivity].
  rewrite run_bind, run_call.
  destruct (DB.validateStock _) as [[]|e]; [|reflexivity].
  rewrite run_bind. fold (product_literal id (default (VStr "") productName)
                                          (default (VNum 0) price)
                                          (default (VNum 0) stock)).
  destruct (ProductModel _) as [Product|]; [|reflexivity].
  cbn [model run]. rewrite run_bind, run_save_doc.
  destruct (Mongoose.save Product c) as [[d|e] c']; reflexivity.
Qed.

(** A successful [validateId] in add mode: a truthy number, not below 1,
    not the id of a stored document. *)
Lemma validateId_returns (c : collection) (id : value) (mutation : bool) (c' : collection) :
  run (DB.validateId id mutation) c = Some (Return tt, c') ->
  exists n, id = VNum n /\ ToBoolean id = true /\ lt n 1 = false /\
            (mutation = false -> stored_id c n = false).
Proof.
  rewrite validateId_run. destruct (ToBoolean id) eqn:T; cbn [negb]; [|discriminate].
  destruct id; try discriminate.
  destruct (lt n 1) eqn:L; [discriminate|].
  destruct mutation; cbn [negb andb].
  - intros _. exists n. repeat split; try assumption. discriminate.
  - destruct (stored_id c n) eqn:E; [discriminate|]. intros _. exists n. auto.
Qed.

(** What a successful [addProduct] leaves: one document appended to the
    collection, holding the id, the price and the stock (0 when the
    argument was left out), and no name. *)
Lemma addProduct_returns (c c' : collection) (id productName price stock : value)
      (d : Document) :
  run (DB.addProduct id productName price stock) c = Some (Return d, c') ->
  exists n p s,
    id = VNum n /\ price = VNum p /\ default (VNum 0) stock = VNum s /\
    ToBoolean id = true /\ lt n 1 = false /\ stored_id c n = false /\
    DB.validateProductName (default (VStr "") productName) = Return tt /\
    DB.validatePrice price = Return tt /\ PrimFloat.is_nan p = false /\
    DB.validateStock (VNum s) = Return tt /\ PrimFloat.is_nan s = false /\
    d = mkDocument (List.length c) false
                   [("id", VNum n); ("price", VNum p); ("stock", VNum s)] [] [] /\
    c' = c ++ [ [("id", VNum n); ("price", VNum p); ("stock", VNum s)] ].
Proof.
  rewrite addProduct_run.
  destruct (run (DB.validateId id false) c) as [[[[]|e] c0]|] eqn:V; try discriminate.
  apply validateId_returns in V as (n & -> & T & L & S). specialize (S eq_refl).
  destruct (DB.validateProductName _) as [[]|e] eqn:VN; [|discriminate].
  destruct (DB.validatePrice _) as [[]|e] eqn:VP; [|discriminate].
  destruct (DB.validateStock _) as [[]|e] eqn:VS; [|discriminate].
  pose proof VP as VP'. apply validatePrice_returns_iff in VP' as (p & Ep & _).
  pose proof VS as VS'. apply validateStock_returns_number in VS' as (s & Es).
  assert (price = VNum p) as ->.
  { destruct price; cbn in Ep; try assumption.
    injection Ep as <-. cbv in VP. discriminate. }
  rewrite Es in *. cbn [default] in *.
  rewrite ProductModel_numbers by (now apply truthy_not_nan).
  unfold Mongoose.save. cbn [castErrors isNew _doc own].
  destruct (PrimFloat.is_nan p) eqn:Np;
    [destruct (PrimFloat.is_nan s); discriminate|].
  destruct (PrimFloat.is_nan s) eqn:Ns; [discriminate|].
  cbn [app get]. cbn -[same_id].
  change (existsb (fun o => same_id (get o "id") (VNum n)) c) with (stored_id c n).
  rewrite S. intros H. injection H as <- <-.
  exists n, p, s. repeat split; assumption.
Qed.

Lemma addProduct_valid (c : collection) (n p s : float) (productName : value) :
  ToBoolean (VNum n) = true -> lt n 1 = false -> stored_id c n = false ->
  DB.validateProductName (default (VStr "") productName) = Return tt ->
  DB.validatePrice (VNum p) = Return tt -> PrimFloat.is_nan p = false ->
  DB.validateStock (VNum s) = Return tt -> PrimFloat.is_nan s = false ->
  run (DB.addProduct (VNum n) productName (VNum p) (VNum s)) c =
  Some (Return (mkDocument (List.length c) false
                           [("id", VNum n); ("price", VNum p); ("stock", VNum s)] [] []),
        c ++ [ [("id", VNum n); ("price", VNum p); ("stock", VNum s)] ]).
Proof.
  intros T L S VN VP Np VS Ns.
  rewrite addProduct_run, validateId_run, T, L, S. cbn [negb andb default].
  rewrite VN, VP, VS, ProductModel_numbers by (now apply truthy_not_nan).
  rewrite Np, Ns. unfold Mongoose.save. cbn [castErrors isNew _doc own app get].
  cbn -[same_id].
  change (existsb (fun o => same_id (get o "id") (VNum n)) c) with (stored_id c n).
  now rewrite S.
Qed.

Lemma same_id_refl (n : float) :
  PrimFloat.is_nan n = false -> same_id (VNum n) (VNum n) = true.
Proof. unfold PrimFloat.is_nan. cbn. now intros H%negb_false_iff. Qed.

Lemma stored_id_app (c : collection) (o : object) (n : float) :
  stored_id (c ++ [o]) n = stored_id c n || same_id (get o "id") (VNum n).
Proof. unfold stored_id. rewrite existsb_app. cbn. now rewrite orb_false_r. Qed.

(** [getProduct] validates its id in add mode, so it throws for every id
    [addProduct] has stored. *)
Lemma getProduct_after_addProduct (c c' : collection)
      (id productName price stock : value) (d : Document) :
  run (DB.addProduct id productName price stock) c = Some (Return d, c') ->
  run (DB.getProduct id) c' = Some (Threw (Err errors.ProductIdExistsError), c').
Proof.
  intros H. apply addProduct_returns in H
    as (n & p & s & -> & _ & _ & T & L & _ & _ & _ & _ & _ & _ & _ & ->).
  unfold DB.getProduct. rewrite run_bind, validateId_run, T, L.
  cbn [negb andb]. rewrite stored_id_app.
  cbn [get String.eqb Ascii.eqb Bool.eqb].
  rewrite same_id_refl by (now apply truthy_not_nan).
  now rewrite orb_true_r.
Qed.

Lemma getProduct_after_addProduct_witness :
  run (DB.addProduct (VNum 1) (VStr "a{3, 24}") (VNum 5.99) (VNum 55)) []
  = Some (Return (mkDocument 0 false stored_pizza [] []), [stored_pizza])
  /\ run (DB.getProduct (VNum 1)) [stored_pizza]
     = Some (Threw (Err errors.ProductIdExistsError), [stored_pizza]).
Proof.
  split; [reflexivity|].
  apply (@getProduct_after_addProduct
           [] [stored_pizza] (VNum 1) (VStr "a{3, 24}") (VNum 5.99) (VNum 55)
           (mkDocument 0 false stored_pizza [] [])).
  reflexivity.
Defined.

(** For an id that is not stored, [getProduct] returns [undefined]. *)
Lemma getProduct_absent (c : collection) (n : float) :
  ToBoolean (VNum n) = true -> lt n 1 = false -> stored_id c n = false ->
  run (DB.getProduct (VNum n)) c = Some (Return None, c).
Proof.
  intros T L S. unfold DB.getProduct.
  rewrite run_bind, validateId_run, T, L, S. cbn [negb andb].
  rewrite run_bind, run_find_exec by (now apply truthy_not_nan).
  apply (find_from_nil 0) in S. now rewrite S.
Qed.

(** C1. [addProduct(id, "pizza", 5.99, 55)] never succeeds: whatever the id
    and the collection, the call is rejected and the collection is left as
    it was, with the error of [validateId] when the id is refused and with
    [InvalidProductNameError] otherwise.  And [getProduct] of an id that
    was added (here with a name the validator lets through) throws
    [ProductIdExistsError] instead of returning the product. *)
Theorem addProduct_pizza_is_rejected :
  (forall (c : collection) (id price stock : value),
      run (DB.addProduct id (VStr "pizza") price stock) c
      = Some (Threw (match run (DB.validateId id false) c with
                     | Some (Threw e, _) => e
                     | _ => Err errors.InvalidProductNameError
                     end), c))
  /\ run (DB.addProduct (VNum 1) (VStr "pizza") (VNum 5.99) (VNum 55)) []
     = Some (Threw (Err errors.InvalidProductNameError), [])
  /\ (exists d c',
         run (DB.addProduct (VNum 1) (VStr "a{3, 24}") (VNum 5.99) (VNum 55)) []
         = Some (Return d, c')
         /\ run (DB.getProduct (VNum 1)) c'
            = Some (Threw (Err errors.ProductIdExistsError), c')).
Proof.
  split; [|split].
  - intros c id price stock. rewrite addProduct_run, validateId_run.
    match goal with
    | |- match ?r with Return _ => _ | Threw _ => _ end = _ =>
        destruct r as [[]|e]
    end; [|reflexivity].
    assert (E : DB.validateProductName (default (VStr "") (VStr "pizza"))
                = Threw (Err errors.InvalidProductNameError)) by reflexivity.
    now rewrite E.
  - reflexivity.
  - eexists _, _. split; reflexivity.
Qed.

(** C7. The document a successful [addProduct] persists has the fields
    [id], [price] and [stock] and no field [productName]: the schema names
    its string path [product], so the name handed to the model is dropped,
    and reading [productName] from the returned document gives
    [undefined]. *)
Theorem addProduct_persists_no_productName
        (c c' : collection) (id productName price stock : value) (d : Document) :
  run (DB.addProduct id productName price stock) c = Some (Return d, c') ->
  c' = c ++ [_doc d]
  /\ _doc d = [("id", id); ("price", price); ("stock", default (VNum 0) stock)]
  /\ has (_doc d) "productName" = false
  /\ get (_doc d) "product" = VUndefined
  /\ Mongoose.read productSchema d "productName" = VUndefined.
Proof.
  intros H. apply addProduct_returns in H
    as (n & p & s & -> & -> & -> & _ & _ & _ & _ & _ & _ & _ & _ & -> & ->).
  repeat split; reflexivity.
Qed.

Lemma addProduct_persists_no_productName_witness :
  run (DB.addProduct (VNum 1) (VStr "a{3, 24}") (VNum 5.99) (VNum 55)) []
  = Some (Return (mkDocument 0 false stored_pizza [] []), [stored_pizza])
  /\ ([stored_pizza] = [] ++ [stored_pizza]
      /\ stored_pizza = [("id", VNum 1); ("price", VNum 5.99);
                         ("stock", default (VNum 0) (VNum 55))]
      /\ has stored_pizza "productName" = false
      /\ get stored_pizza "product" = VUndefined
      /\ Mongoose.read productSchema (mkDocument 0 false stored_pizza [] [])
                       "productName" = VUndefined).
Proof.
  split; [reflexivity|].
  apply (@addProduct_persists_no_productName
           [] [stored_pizza] (VNum 1) (VStr "a{3, 24}") (VNum 5.99) (VNum 55)
           (mkDocument 0 false stored_pizza [] [])).
  reflexivity.
Defined.

(** ** Updating a product *)

Lemma absent_or_valid_passes (validate : value -> result unit) (v old : value) :
  absent_or_valid validate v -> stable old ->
  DB.when_truthy (default VNull v) validate = Return tt /\
  castNumber (coalesce (default VNull v) old) = Cast (coalesce v old).
Proof.
  intros [N | (x & -> & Nx & V)] St.
  - destruct v; try discriminate; cbn; auto.
  - unfold DB.when_truthy. cbn [default coalesce]. rewrite V.
    split; [now destruct (ToBoolean (VNum x))|]. cbn. now rewrite Nx.
Qed.

Lemma validateId_mutation (c : collection) (n : float) :
  ToBoolean (VNum n) = true -> lt n 1 = false ->
  run (DB.validateId (VNum n) true) c = Some (Return tt, c).
Proof. intros T L. now rewrite validateId_run, T, L. Qed.

Lemma assign_cast (d : Document) (path : string) (v v' : value) :
  path_type productSchema path = Some Number ->
  castNumber v = Cast v' ->
  assign productSchema d path v =
  Some (mkDocument (_id d) (isNew d) (put (_doc d) path v') (own d)
                   (remove_path path (castErrors d))).
Proof. intros P C. unfold assign, set_path. rewrite P. cbn [cast]. now rewrite C. Qed.


Lemma assign_own (d : Document) (path : string) (v : value) :
  path_type productSchema path = None ->
  assign productSchema d path v =
  Some (mkDocument (_id d) (isNew d) (_doc d) (put (own d) path v) (castErrors d)).
Proof. intros P. unfold assign. now rewrite P. Qed.




(** C4. The field constraints are not an invariant of the collection:
    [updateProduct] with a price of 0 skips [validatePrice] (0 is falsy) and
    still writes the price, while [validatePrice] itself and
    [updateProductPrice] refuse 0.  The run starts from the empty
    collection. *)
Theorem updateProduct_persists_price_zero :
  run (DB.addProduct (VNum 1) (VStr "a{3, 24}") (VNum 5.99) (VNum 55)) []
  = Some (Return (mkDocument 0 false stored_pizza [] []), [stored_pizza])
  /\ run (DB.updateProduct (VNum 1) VNull (VNum 0) VNull) [stored_pizza]
     = Some (Return (mkDocument 0 false (put stored_pizza "price" (VNum 0))
                                [("productName", VUndefined)] []),
             [put stored_pizza "price" (VNum 0)])
  /\ option_map (fun o => get o "price")
                (stored [put stored_pizza "price" (VNum 0)] 1) = Some (VNum 0)
  /\ DB.validatePrice (VNum 0) = Threw (Err errors.InvalidPriceError)
  /\ run (DB.updateProductPrice (VNum 1) (VNum 0)) [stored_pizza]
     = Some (Threw (Err errors.InvalidPriceError), [stored_pizza]).
Proof. repeat split; reflexivity. Qed.

(** ** Updating an id that is not stored *)

(** C8. For a valid id that is not stored, [updateProductPrice] and
    [updateProductStock] with a value their validator accepts, and
    [updateProduct] without a name, are rejected with
    [ProductIdNotExistsError] as the claim says.  The variants that carry a
    name are not: [updateProductName] and [updateProduct] validate the name
    before they look the id up, and [validateProductName] refuses every
    name the naming rule allows, so with such a name they are rejected with
    [InvalidProductNameError].  The collection is left as it was in every
    case. *)
Theorem update_of_absent_id_with_a_name (c : collection) (n : float) (s : string) :
  ToBoolean (VNum n) = true -> lt n 1 = false -> stored_id c n = false ->
  Names.spec_valid s = true ->
  run (DB.updateProductName (VNum n) (VStr s)) c
  = Some (Threw (Err errors.InvalidProductNameError), c)
  /\ (forall price stock,
         run (DB.updateProduct (VNum n) (VStr s) price stock) c
         = Some (Threw (Err errors.InvalidProductNameError), c))
  /\ Err errors.InvalidProductNameError <> Err errors.ProductIdNotExistsError
  /\ (forall price,
         DB.validatePrice price = Return tt ->
         run (DB.updateProductPrice (VNum n) price) c
         = Some (Threw (Err errors.ProductIdNotExistsError), c))
  /\ (forall stock,
         DB.validateStock stock = Return tt ->
         run (DB.updateProductStock (VNum n) stock) c
         = Some (Threw (Err errors.ProductIdNotExistsError), c))
  /\ (forall productName price stock,
         nullish productName = true ->
         nullish price = true \/ DB.validatePrice price = Return tt ->
         nullish stock = true \/ DB.validateStock stock = Return tt ->
         run (DB.updateProduct (VNum n) productName price stock) c
         = Some (Threw (Err errors.ProductIdNotExistsError), c)).
Proof.
  intros T L S V. pose proof (truthy_not_nan _ T) as Nn.
  apply (find_from_nil 0) in S.
  assert (Truthy : ToBoolean (VStr s) = true).
  { unfold Names.spec_valid in V. apply andb_prop in V as [V _].
    apply andb_prop in V as [V _]. destruct s; [discriminate|reflexivity]. }
  assert (VN : DB.validateProductName (VStr s)
               = Threw (Err errors.InvalidProductNameError)).
  { unfold Names.spec_valid in V. apply andb_prop in V as [_ V].
    apply NamesFacts.all_allowed_no_brace in V.
    unfold DB.validateProductName. fold Names.pattern.
    destruct (Regex.search Names.pattern s) eqn:E; [|reflexivity].
    apply NamesFacts.search_has_brace in E. congruence. }
  assert (W : forall (validate : value -> result unit) v,
             nullish v = true \/ validate v = Return tt ->
             DB.when_truthy (default VNull v) validate = Return tt).
  { intros validate v [N | R].
    - destruct v; try discriminate; reflexivity.
    - unfold DB.when_truthy. destruct v; cbn [default]; try reflexivity;
        rewrite R;
        match goal with
        | |- (if ?b then _ else _) = _ => now destruct b
        end. }
  split; [|split; [|split; [|split; [|split]]]].
  - unfold DB.updateProductName. cbn [default].
    rewrite run_bind, validateId_mutation by assumption.
    now rewrite run_bind, run_call, VN.
  - intros price stock. unfold DB.updateProduct. cbn [default].
    rewrite run_bind, validateId_mutation by assumption.
    rewrite run_bind, run_call. unfold DB.when_truthy. now rewrite Truthy, VN.
  - discriminate.
  - intros price R. unfold DB.updateProductPrice.
    rewrite run_bind, validateId_mutation by assumption.
    assert (D : default (VNum 0) price = price) by (destruct price; try discriminate; reflexivity).
    rewrite D, run_bind, run_call, R.
    now rewrite run_bind, run_lookup, S by assumption.
  - intros stock R. unfold DB.updateProductStock.
    rewrite run_bind, validateId_mutation by assumption.
    assert (D : default (VNum 0) stock = stock) by (destruct stock; try discriminate; reflexivity).
    rewrite D, run_bind, run_call, R.
    now rewrite run_bind, run_lookup, S by assumption.
  - intros productName price stock N1 V2 V3. unfold DB.updateProduct.
    rewrite run_bind, validateId_mutation by assumption.
    rewrite run_bind, run_call, (W DB.validateProductName productName (or_introl N1)).
    rewrite run_bind, run_call, (W DB.validatePrice price V2).
    rewrite run_bind, run_call, (W DB.validateStock stock V3).
    now rewrite run_bind, run_lookup, S by assumption.
Qed.

Lemma update_of_absent_id_with_a_name_witness :
  (ToBoolean (VNum 99999) = true /\ lt 99999 1 = false
   /\ stored_id [stored_pizza] 99999 = false
   /\ Names.spec_valid "pizza" = true)
  /\ run (DB.updateProductName (VNum 99999) (VStr "pizza")) [stored_pizza]
     = Some (Threw (Err errors.InvalidProductNameError), [stored_pizza])
  /\ run (DB.updateProduct (VNum 99999) (VStr "pizza") (VNum 6.49) (VNum 55))
         [stored_pizza]
     = Some (Threw (Err errors.InvalidProductNameError), [stored_pizza])
  /\ run (DB.updateProductPrice (VNum 99999) (VNum 6.49)) [stored_pizza]
     = Some (Threw (Err errors.ProductIdNotExistsError), [stored_pizza])
  /\ run (DB.updateProductStock (VNum 99999) (VNum 55)) [stored_pizza]
     = Some (Threw (Err errors.ProductIdNotExistsError), [stored_pizza]).
Proof.
  split; [repeat split; reflexivity|].
  destruct (@update_of_absent_id_with_a_name [stored_pizza] 99999%float "pizza")
    as (Hn & Hu & _ & Hp & Hs & _); try reflexivity.
  split; [exact Hn|]. split; [apply Hu|]. split; [apply Hp|apply Hs]; reflexivity.
Defined.

(** ** NaN *)





(** ** Batches *)

Lemma addProducts_tasks (sched : list nat) (Products : list object) (c : collection) :
  DB.addProducts sched Products c = Promise_all sched (map add_task Products) c.
Proof. reflexivity. Qed.

(** What [Promise.all] has seen is the rejection of one of the tasks. *)
Lemma first_rejection_task {A : Type} (tasks : list (prog A)) (e : error) :
  first_rejection tasks = Some e -> exists i, nth_error tasks i = Some (Throw e).
Proof.
  induction tasks as [|p tasks IH]; cbn; [discriminate|].
  destruct p; cbn; try (intros H; destruct (IH H) as [i Hi]; now exists (S i)).
  intros H. injection H as ->. now exists 0.
Qed.

Lemma nth_error_set_nth {A : Type} (i j : nat) (x : A) (l : list A) :
  nth_error (set_nth i x l) j =
  if Nat.eqb i j then option_map (fun _ => x) (nth_error l j) else nth_error l j.
Proof.
  revert i j. induction l as [|y l IH]; intros [|i] [|j]; cbn; try reflexivity.
  - now destruct (Nat.eqb i j).
  - apply IH.
Qed.

Lemma deliver_rejection {A : Type} (sched : list nat) :
  forall (tasks tasks' : list (prog A)) (c c' : collection) (rej : option error) (e : error),
    (forall e0, rej = Some e0 -> exists i, nth_error tasks i = Some (Throw e0)) ->
    deliver sched tasks c rej = Some (tasks', c', Some e) ->
    exists i, nth_error tasks' i = Some (Throw e).
Proof.
  induction sched as [|i sched IH]; intros tasks tasks' c c' rej e Hrej; cbn.
  - intros H. injection H as <- _ ->. now apply Hrej.
  - destruct (nth_error tasks i) as [p|] eqn:N; [|discriminate].
    destruct (advance p c) as [[p' c1]|] eqn:Adv; [|discriminate].
    apply IH. intros e0 H0.
    destruct rej as [e1|].
    + injection H0 as ->. destruct (Hrej e0 eq_refl) as [j Hj].
      exists j. rewrite nth_error_set_nth.
      destruct (Nat.eqb i j) eqn:E; [|assumption].
      apply Nat.eqb_eq in E. subst j. rewrite Hj. cbn.
      f_equal. rewrite N in Hj. injection Hj as ->.
      cbn in Adv. now injection Adv as <- _.
    + exists i. rewrite nth_error_set_nth, Nat.eqb_refl, N. cbn.
      destruct p'; try discriminate. cbn in H0. now injection H0 as ->.
Qed.

Lemma fulfilled_map {A : Type} (tasks : list (prog A)) (l : list A) :
  fulfilled tasks = Some l -> tasks = map (@Ret A) l.
Proof.
  revert l. induction tasks as [|p tasks IH]; intros l; cbn.
  - intros H. now injection H as <-.
  - destruct p; try discriminate.
    destruct (fulfilled tasks) as [l'|]; [|discriminate].
    cbn. intros H. injection H as <-. cbn. now rewrite (IH l' eq_refl).
Qed.

Lemma deliver_length {A : Type} (sched : list nat) :
  forall (tasks tasks' : list (prog A)) (c c' : collection) (rej rej' : option error),
    deliver sched tasks c rej = Some (tasks', c', rej') ->
    List.length tasks' = List.length tasks.
Proof.
  induction sched as [|i sched IH]; intros tasks tasks' c c' rej rej'; cbn.
  - intros H. now injection H as <- _ _.
  - destruct (nth_error tasks i) as [p|]; [|discriminate].
    destruct (advance p c) as [[p' c1]|]; [|discriminate].
    intros H. rewrite (IH _ _ _ _ _ _ H).
    clear. revert i. induction tasks as [|y l IHl]; intros [|i]; cbn; auto.
Qed.

Lemma first_rejection_none {A : Type} (tasks : list (prog A)) :
  first_rejection tasks = None ->
  forall i e, nth_error tasks i <> Some (Throw e).
Proof.
  induction tasks as [|p tasks IH]; cbn; intros H i e.
  - now destruct i.
  - destruct i as [|i]; cbn.
    + intros E. injection E as ->. discriminate.
    + apply IH. now destruct (rejection p).
Qed.

(** Once a task has thrown, [Promise.all] has seen a rejection. *)
Lemma deliver_thrown_seen {A : Type} (sched : list nat) :
  forall (tasks tasks' : list (prog A)) (c c' : collection) (rej rej' : option error),
    (rej = None -> forall i e, nth_error tasks i <> Some (Throw e)) ->
    deliver sched tasks c rej = Some (tasks', c', rej') ->
    rej' = None -> forall i e, nth_error tasks' i <> Some (Throw e).
Proof.
  induction sched as [|j sched IH]; intros tasks tasks' c c' rej rej' Hrej; cbn.
  - intros H. injection H as <- _ <-. exact Hrej.
  - destruct (nth_error tasks j) as [p|] eqn:N; [|discriminate].
    destruct (advance p c) as [[p' c1]|] eqn:Adv; [|discriminate].
    apply IH. intros H i e.
    destruct rej as [e1|]; [discriminate|].
    rewrite nth_error_set_nth.
    destruct (Nat.eqb j i) eqn:E; [|now apply Hrej].
    destruct (nth_error tasks i); cbn; [|discriminate].
    intros E'. injection E' as ->. discriminate.
Qed.

(** A batch that is rejected is rejected with the error one of its calls
    threw; a batch that is fulfilled returns one document per element, in
    the order of the elements, each the result of its element's call; and
    a batch one of whose calls has thrown is rejected. *)
Lemma Promise_all_settles {A : Type} (sched : list nat) (tasks : list (prog A))
      (c c' : collection) :
  (forall e, Promise_all sched tasks c = Some (Threw e, c') ->
             exists tasks' rej i,
               deliver sched tasks c (first_rejection tasks) = Some (tasks', c', rej)
               /\ nth_error tasks' i = Some (Throw e))
  /\ (forall l, Promise_all sched tasks c = Some (Return l, c') ->
                deliver sched tasks c (first_rejection tasks)
                = Some (map (@Ret A) l, c', None)
                /\ List.length l = List.length tasks)
  /\ (forall tasks' rej i e,
         deliver sched tasks c (first_rejection tasks) = Some (tasks', c', rej) ->
         nth_error tasks' i = Some (Throw e) ->
         exists e', Promise_all sched tasks c = Some (Threw e', c')).
Proof.
  unfold Promise_all.
  destruct (deliver sched tasks c (first_rejection tasks))
    as [[[tasks' c1] [e1|]]|] eqn:D; (split; [|split]); try discriminate;
    try (intros tasks2 rej2 i e E N; injection E as <- <- <-; eauto).
  4:{ exfalso. apply (@deliver_thrown_seen _ sched tasks tasks' c c1 _ None
                        (@first_rejection_none _ tasks) D eq_refl i e N). }
  - intros e H. injection H as <- <-.
    pose proof D as D'.
    eapply deliver_rejection in D' as [i Hi];
      [eauto | intros e0; apply first_rejection_task].
  - intros e. destruct (fulfilled tasks'); discriminate.
  - intros l. destruct (fulfilled tasks') as [l'|] eqn:F; [|discriminate].
    cbn. intros H. injection H as <- <-.
    apply fulfilled_map in F. subst tasks'. split; [reflexivity|].
    apply deliver_length in D. now rewrite length_map in D.
Qed.

Lemma returns_Return (r : result unit) : returns r = true -> r = Return tt.
Proof. destruct r as [[]|e]; [reflexivity|discriminate]. Qed.

Lemma acceptable_fields (Product : object) :
  acceptable Product = true ->
  exists n p s,
    get Product "id" = VNum n /\ get Product "price" = VNum p
    /\ get Product "stock" = VNum s
    /\ ToBoolean (VNum n) = true /\ lt n 1 = false
    /\ DB.validateProductName (default (VStr "") (get Product "productName"))
       = Return tt
    /\ DB.validatePrice (VNum p) = Return tt /\ PrimFloat.is_nan p = false
    /\ DB.validateStock (VNum s) = Return tt /\ PrimFloat.is_nan s = false.
Proof.
  unfold acceptable.
  destruct (get Product "id") as [| | |n| |]; try discriminate.
  destruct (get Product "price") as [| | |p| |]; try discriminate.
  destruct (get Product "stock") as [| | |s| |]; try discriminate.
  intros H.
  apply andb_prop in H as [H Hs]. apply andb_prop in H as [H Vs].
  apply andb_prop in H as [H Hp]. apply andb_prop in H as [H Vp].
  apply andb_prop in H as [H Vn]. apply andb_prop in H as [T L].
  apply negb_true_iff in L, Hp, Hs.
  apply returns_Return in Vn, Vp, Vs.
  exists n, p, s. repeat split; assumption.
Qed.

(** *** The call for one element *)

Lemma addable_fields (Product : object) :
  addable Product = true ->
  exists n p s,
    get Product "id" = VNum n /\ get Product "price" = VNum p
    /\ default (VNum 0) (get Product "stock") = VNum s
    /\ ToBoolean (VNum n) = true /\ lt n 1 = false
    /\ DB.validateProductName (default (VStr "") (get Product "productName"))
       = Return tt
    /\ DB.validatePrice (VNum p) = Return tt /\ PrimFloat.is_nan p = false
    /\ DB.validateStock (VNum s) = Return tt /\ PrimFloat.is_nan s = false
    /\ document_of Product = [("id", VNum n); ("price", VNum p); ("stock", VNum s)].
Proof.
  unfold addable. intros H. apply andb_prop in H as [H _].
  apply acceptable_fields in H
    as (n & p & s & Hid & Hp & Hs & T & L & Vn & Vp & Np & Vs & Ns).
  unfold product_literal in Hid, Hp, Hs, Vn.
  cbn [get String.eqb Ascii.eqb Bool.eqb] in Hid, Hp, Hs, Vn.
  exists n, p, s. unfold document_of. rewrite Hid, Hp, Hs.
  repeat split; assumption.
Qed.

Lemma addable_id (Product : object) :
  addable Product = true ->
  exists n, get Product "id" = VNum n /\ PrimFloat.is_nan n = false
            /\ id_error (get Product "id") = None.
Proof.
  intros H. apply addable_fields in H as (n & p & s & Hid & _ & _ & T & L & _).
  exists n. split; [assumption|]. split; [now apply truthy_not_nan|].
  rewrite Hid. unfold id_error. now rewrite T, L.
Qed.

(** The call for an addable element: the existence check, then the
    [save()] of the element's document. *)
Lemma add_task_find (Product : object) (n : float) :
  addable Product = true -> get Product "id" = VNum n ->
  exists k, add_task Product = Find (VNum n) k
            /\ k [] = saving Product
            /\ forall d ds, k (d :: ds) = Throw (Err errors.ProductIdExistsError).
Proof.
  intros A Hn. destruct (addable_fields _ A)
    as (n' & p & s & Hid & Hp & Hs & T & L & Vn & Vp & Np & Vs & Ns & Hd).
  rewrite Hn in Hid. injection Hid as <-.
  unfold saving. rewrite Hd.
  unfold add_task, DB.addProduct. rewrite Hn, Hp, Hs.
  cbn [default]. unfold DB.validateId. rewrite T, L. cbn [negb].
  cbn [bind find_exec]. eexists. split; [reflexivity|]. cbn beta.
  split.
  - cbn [bind]. rewrite Vn, Vp, Vs. cbn [call bind].
    fold (product_literal (VNum n) (default (VStr "") (get Product "productName"))
                          (VNum p) (VNum s)).
    rewrite ProductModel_numbers by (now apply truthy_not_nan).
    rewrite Np, Ns. reflexivity.
  - reflexivity.
Qed.

Lemma document_of_id (Product : object) : get (document_of Product) "id" = get Product "id".
Proof. reflexivity. Qed.


Lemma advance_find (Product : object) (n : float) (c' : collection) :
  addable Product = true -> get Product "id" = VNum n ->
  advance (add_task Product) c' =
  Some (if stored_id c' n then Throw (Err errors.ProductIdExistsError)
        else saving Product, c').
Proof.
  intros A Hn. destruct (add_task_find _ A Hn) as (k & -> & K0 & K1).
  destruct (addable_id _ A) as (n' & Hid & Nn & _).
  rewrite Hn in Hid. injection Hid as <-.
  cbn [advance Mongoose.find]. rewrite Nn.
  destruct (find_from 0 n c') as [|d ds] eqn:F.
  - apply find_from_nil in F. now rewrite F, K0.
  - destruct (stored_id c' n) eqn:S; [now rewrite K1|].
    apply (find_from_nil 0) in S. congruence.
Qed.

Lemma advance_save (Product : object) (n : float) (c' : collection) :
  get Product "id" = VNum n ->
  advance (saving Product) c' =
  Some (if stored_id c' n
        then (Throw DuplicateKeyError, c')
        else (Ret (mkDocument (List.length c') false (document_of Product) [] []),
              c' ++ [document_of Product])).
Proof.
  intros Hn. unfold saving. cbn [advance]. unfold Mongoose.save.
  cbn [castErrors isNew _doc own]. rewrite document_of_id, Hn.
  change (existsb (fun o0 => same_id (get o0 "id") (VNum n)) c') with (stored_id c' n).
  now destruct (stored_id c' n).
Qed.

Lemma checking_shape (Product : object) :
  addable Product = true ->
  is_done (add_task Product) = false /\ thrown (add_task Product) = false
  /\ rank (add_task Product) = 2 /\ rejection (add_task Product) = None.
Proof.
  intros A. destruct (addable_id _ A) as (n & Hn & _).
  destruct (add_task_find _ A Hn) as (k & -> & _). repeat split.
Qed.

(** *** Two elements with one id *)


Section DuplicateIds.

(** Two addable elements with the same id, which the collection does not
    hold. *)
Variable c : collection.
Variables P Q : object.
Variable n : float.
Hypothesis HP : addable P = true.
Hypothesis HQ : addable Q = true.
Hypothesis HidP : get P "id" = VNum n.
Hypothesis HidQ : get Q "id" = VNum n.
Hypothesis Habsent : stored_id c n = false.

Let X : error := Err errors.ProductIdExistsError.
Let D : error := DuplicateKeyError.


End DuplicateIds.


Section DuplicateBatch.

Variable c : collection.
Variables P Q : object.
Variable n : float.
Hypothesis HP : addable P = true.
Hypothesis HQ : addable Q = true.
Hypothesis HidP : get P "id" = VNum n.
Hypothesis HidQ : get Q "id" = VNum n.
Hypothesis Habsent : stored_id c n = false.

Let X : error := Err errors.ProductIdExistsError.
Let D : error := DuplicateKeyError.








End DuplicateBatch.







(** The products of the test file, added as a batch: both names are
    refused, and the batch is rejected with the first refusal. *)
Lemma addProducts_validProducts :
  DB.addProducts [0; 1] [pizza; cheese] []
  = Some (Threw (Err errors.InvalidProductNameError), []).
Proof. reflexivity. Qed.




(** ** Adding an id twice *)

(** Once an id is added, adding it again is rejected with
    [ProductIdExistsError], whatever the other arguments, and the
    collection stays as the first call left it. *)
Theorem addProduct_same_id_twice
        (c c' : collection) (id productName price stock : value) (d : Document) :
  run (DB.addProduct id productName price stock) c = Some (Return d, c') ->
  forall productName' price' stock',
    run (DB.addProduct id productName' price' stock') c'
    = Some (Threw (Err errors.ProductIdExistsError), c').
Proof.
  intros H productName' price' stock'.
  apply addProduct_returns in H
    as (n & p & s & -> & _ & _ & T & L & _ & _ & _ & _ & _ & _ & _ & ->).
  rewrite addProduct_run, validateId_run, T, L. cbn [negb andb].
  rewrite stored_id_app. cbn [get String.eqb Ascii.eqb Bool.eqb].
  rewrite same_id_refl by (now apply truthy_not_nan).
  now rewrite orb_true_r.
Qed.

Lemma addProduct_same_id_twice_witness :
  run (DB.addProduct (VNum 1) (VStr "a{3, 24}") (VNum 5.99) (VNum 55)) []
  = Some (Return (mkDocument 0 false stored_pizza [] []), [stored_pizza])
  /\ forall productName' price' stock',
      run (DB.addProduct (VNum 1) productName' price' stock') [stored_pizza]
      = Some (Threw (Err errors.ProductIdExistsError), [stored_pizza]).
Proof.
  split; [reflexivity|].
  apply (@addProduct_same_id_twice
           [] [stored_pizza] (VNum 1) (VStr "a{3, 24}") (VNum 5.99) (VNum 55)
           (mkDocument 0 false stored_pizza [] [])).
  reflexivity.
Defined.

Lemma getProduct_absent_witness :
  (ToBoolean (VNum 2) = true /\ lt 2 1 = false /\ stored_id [stored_pizza] 2 = false)
  /\ run (DB.getProduct (VNum 2)) [stored_pizza] = Some (Return None, [stored_pizza]).
Proof.
  split; [repeat split; reflexivity|].
  apply (@getProduct_absent [stored_pizza] 2%float); reflexivity.
Defined.

(** ** A price update, end to end *)

(** [addProduct(1, name, 5.99, 55)], then [updateProductPrice(1, 6.49)]:
    the stored price is 6.49 and the stock is still 55; reading the product
    back with [getProduct(1)] throws. *)
Theorem updateProductPrice_round_trip :
  run (DB.addProduct (VNum 1) (VStr "a{3, 24}") (VNum 5.99) (VNum 55)) []
  = Some (Return (mkDocument 0 false stored_pizza [] []), [stored_pizza])
  /\ run (DB.updateProductPrice (VNum 1) (VNum 6.49)) [stored_pizza]
     = Some (Return (mkDocument 0 false (put stored_pizza "price" (VNum 6.49)) [] []),
             [put stored_pizza "price" (VNum 6.49)])
  /\ stored [put stored_pizza "price" (VNum 6.49)] 1
     = Some [("id", VNum 1); ("price", VNum 6.49); ("stock", VNum 55)]
  /\ run (DB.getProduct (VNum 1)) [put stored_pizza "price" (VNum 6.49)]
     = Some (Threw (Err errors.ProductIdExistsError),
             [put stored_pizza "price" (VNum 6.49)]).
Proof. repeat split; reflexivity. Qed.

(** ** One document per id *)

Lemma nth_error_replace (i j : nat) (o : object) (c : collection) :
  nth_error (replace j o c) i =
  if Nat.eqb j i then option_map (fun _ => o) (nth_error c i) else nth_error c i.
Proof.
  revert i j. induction c as [|o0 c IH]; intros [|i] [|j]; cbn; try reflexivity.
  - now destruct (Nat.eqb j i).
  - apply IH.
Qed.

Lemma unique_ids_app (c : collection) (o' : object) :
  unique_ids c ->
  existsb (fun o => same_id (get o "id") (get o' "id")) c = false ->
  unique_ids (c ++ [o']).
Proof.
  intros U E i j o1 o2 Lt N1 N2.
  destruct (Nat.lt_ge_cases j (List.length c)) as [Hj|Hj].
  - rewrite nth_error_app1 in N1, N2 by lia. now apply (U i j).
  - rewrite nth_error_app2 in N2 by assumption.
    destruct (j - List.length c) as [|k] eqn:K; cbn in N2;
      [|destruct k; discriminate].
    injection N2 as <-.
    assert (Hi : i < List.length c) by lia.
    rewrite nth_error_app1 in N1 by assumption.
    apply nth_error_In in N1.
    destruct (same_id (get o1 "id") (get o' "id")) eqn:S; [|reflexivity].
    assert (X : existsb (fun o => same_id (get o "id") (get o' "id")) c = true)
      by (apply existsb_exists; eauto).
    congruence.
Qed.

Lemma unique_ids_replace (c : collection) (j : nat) (o o' : object) :
  unique_ids c -> nth_error c j = Some o -> get o' "id" = get o "id" ->
  unique_ids (replace j o' c).
Proof.
  intros U N E.
  assert (K : forall i x, nth_error (replace j o' c) i = Some x ->
                          exists y, nth_error c i = Some y /\ get x "id" = get y "id").
  { intros i x. rewrite nth_error_replace.
    destruct (Nat.eqb j i) eqn:Q.
    - apply Nat.eqb_eq in Q. subst i. rewrite N. cbn.
      intros H. injection H as <-. eauto.
    - eauto. }
  intros i1 i2 o1 o2 Lt N1 N2.
  destruct (K _ _ N1) as (y1 & M1 & ->). destruct (K _ _ N2) as (y2 & M2 & ->).
  now apply (U i1 i2).
Qed.

(** [save()] keeps the ids apart: the unique index guards an insertion, and
    a loaded document is written back under the id it was loaded with. *)
Lemma save_keeps_unique (d : Document) (c c' : collection) (r : result Document) :
  unique_ids c ->
  isNew d = true \/ anchored c d ->
  Mongoose.save d c = (r, c') ->
  unique_ids c'.
Proof.
  intros U H. unfold Mongoose.save.
  destruct (castErrors d); [|intros E; now injection E as _ <-].
  destruct (isNew d) eqn:New.
  - destruct (existsb _ c) eqn:X; intros E; injection E as _ <-; [assumption|].
    now apply unique_ids_app.
  - destruct H as [H | (_ & o & N & Eid)]; [discriminate|].
    intros E. injection E as _ <-. eapply unique_ids_replace; eauto.
Qed.

Lemma assign_anchored (c : collection) (d d' : Document) (path : string) (v : value) :
  anchored c d -> String.eqb path "id" = false ->
  assign productSchema d path v = Some d' ->
  anchored c d'.
Proof.
  intros (New & o & N & Eid) P. unfold assign, set_path.
  destruct (path_type productSchema path) as [t|].
  - destruct (cast t v); try discriminate;
      intros E; injection E as <-; unfold anchored; cbn [_id isNew _doc];
        (split; [assumption|]); exists o; (split; [assumption|]);
          rewrite ?get_put_other by assumption; assumption.
  - intros E. injection E as <-. unfold anchored. cbn [_id isNew _doc]. eauto.
Qed.

Lemma lookup_anchored (c c' : collection) (id : value) (d : Document) :
  run (DB.lookup id) c = Some (Return d, c') -> c' = c /\ anchored c d.
Proof.
  unfold DB.lookup. rewrite run_bind. unfold find_exec. cbn [run].
  destruct (Mongoose.find id c) as [docs|] eqn:F; [|discriminate].
  destruct docs as [|P rest]; cbn; [discriminate|].
  intros E. injection E as <- <-. split; [reflexivity|].
  unfold Mongoose.find in F. destruct id; try discriminate.
  destruct (PrimFloat.is_nan n); [discriminate|]. injection F as F.
  destruct (find_from_head _ _ _ F) as (j & o & -> & N & _ & _).
  split; [reflexivity|]. exists o. cbn. auto.
Qed.

Lemma lookup_throws (c c' : collection) (id : value) (e : error) :
  run (DB.lookup id) c = Some (Threw e, c') -> c' = c.
Proof.
  unfold DB.lookup. rewrite run_bind. unfold find_exec. cbn [run].
  destruct (Mongoose.find id c) as [[|P rest]|]; cbn; try discriminate.
  intros E. now injection E as _ <-.
Qed.

(** The steps the update methods are made of. *)
Ltac update_step H :=
  lazymatch type of H with
  | run (bind (DB.validateId _ _) _) _ = Some _ =>
      rewrite run_bind, validateId_run in H;
      match type of H with
      | match ?r with Return _ => _ | Threw _ => _ end = _ =>
          destruct r as [[]|?]; [|now injection H as _ <-]
      end
  | run (bind (call ?V) _) _ = Some _ =>
      rewrite run_bind, run_call in H;
      destruct V as [[]|?]; [|now injection H as _ <-]
  | run (bind (model ?o) _) _ = Some _ =>
      let A := fresh "A" in
      rewrite run_bind in H; destruct o eqn:A; [|discriminate]; cbn [model run] in H
  | run (bind (save_doc _) _) _ = Some _ =>
      rewrite run_bind, run_save_doc in H
  end.

Lemma update_saved (c c' : collection) (d : Document) (r : result Document) :
  unique_ids c -> anchored c d ->
  run (Product <- save_doc d ;; Ret Product) c = Some (r, c') ->
  unique_ids c'.
Proof.
  intros U An H. update_step H.
  destruct (Mongoose.save d c) as [[d'|e] c1] eqn:S.
  - cbn in H. injection H as _ <-. eapply save_keeps_unique; eauto.
  - injection H as _ <-. eapply save_keeps_unique; eauto.
Qed.

Lemma update_looked_up {A : Type} (c c' : collection) (id : value)
      (k : Document -> prog A) (r : result A) :
  run (Product <- DB.lookup id ;; k Product) c = Some (r, c') ->
  c' = c \/ exists d, anchored c d /\ run (k d) c = Some (r, c').
Proof.
  rewrite run_bind.
  destruct (run (DB.lookup id) c) as [[[d|e] c1]|] eqn:L; [| |discriminate].
  - apply lookup_anchored in L as [-> An]. eauto.
  - apply lookup_throws in L as ->. intros H. left. now injection H as _ <-.
Qed.

Lemma construct_isNew (sch : Schema) (obj : object) :
  forall d d', construct sch d obj = Some d' -> isNew d' = isNew d.
Proof.
  induction obj as [|[k v] obj IH]; intros d d'; cbn.
  - intros E. now injection E as <-.
  - destruct (path_type sch k) as [t|]; [|apply IH].
    unfold set_path. destruct (cast t v); try discriminate; intros E;
      now rewrite (IH _ _ E).
Qed.

(** The single calls keep one document per id: [addProduct] and the four
    update methods, whatever their arguments and their outcome. *)
Theorem single_calls_keep_ids_unique (c : collection) :
  unique_ids c ->
  (forall id productName price stock r c',
      run (DB.addProduct id productName price stock) c = Some (r, c') ->
      unique_ids c')
  /\ (forall id productName r c',
         run (DB.updateProductName id productName) c = Some (r, c') ->
         unique_ids c')
  /\ (forall id price r c',
         run (DB.updateProductPrice id price) c = Some (r, c') -> unique_ids c')
  /\ (forall id stock r c',
         run (DB.updateProductStock id stock) c = Some (r, c') -> unique_ids c')
  /\ (forall id productName price stock r c',
         run (DB.updateProduct id productName price stock) c = Some (r, c') ->
         unique_ids c').
Proof.
  intros U. split; [|split; [|split; [|split]]].
  - intros id productName price stock r c'. rewrite addProduct_run.
    destruct (run (DB.validateId id false) c) as [[[[]|e] c0]|];
      try discriminate; [|intros H; now injection H as _ <-].
    destruct (DB.validateProductName _) as [[]|e];
      [|intros H; now injection H as _ <-].
    destruct (DB.validatePrice _) as [[]|e]; [|intros H; now injection H as _ <-].
    destruct (DB.validateStock _) as [[]|e]; [|intros H; now injection H as _ <-].
    destruct (ProductModel _) as [Product|] eqn:M; [|discriminate].
    apply construct_isNew in M. cbn in M.
    destruct (Mongoose.save Product c) as [r1 c1] eqn:S.
    intros H. injection H as _ <-. eapply save_keeps_unique; eauto.
  - intros id productName r c' H. unfold DB.updateProductName in H.
    update_step H. update_step H.
    apply update_looked_up in H as [-> | (d & An & H)]; [assumption|].
    update_step H. eapply update_saved; [eassumption| |eassumption].
    eapply assign_anchored; [| |eassumption]; [eassumption|reflexivity].
  - intros id price r c' H. unfold DB.updateProductPrice in H.
    update_step H. update_step H.
    apply update_looked_up in H as [-> | (d & An & H)]; [assumption|].
    update_step H. eapply update_saved; [eassumption| |eassumption].
    eapply assign_anchored; [| |eassumption]; [eassumption|reflexivity].
  - intros id stock r c' H. unfold DB.updateProductStock in H.
    update_step H. update_step H.
    apply update_looked_up in H as [-> | (d & An & H)]; [assumption|].
    update_step H. eapply update_saved; [eassumption| |eassumption].
    eapply assign_anchored; [| |eassumption]; [eassumption|reflexivity].
  - intros id productName price stock r c' H. unfold DB.updateProduct in H.
    update_step H. update_step H. update_step H. update_step H.
    apply update_looked_up in H as [-> | (d & An & H)]; [assumption|].
    unfold DB.assign_or_keep in H.
    update_step H. update_step H. update_step H.
    eapply update_saved; [eassumption| |eassumption].
    eapply assign_anchored; [| |eassumption]; [|reflexivity].
    eapply assign_anchored; [| |eassumption]; [|reflexivity].
    eapply assign_anchored; [| |eassumption]; [eassumption|reflexivity].
Qed.

Lemma unique_ids_single (o : object) : unique_ids [o].
Proof.
  intros i j o1 o2 Lt N1 N2. destruct j as [|j]; [lia|].
  destruct j; discriminate.
Qed.

Lemma single_calls_keep_ids_unique_witness :
  unique_ids [stored_pizza]
  /\ (forall id productName price stock r c',
         run (DB.updateProduct id productName price stock) [stored_pizza]
         = Some (r, c') ->
         unique_ids c').
Proof.
  split; [apply unique_ids_single|].
  apply (single_calls_keep_ids_unique (unique_ids_single stored_pizza)).
Defined.

(** *** Batches of additions *)

Lemma inserting_bind {A B : Type} (p : prog A) (f : A -> prog B) :
  inserting p -> (forall a, inserting (f a)) -> inserting (bind p f).
Proof.
  intros Hp Hf. induction Hp; cbn; try constructor; auto.
Qed.

Lemma inserting_call {A : Type} (r : result A) : inserting (call r).
Proof. destruct r; constructor. Qed.

Lemma add_task_inserting (Product : object) : inserting (add_task Product).
Proof.
  unfold add_task, DB.addProduct. apply inserting_bind.
  - unfold DB.validateId.
    destruct (negb (ToBoolean (get Product "id"))); [constructor|].
    destruct (get Product "id"); try constructor.
    destruct (lt n 1); [constructor|]. cbn [negb].
    unfold find_exec. cbn [bind]. constructor. intros [|d ds]; constructor.
  - intros _. apply inserting_bind; [apply inserting_call|].
    intros _. apply inserting_bind; [apply inserting_call|].
    intros _. apply inserting_bind; [apply inserting_call|].
    intros _. destruct (ProductModel _) as [d|] eqn:M; cbn [model bind];
      [|constructor].
    apply construct_isNew in M. cbn in M.
    unfold save_doc. cbn [bind]. constructor; [assumption|].
    intros d'. constructor.
Qed.

Lemma advance_inserting {A : Type} (p p' : prog A) (c c' : collection) :
  inserting p -> unique_ids c -> advance p c = Some (p', c') ->
  inserting p' /\ unique_ids c'.
Proof.
  intros Hp U. destruct Hp as [a|e| |q k Hk|d k New Hk]; cbn.
  - intros E. injection E as <- <-. split; [constructor|assumption].
  - intros E. injection E as <- <-. split; [constructor|assumption].
  - discriminate.
  - destruct (Mongoose.find q c); [|discriminate].
    intros E. injection E as <- <-. auto.
  - destruct (Mongoose.save d c) as [[d'|e] c1] eqn:S;
      intros E; injection E as <- <-;
        (split; [auto; constructor | eapply save_keeps_unique; eauto]).
Qed.

Lemma Forall_set_nth {A : Type} (P : A -> Prop) (i : nat) (x : A) (l : list A) :
  Forall P l -> P x -> Forall P (set_nth i x l).
Proof.
  intros Hl Hx. revert i. induction Hl as [|y l Hy Hl IH]; intros [|i]; cbn;
    constructor; auto.
Qed.

Lemma deliver_inserting {A : Type} (sched : list nat) :
  forall (tasks tasks' : list (prog A)) (c c' : collection) (rej rej' : option error),
    Forall inserting tasks -> unique_ids c ->
    deliver sched tasks c rej = Some (tasks', c', rej') ->
    unique_ids c'.
Proof.
  induction sched as [|i sched IH]; intros tasks tasks' c c' rej rej' Ht U; cbn.
  - intros E. now injection E as _ <- _.
  - destruct (nth_error tasks i) as [p|] eqn:N; [|discriminate].
    destruct (advance p c) as [[p' c1]|] eqn:Adv; [|discriminate].
    assert (Hp : inserting p).
    { rewrite Forall_forall in Ht. apply Ht. eapply nth_error_In; eauto. }
    destruct (advance_inserting Hp U Adv) as [Hp' U1].
    apply IH; [now apply Forall_set_nth|assumption].
Qed.

(** A batch of additions keeps one document per id, in whatever order the
    storage layer answers, whether the batch is fulfilled or rejected: the
    existence checks of concurrent calls can all pass, and it is the unique
    index that refuses the second document of an id. *)
Theorem addProducts_keeps_ids_unique
        (sched : list nat) (Products : list object) (c c' : collection)
        (r : result (list Document)) :
  unique_ids c ->
  DB.addProducts sched Products c = Some (r, c') ->
  unique_ids c'.
Proof.
  intros U. rewrite addProducts_tasks. unfold Promise_all.
  destruct (deliver sched _ c _) as [[[tasks' c1] rej]|] eqn:D; [|discriminate].
  assert (U1 : unique_ids c1).
  { eapply deliver_inserting; [|eassumption|eassumption].
    apply Forall_forall. intros p Hp. apply in_map_iff in Hp as (P & <- & _).
    apply add_task_inserting. }
  destruct rej as [e|].
  - intros E. now injection E as _ <-.
  - destruct (fulfilled tasks'); cbn; [|discriminate].
    intros E. now injection E as _ <-.
Qed.

Lemma addProducts_keeps_ids_unique_witness :
  unique_ids []
  /\ DB.addProducts [0; 1; 0; 1] [braced_pizza; braced_pizza] []
     = Some (Threw DuplicateKeyError, [stored_pizza])
  /\ unique_ids [stored_pizza].
Proof.
  assert (U : unique_ids []) by (intros i j o1 o2 _ N; destruct i; discriminate).
  split; [exact U|]. split; [reflexivity|].
  apply (@addProducts_keeps_ids_unique
           [0; 1; 0; 1] [braced_pizza; braced_pizza] [] [stored_pizza]
           (Threw DuplicateKeyError) U).
  reflexivity.
Defined.
(* ================================================================== *)
(** ** Reading a product back *)

(** [getProduct] never returns a product.  It validates its id the way
    [addProduct] does, so the id of a stored document is refused with
    [ProductIdExistsError]; an id that passes is the id of no document, and
    the query that follows finds nothing: the call returns [undefined].  The
    collection is left as it was. *)
Theorem getProduct_never_returns_a_product (c : collection) (id : value) :
  run (DB.getProduct id) c
  = Some (match run (DB.validateId id false) c with
          | Some (Threw e, _) => Threw e
          | _ => Return None
          end, c)
  /\ forall d c', run (DB.getProduct id) c <> Some (Return (Some d), c').
Proof.
  assert (E : run (DB.getProduct id) c
              = Some (match run (DB.validateId id false) c with
                      | Some (Threw e, _) => Threw e
                      | _ => Return None
                      end, c)).
  { unfold DB.getProduct. rewrite run_bind, validateId_run.
    destruct (ToBoolean id) eqn:T; cbn [negb]; [|reflexivity].
    destruct id; try reflexivity.
    destruct (lt n 1); [reflexivity|]. cbn [negb andb].
    destruct (stored_id c n) eqn:S; [reflexivity|].
    rewrite run_bind, run_find_exec by (now apply truthy_not_nan).
    apply (find_from_nil 0) in S. now rewrite S. }
  split; [exact E|].
  intros d c'. rewrite E.
  destruct (run (DB.validateId id false) c) as [[[[]|e] c0]|]; discriminate.
Qed.

(** ** Renaming a product *)

Lemma replace_same (j : nat) (o : object) (c : collection) :
  nth_error c j = Some o -> replace j o c = c.
Proof.
  revert j. induction c as [|o0 c IH]; intros [|j]; cbn; try discriminate.
  - intros E. now injection E as ->.
  - intros E. now rewrite (IH _ E).
Qed.

(** [updateProductName] stores nothing: whatever its arguments, the
    collection after the call is the collection before it.  On success the
    document it returns carries the name as a property of the object in
    memory only, and its stored fields are those of the stored document. *)
Theorem updateProductName_stores_nothing (c : collection) (id productName : value) :
  exists r,
    run (DB.updateProductName id productName) c = Some (r, c)
    /\ forall d, r = Return d ->
                 nth_error c (_id d) = Some (_doc d)
                 /\ get (own d) "productName" = default (VStr "") productName.
Proof.
  unfold DB.updateProductName. rewrite run_bind, validateId_run.
  destruct (ToBoolean id) eqn:T; cbn [negb];
    [|eexists; split; [reflexivity|discriminate]].
  destruct id; try (eexists; split; [reflexivity|discriminate]).
  destruct (lt n 1); [eexists; split; [reflexivity|discriminate]|].
  cbn [negb andb]. rewrite run_bind, run_call.
  destruct (DB.validateProductName _) as [[]|e];
    [|eexists; split; [reflexivity|discriminate]].
  rewrite run_bind, run_lookup by (now apply truthy_not_nan).
  destruct (find_from 0 n c) as [|P rest] eqn:F;
    [eexists; split; [reflexivity|discriminate]|].
  destruct (find_from_head _ _ _ F) as (j & o & -> & N & _ & _).
  rewrite assign_own by reflexivity. cbn [model bind run].
  rewrite run_bind, run_save_doc. unfold Mongoose.save.
  cbn [castErrors isNew _id _doc own run Nat.add].
  rewrite (replace_same _ _ N).
  eexists. split; [reflexivity|].
  intros d E. injection E as <-. cbn [_id _doc own]. split; [assumption|].
  reflexivity.
Qed.

(** ** Updating one field *)

Lemma ids_replace (j : nat) (o o' : object) (c : collection) :
  nth_error c j = Some o -> get o' "id" = get o "id" ->
  ids (replace j o' c) = ids c.
Proof.
  revert j. induction c as [|o0 c IH]; intros [|j]; cbn; try discriminate.
  - intros E Eid. injection E as ->. now rewrite Eid.
  - intros E Eid. unfold ids in IH. now rewrite (IH _ E Eid).
Qed.

(** The update of one [Number] field of a stored product, for a value the
    field's validator accepts. *)
Lemma update_number_field_run (c : collection) (n x : float) (o : object)
      (path : string) (validate : value -> result unit) (j : nat)
      (rest : list Document) :
  ToBoolean (VNum n) = true -> lt n 1 = false ->
  find_from 0 n c = mkDocument j false o [] [] :: rest ->
  path_type productSchema path = Some Number ->
  validate (VNum x) = Return tt -> PrimFloat.is_nan x = false ->
  run (DB.validateId (VNum n) true ;;
       call (validate (VNum x)) ;;
       Product <- DB.lookup (VNum n) ;;
       Product <- model (assign productSchema Product path (VNum x)) ;;
       Product <- save_doc Product ;;
       Ret Product) c
  = Some (Return (mkDocument j false (put o path (VNum x)) [] []),
          replace j (put o path (VNum x)) c).
Proof.
  intros T L F P V Nx.
  rewrite run_bind, validateId_mutation by assumption.
  rewrite run_bind, run_call, V.
  rewrite run_bind, run_lookup, F by (now apply truthy_not_nan).
  rewrite (@assign_cast _ path (VNum x) (VNum x) P (@stable_number x Nx)).
  cbn [model bind run remove_path filter _id isNew _doc own castErrors].
  rewrite run_bind, run_save_doc. unfold Mongoose.save.
  cbn [castErrors isNew _id _doc run]. reflexivity.
Qed.

Lemma update_number_field (c : collection) (n x : float) (o : object)
      (path : string) (validate : value -> result unit) :
  ToBoolean (VNum n) = true -> lt n 1 = false -> stored c n = Some o ->
  path_type productSchema path = Some Number -> String.eqb path "id" = false ->
  validate (VNum x) = Return tt -> PrimFloat.is_nan x = false ->
  exists d c',
    run (DB.validateId (VNum n) true ;;
         call (validate (VNum x)) ;;
         Product <- DB.lookup (VNum n) ;;
         Product <- model (assign productSchema Product path (VNum x)) ;;
         Product <- save_doc Product ;;
         Ret Product) c = Some (Return d, c')
    /\ _doc d = put o path (VNum x)
    /\ stored c' n = Some (_doc d)
    /\ ids c' = ids c
    /\ forall m, same_id (get o "id") (VNum m) = false -> stored c' m = stored c m.
Proof.
  intros T L St P Pid V Nx.
  destruct (stored_find _ _ St) as (j & rest & F & N & Sm & R).
  rewrite (@update_number_field_run c n x o path validate j rest) by assumption.
  assert (Eid : get (put o path (VNum x)) "id" = get o "id")
    by (now apply get_put_other).
  eexists _, _. split; [reflexivity|]. cbn [_doc].
  split; [reflexivity|]. split; [|split].
  - apply R. now rewrite Eid.
  - now apply (@ids_replace j o).
  - intros m D. unfold stored.
    rewrite (@find_from_replace_other 0 j m c o); auto. now rewrite Eid.
Qed.

(** On a stored product, [updateProductPrice] and [updateProductStock] with
    a value their validator accepts (NaN apart, and for the stock [-0]
    apart) write that one field: the document stored under the id
    afterwards is the one stored before with the field replaced, it is the
    document returned, and no document is added or removed, no id changed,
    no other product touched. *)
Theorem single_field_update_writes_the_field (c : collection) (n : float) (o : object) :
  ToBoolean (VNum n) = true -> lt n 1 = false -> stored c n = Some o ->
  (forall p,
      DB.validatePrice (VNum p) = Return tt -> PrimFloat.is_nan p = false ->
      exists d c',
        run (DB.updateProductPrice (VNum n) (VNum p)) c = Some (Return d, c')
        /\ _doc d = put o "price" (VNum p)
        /\ stored c' n = Some (_doc d)
        /\ ids c' = ids c
        /\ forall m, same_id (get o "id") (VNum m) = false ->
                     stored c' m = stored c m)
  /\ (forall s,
         DB.validateStock (VNum s) = Return tt -> PrimFloat.is_nan s = false ->
         negative_zero (VNum s) = false ->
         exists d c',
           run (DB.updateProductStock (VNum n) (VNum s)) c = Some (Return d, c')
           /\ _doc d = put o "stock" (VNum s)
           /\ stored c' n = Some (_doc d)
           /\ ids c' = ids c
           /\ forall m, same_id (get o "id") (VNum m) = false ->
                        stored c' m = stored c m).
Proof.
  intros T L St. split.
  - intros p V Np.
    apply (@update_number_field c n p o "price" DB.validatePrice); auto.
  - intros s V Ns _.
    apply (@update_number_field c n s o "stock" DB.validateStock); auto.
Qed.

Lemma single_field_update_writes_the_field_witness :
  (ToBoolean (VNum 1) = true /\ lt 1 1 = false
   /\ stored [stored_pizza] 1 = Some stored_pizza
   /\ DB.validateStock (VNum 54) = Return tt
   /\ negative_zero (VNum 54) = false)
  /\ exists d c',
      run (DB.updateProductStock (VNum 1) (VNum 54)) [stored_pizza]
      = Some (Return d, c')
      /\ _doc d = put stored_pizza "stock" (VNum 54)
      /\ stored c' 1 = Some (_doc d)
      /\ ids c' = ids [stored_pizza]
      /\ forall m, same_id (get stored_pizza "id") (VNum m) = false ->
                   stored c' m = stored [stored_pizza] m.
Proof.
  split; [repeat split; reflexivity|].
  destruct (@single_field_update_writes_the_field [stored_pizza] 1%float stored_pizza)
    as [_ Hs]; try reflexivity.
  apply Hs; reflexivity.
Defined.

(** ** Arguments left out *)

(** A name or a price that is left out is never accepted: the defaults
    (the empty string, 0) are values the validators refuse.  [addProduct]
    without a name, [addProduct] without a price, [updateProductName]
    without a name and [updateProductPrice] without a price are rejected,
    whatever the other arguments, and leave the collection as it was; once
    the id has passed, the error is the one of the field that was left
    out, unless an earlier field is refused. *)
Theorem omitted_name_or_price_is_refused (c : collection) (id : value) :
  (forall price stock,
      run (DB.addProduct id VUndefined price stock) c
      = Some (Threw (match run (DB.validateId id false) c with
                     | Some (Threw e, _) => e
                     | _ => Err errors.InvalidProductNameError
                     end), c))
  /\ (forall productName stock,
         run (DB.addProduct id productName VUndefined stock) c
         = Some (Threw (match run (DB.validateId id false) c with
                        | Some (Threw e, _) => e
                        | _ => match DB.validateProductName
                                       (default (VStr "") productName) with
                               | Threw e => e
                               | Return _ => Err errors.InvalidPriceError
                               end
                        end), c))
  /\ run (DB.updateProductName id VUndefined) c
     = Some (Threw (match run (DB.validateId id true) c with
                    | Some (Threw e, _) => e
                    | _ => Err errors.InvalidProductNameError
                    end), c)
  /\ run (DB.updateProductPrice id VUndefined) c
     = Some (Threw (match run (DB.validateId id true) c with
                    | Some (Threw e, _) => e
                    | _ => Err errors.InvalidPriceError
                    end), c).
Proof.
  assert (PN : DB.validateProductName (default (VStr "") VUndefined)
               = Threw (Err errors.InvalidProductNameError)) by reflexivity.
  assert (PP : DB.validatePrice (default (VNum 0) VUndefined)
               = Threw (Err errors.InvalidPriceError)) by reflexivity.
  split; [|split; [|split]].
  - intros price stock. rewrite addProduct_run, validateId_run.
    match goal with
    | |- match ?r with Return _ => _ | Threw _ => _ end = _ =>
        destruct r as [[]|e]
    end; [|reflexivity].
    now rewrite PN.
  - intros productName stock. rewrite addProduct_run, validateId_run.
    match goal with
    | |- match ?r with Return _ => _ | Threw _ => _ end = _ =>
        destruct r as [[]|e]
    end; [|reflexivity].
    destruct (DB.validateProductName (default (VStr "") productName)) as [[]|e];
      [|reflexivity].
    now rewrite PP.
  - unfold DB.updateProductName. rewrite run_bind, validateId_run.
    match goal with
    | |- match ?r with Return _ => _ | Threw _ => _ end = _ =>
        destruct r as [[]|e]
    end; [|reflexivity].
    now rewrite run_bind, run_call, PN.
  - unfold DB.updateProductPrice. rewrite run_bind, validateId_run.
    match goal with
    | |- match ?r with Return _ => _ | Threw _ => _ end = _ =>
        destruct r as [[]|e]
    end; [|reflexivity].
    now rewrite run_bind, run_call, PP.
Qed.

(** A stock that is left out is 0.  [addProduct] without a stock stores
    the product with a stock of 0, and [updateProductStock] without a stock
    sets the stock of a stored product to 0. *)
Theorem omitted_stock_is_zero (c : collection) (n : float) :
  ToBoolean (VNum n) = true -> lt n 1 = false ->
  (forall productName p,
      stored_id c n = false ->
      DB.validateProductName (default (VStr "") productName) = Return tt ->
      DB.validatePrice (VNum p) = Return tt -> PrimFloat.is_nan p = false ->
      run (DB.addProduct (VNum n) productName (VNum p) VUndefined) c
      = Some (Return (mkDocument (List.length c) false
                        [("id", VNum n); ("price", VNum p); ("stock", VNum 0)] [] []),
              c ++ [ [("id", VNum n); ("price", VNum p); ("stock", VNum 0)] ]))
  /\ (forall o,
         stored c n = Some o ->
         exists d c',
           run (DB.updateProductStock (VNum n) VUndefined) c = Some (Return d, c')
           /\ _doc d = put o "stock" (VNum 0)
           /\ stored c' n = Some (_doc d)).
Proof.
  intros T L. split.
  - intros productName p S VN VP Np.
    change (DB.addProduct (VNum n) productName (VNum p) VUndefined)
      with (DB.addProduct (VNum n) productName (VNum p) (VNum 0)).
    now apply addProduct_valid.
  - intros o St.
    destruct (@update_number_field c n 0%float o "stock" DB.validateStock)
      as (d & c' & R & D & S & _); auto.
    exists d, c'. split; [exact R|]. now split.
Qed.

Lemma omitted_stock_is_zero_witness :
  (ToBoolean (VNum 1) = true /\ lt 1 1 = false
   /\ stored [stored_pizza] 1 = Some stored_pizza)
  /\ exists d c',
      run (DB.updateProductStock (VNum 1) VUndefined) [stored_pizza]
      = Some (Return d, c')
      /\ _doc d = put stored_pizza "stock" (VNum 0)
      /\ stored c' 1 = Some (_doc d).
Proof.
  split; [repeat split; reflexivity|].
  destruct (@omitted_stock_is_zero [stored_pizza] 1%float) as [_ Hs];
    try reflexivity.
  apply Hs. reflexivity.
Defined.

(** ** The price range *)

(** [validatePrice] returns exactly for a number that is neither below 0.01
    nor above 9999, so for both bounds and, every comparison with NaN being
    false, for NaN; every other argument (another number, a numeric string,
    [null], [undefined]) is refused, and always with [InvalidPriceError]. *)
Theorem validatePrice_throws_iff (price : value) :
  (DB.validatePrice price = Return tt
   \/ DB.validatePrice price = Threw (Err errors.InvalidPriceError))
  /\ (DB.validatePrice price = Threw (Err errors.InvalidPriceError) <->
      (typeof price <> TNumber \/
       exists n, price = VNum n /\ (lt n 0.01 = true \/ gt n 9999 = true)))
  /\ DB.validatePrice (VNum 0.01) = Return tt
  /\ DB.validatePrice (VNum 9999) = Return tt
  /\ DB.validatePrice (VNum nan) = Return tt.
Proof.
  split; [|split; [|repeat split; reflexivity]].
  - unfold DB.validatePrice. destruct price; auto.
    destruct (lt n 0.01 || gt n 9999); auto.
  - split.
    + intros H. destruct price; try (left; cbn; discriminate).
      right. exists n. split; [reflexivity|].
      unfold DB.validatePrice in H. destruct (lt n 0.01); [now left|].
      destruct (gt n 9999); [now right|discriminate].
    + intros [H | (n & -> & H)].
      * destruct price; try reflexivity. now contradiction H.
      * unfold DB.validatePrice.
        destruct H as [-> | ->]; [|rewrite orb_true_r]; reflexivity.
Qed.

(** ** The test helper *)

Lemma listCollections_no_string (db : database) (s : string) :
  includes_string (listCollections db) s = false.
Proof. induction db as [|nc db IH]; [reflexivity|exact IH]. Qed.

(** [resetTest] drops nothing: the array it searches for the string
    ['Products'] holds one information object per collection and no
    string, so [includes] is false and [dropCollection] is never called,
    whatever collections the database has. *)
Theorem resetTest_drops_nothing (db : database) : DB.resetTest db = Some db.
Proof. unfold DB.resetTest. now rewrite listCollections_no_string. Qed.

(** ** Searching by name *)

(** [getProductsByName] validates its argument with [validateProductName]
    and so refuses, before it builds the regular expression and queries,
    every name the naming rule allows.  Where it is modelled to issue a
    query (the argument is accepted and is a pattern [Regex.is_pattern]
    recognises, ["a{3, 24}"] for one), the filter is a case-insensitive
    regular expression on the path [productName], which is no path of the
    schema; an accepted name such as ["a{3, 24}("], at which the
    construction of the regular expression throws, is outside the model. *)
Theorem getProductsByName_refuses_allowed_names :
  (forall s,
      Names.spec_valid s = true ->
      DB.getProductsByName (VStr s)
      = Some (Threw (Err errors.InvalidProductNameError)))
  /\ (forall v f,
         DB.getProductsByName v = Some (Return f) ->
         f = Matches "productName" v "i"
         /\ path_type productSchema "productName" = None
         /\ exists s, v = VStr s /\ Names.has_brace s = true
                      /\ Regex.is_pattern s = true)
  /\ DB.getProductsByName (VStr "a{3, 24}")
     = Some (Return (Matches "productName" (VStr "a{3, 24}") "i"))
  /\ DB.validateProductName (VStr "a{3, 24}(") = Return tt
  /\ DB.getProductsByName (VStr "a{3, 24}(") = None.
Proof.
  split; [|split; [|repeat split; reflexivity]].
  - intros s H. unfold Names.spec_valid in H.
    apply andb_prop in H as [_ H].
    apply NamesFacts.all_allowed_no_brace in H.
    unfold DB.getProductsByName, DB.validateProductName. fold Names.pattern.
    destruct (Regex.search Names.pattern s) eqn:E; [|reflexivity].
    apply NamesFacts.search_has_brace in E. congruence.
  - intros v f. unfold DB.getProductsByName, DB.validateProductName.
    destruct v; try discriminate. fold Names.pattern.
    destruct (Regex.search Names.pattern s) eqn:E; [|discriminate].
    cbn [negb]. destruct (Regex.is_pattern s) eqn:P; [|discriminate].
    intros H. injection H as <-.
    split; [reflexivity|]. split; [reflexivity|].
    exists s. split; [reflexivity|]. split; [|assumption].
    now apply NamesFacts.search_has_brace.
Qed.

(** ** Queries by price and by stock, and the whole collection *)

Lemma find_equal_from_docs (path : string) (i : nat) (n : float) (c : collection) :
  map _doc (find_equal_from path i n c)
  = filter (fun o => same_id (get o path) (VNum n)) c.
Proof.
  revert i. induction c as [|o c IH]; intros i; cbn; [reflexivity|].
  destruct (same_id (get o path) (VNum n)); cbn; now rewrite IH.
Qed.

Lemma find_equal_from_stored (path : string) (i : nat) (n : float) (c : collection) :
  Forall (fun d => isNew d = false /\ own d = [] /\ castErrors d = []
                   /\ i <= _id d /\ nth_error c (_id d - i) = Some (_doc d))
         (find_equal_from path i n c).
Proof.
  revert i. induction c as [|o c IH]; intros i; cbn; [constructor|].
  assert (Tl : Forall (fun d => isNew d = false /\ own d = [] /\ castErrors d = []
                                /\ i <= _id d
                                /\ nth_error (o :: c) (_id d - i) = Some (_doc d))
                      (find_equal_from path (S i) n c)).
  { eapply Forall_impl; [|apply (IH (S i))].
    intros d (H1 & H2 & H3 & H4 & H5). repeat split; try assumption; try lia.
    replace (_id d - i) with (S (_id d - S i)) by lia. exact H5. }
  destruct (same_id (get o path) (VNum n)); [|exact Tl].
  constructor; [|exact Tl]. cbn. rewrite Nat.sub_diag. auto.
Qed.

Lemma find_equal_from_app (path : string) (i : nat) (n : float) (c : collection)
      (o : object) :
  find_equal_from path i n (c ++ [o])
  = find_equal_from path i n c
    ++ (if same_id (get o path) (VNum n)
        then [mkDocument (i + List.length c) false o [] []]
        else []).
Proof.
  revert i. induction c as [|o0 c IH]; intros i; cbn.
  - rewrite Nat.add_0_r. now destruct (same_id (get o path) (VNum n)).
  - rewrite IH, Nat.add_succ_r.
    now destruct (same_id (get o0 path) (VNum n)).
Qed.

Lemma load_from_app (i : nat) (c : collection) (o : object) :
  load_from i (c ++ [o])
  = load_from i c ++ [mkDocument (i + List.length c) false o [] []].
Proof.
  revert i. induction c as [|o0 c IH]; intros i; cbn.
  - now rewrite Nat.add_0_r.
  - now rewrite IH, Nat.add_succ_r.
Qed.

Lemma load_from_docs (i : nat) (c : collection) : map _doc (load_from i c) = c.
Proof.
  revert i. induction c as [|o c IH]; intros i; cbn; [reflexivity|].
  now rewrite IH.
Qed.

Lemma query_number (path : string) (x : float) (c : collection) :
  path_type productSchema path = Some Number -> PrimFloat.is_nan x = false ->
  DB.query (Return (Equals path (VNum x))) c
  = Some (Return (find_equal_from path 0 x c)).
Proof. intros P N. unfold DB.query, find_filter. now rewrite P, N. Qed.

Lemma find_equal_from_loaded (path : string) (n : float) (c : collection) :
  Forall (fun d => isNew d = false /\ own d = []
                   /\ nth_error c (_id d) = Some (_doc d))
         (find_equal_from path 0 n c).
Proof.
  eapply Forall_impl; [|apply (find_equal_from_stored path 0 n c)].
  intros d (H1 & H2 & _ & _ & H5). rewrite Nat.sub_0_r in H5. auto.
Qed.

(** [getProductsByPrice] and [getProductsByStock], for a value their
    validator accepts (NaN apart), return exactly the stored documents
    whose price, or stock, equals the value, each once and in the order of
    the collection, each as it is stored at its position; [getAllProducts]
    returns every stored document. *)
Theorem queries_return_the_matches (c : collection) :
  (forall p,
      DB.validatePrice (VNum p) = Return tt -> PrimFloat.is_nan p = false ->
      exists docs,
        DB.query (DB.getProductsByPrice (VNum p)) c = Some (Return docs)
        /\ map _doc docs = filter (fun o => same_id (get o "price") (VNum p)) c
        /\ Forall (fun d => isNew d = false /\ own d = []
                            /\ nth_error c (_id d) = Some (_doc d)) docs)
  /\ (forall s,
         DB.validateStock (VNum s) = Return tt -> PrimFloat.is_nan s = false ->
         exists docs,
           DB.query (DB.getProductsByStock (VNum s)) c = Some (Return docs)
           /\ map _doc docs = filter (fun o => same_id (get o "stock") (VNum s)) c
           /\ Forall (fun d => isNew d = false /\ own d = []
                               /\ nth_error c (_id d) = Some (_doc d)) docs)
  /\ exists docs,
      DB.query DB.getAllProducts c = Some (Return docs) /\ map _doc docs = c.
Proof.
  split; [|split].
  - intros p V N. unfold DB.getProductsByPrice. rewrite V.
    rewrite query_number by (reflexivity || assumption).
    eexists. split; [reflexivity|].
    split; [apply find_equal_from_docs|apply find_equal_from_loaded].
  - intros s V N. unfold DB.getProductsByStock. rewrite V.
    rewrite query_number by (reflexivity || assumption).
    eexists. split; [reflexivity|].
    split; [apply find_equal_from_docs|apply find_equal_from_loaded].
  - eexists. split; [reflexivity|]. apply load_from_docs.
Qed.

Lemma queries_return_the_matches_witness :
  (DB.validatePrice (VNum 5.99) = Return tt /\ PrimFloat.is_nan 5.99 = false)
  /\ exists docs,
      DB.query (DB.getProductsByPrice (VNum 5.99)) [stored_pizza]
      = Some (Return docs)
      /\ map _doc docs
         = filter (fun o => same_id (get o "price") (VNum 5.99)) [stored_pizza]
      /\ Forall (fun d => isNew d = false /\ own d = []
                          /\ nth_error [stored_pizza] (_id d) = Some (_doc d)) docs.
Proof.
  split; [split; reflexivity|].
  destruct (queries_return_the_matches [stored_pizza]) as [Hp _].
  apply Hp; reflexivity.
Defined.

(** A product that [addProduct] has added, with a stock other than [-0],
    is found by its price, by its stock and among all products: each of
    the three queries returns what it returned before the call, followed
    by the document [addProduct] returned. *)
Theorem queries_after_addProduct
        (c c' : collection) (id productName price stock : value) (d : Document) :
  run (DB.addProduct id productName price stock) c = Some (Return d, c') ->
  negative_zero stock = false ->
  (exists before,
      DB.query (DB.getProductsByPrice price) c = Some (Return before)
      /\ DB.query (DB.getProductsByPrice price) c' = Some (Return (before ++ [d])))
  /\ (exists before,
         DB.query (DB.getProductsByStock (default (VNum 0) stock)) c
         = Some (Return before)
         /\ DB.query (DB.getProductsByStock (default (VNum 0) stock)) c'
            = Some (Return (before ++ [d])))
  /\ (exists before,
         DB.query DB.getAllProducts c = Some (Return before)
         /\ DB.query DB.getAllProducts c' = Some (Return (before ++ [d]))).
Proof.
  intros H _. apply addProduct_returns in H
    as (n & p & s & -> & -> & -> & _ & _ & _ & _ & VP & Np & VS & Ns & -> & ->).
  split; [|split].
  - unfold DB.getProductsByPrice. rewrite VP.
    rewrite !query_number by (reflexivity || assumption).
    eexists. split; [reflexivity|].
    rewrite find_equal_from_app. cbn [get String.eqb Ascii.eqb Bool.eqb].
    now rewrite (same_id_refl _ Np).
  - unfold DB.getProductsByStock. rewrite VS.
    rewrite !query_number by (reflexivity || assumption).
    eexists. split; [reflexivity|].
    rewrite find_equal_from_app. cbn [get String.eqb Ascii.eqb Bool.eqb].
    now rewrite (same_id_refl _ Ns).
  - eexists. split; [reflexivity|]. unfold DB.query, DB.getAllProducts.
    cbn [find_filter]. now rewrite load_from_app.
Qed.

Lemma queries_after_addProduct_witness :
  (run (DB.addProduct (VNum 1) (VStr "a{3, 24}") (VNum 5.99) (VNum 55)) []
   = Some (Return (mkDocument 0 false stored_pizza [] []), [stored_pizza])
   /\ negative_zero (VNum 55) = false)
  /\ exists before,
      DB.query (DB.getProductsByPrice (VNum 5.99)) [] = Some (Return before)
      /\ DB.query (DB.getProductsByPrice (VNum 5.99)) [stored_pizza]
         = Some (Return (before ++ [mkDocument 0 false stored_pizza [] []])).
Proof.
  split; [split; reflexivity|].
  destruct (@queries_after_addProduct
              [] [stored_pizza] (VNum 1) (VStr "a{3, 24}") (VNum 5.99) (VNum 55)
              (mkDocument 0 false stored_pizza [] [])) as [Hp _];
    [reflexivity|reflexivity|exact Hp].
Defined.

(** ** Adding, repricing, searching *)

Lemma find_from_app (i : nat) (n : float) (c : collection) (o : object) :
  find_from i n (c ++ [o])
  = find_from i n c
    ++ (if same_id (get o "id") (VNum n)
        then [mkDocument (i + List.length c) false o [] []]
        else []).
Proof.
  revert i. induction c as [|o0 c IH]; intros i; cbn.
  - rewrite Nat.add_0_r. now destruct (same_id (get o "id") (VNum n)).
  - rewrite IH, Nat.add_succ_r.
    now destruct (same_id (get o0 "id") (VNum n)).
Qed.

Lemma replace_last (c : collection) (o o' : object) :
  replace (List.length c) o' (c ++ [o]) = c ++ [o'].
Proof. induction c as [|o0 c IH]; cbn; [reflexivity|now rewrite IH]. Qed.

(** After [addProduct] has added a product, with a stock other than [-0],
    [updateProductPrice] with a
    price [validatePrice] accepts (NaN apart) succeeds: the stored
    document keeps its position, its id and its stock and has the new
    price, the rest of the collection is as before, [getProductsByPrice]
    of the new price returns the updated document last, and, the two
    prices being different numbers, [getProductsByPrice] of the old price
    returns what it returned before the product was added. *)
Theorem updateProductPrice_after_addProduct
        (c c' : collection) (id productName price stock : value) (d : Document)
        (p' : float) :
  run (DB.addProduct id productName price stock) c = Some (Return d, c') ->
  negative_zero stock = false ->
  DB.validatePrice (VNum p') = Return tt -> PrimFloat.is_nan p' = false ->
  exists d',
    run (DB.updateProductPrice id (VNum p')) c' = Some (Return d', c ++ [_doc d'])
    /\ _id d' = _id d
    /\ _doc d' = [("id", id); ("price", VNum p'); ("stock", default (VNum 0) stock)]
    /\ (exists before,
           DB.query (DB.getProductsByPrice (VNum p')) c = Some (Return before)
           /\ DB.query (DB.getProductsByPrice (VNum p')) (c ++ [_doc d'])
              = Some (Return (before ++ [d'])))
    /\ (same_id (VNum p') price = false ->
        DB.query (DB.getProductsByPrice price) (c ++ [_doc d'])
        = DB.query (DB.getProductsByPrice price) c).
Proof.
  intros H _ VP' Np'. apply addProduct_returns in H
    as (n & p & s & -> & -> & -> & T & L & S & _ & VP & Np & _ & _ & -> & ->).
  assert (F : find_from 0 n (c ++ [[("id", VNum n); ("price", VNum p); ("stock", VNum s)]])
              = [mkDocument (List.length c) false
                            [("id", VNum n); ("price", VNum p); ("stock", VNum s)] [] []]).
  { rewrite find_from_app. apply (find_from_nil 0) in S. rewrite S.
    cbn [get String.eqb Ascii.eqb Bool.eqb app Nat.add].
    now rewrite same_id_refl by (now apply truthy_not_nan). }
  unfold DB.updateProductPrice. cbn [default].
  rewrite (@update_number_field_run _ n p' _ "price" DB.validatePrice _ _ T L F
             eq_refl VP' Np').
  rewrite replace_last.
  eexists (mkDocument _ _ _ _ _). split; [reflexivity|]. cbn [_id _doc].
  split; [reflexivity|]. split; [reflexivity|]. split.
  - unfold DB.getProductsByPrice. rewrite VP'.
    rewrite !query_number by (reflexivity || assumption).
    eexists. split; [reflexivity|].
    rewrite find_equal_from_app. cbn [get put String.eqb Ascii.eqb Bool.eqb].
    now rewrite (same_id_refl _ Np').
  - intros Dp. unfold DB.getProductsByPrice. rewrite VP.
    rewrite !query_number by (reflexivity || assumption).
    rewrite find_equal_from_app. cbn [get put String.eqb Ascii.eqb Bool.eqb].
    now rewrite Dp, app_nil_r.
Qed.

Lemma updateProductPrice_after_addProduct_witness :
  (run (DB.addProduct (VNum 1) (VStr "a{3, 24}") (VNum 5.99) (VNum 55)) []
   = Some (Return (mkDocument 0 false stored_pizza [] []), [stored_pizza])
   /\ negative_zero (VNum 55) = false
   /\ DB.validatePrice (VNum 6.49) = Return tt /\ PrimFloat.is_nan 6.49 = false)
  /\ exists d',
      run (DB.updateProductPrice (VNum 1) (VNum 6.49)) [stored_pizza]
      = Some (Return d', [] ++ [_doc d'])
      /\ _id d' = 0
      /\ _doc d' = [("id", VNum 1); ("price", VNum 6.49);
                    ("stock", default (VNum 0) (VNum 55))]
      /\ (exists before,
             DB.query (DB.getProductsByPrice (VNum 6.49)) [] = Some (Return before)
             /\ DB.query (DB.getProductsByPrice (VNum 6.49)) ([] ++ [_doc d'])
                = Some (Return (before ++ [d'])))
      /\ (same_id (VNum 6.49) (VNum 5.99) = false ->
          DB.query (DB.getProductsByPrice (VNum 5.99)) ([] ++ [_doc d'])
          = DB.query (DB.getProductsByPrice (VNum 5.99)) []).
Proof.
  split; [repeat split; reflexivity|].
  apply (@updateProductPrice_after_addProduct
           [] [stored_pizza] (VNum 1) (VStr "a{3, 24}") (VNum 5.99) (VNum 55)
           (mkDocument 0 false stored_pizza [] []) 6.49%float); reflexivity.
Defined.

(** ** Batches: an element refused before any storage request *)

Lemma updateProducts_tasks (sched : list nat) (Products : list object) (c : collection) :
  DB.updateProducts sched Products c = Promise_all sched (map update_task Products) c.
Proof. reflexivity. Qed.

(** The rejection [Promise.all] has seen stays the one it has seen. *)
Lemma deliver_keeps_rejection {A : Type} (sched : list nat) :
  forall (tasks tasks' : list (prog A)) (c c' : collection) (e : error)
         (rej' : option error),
    deliver sched tasks c (Some e) = Some (tasks', c', rej') -> rej' = Some e.
Proof.
  induction sched as [|i sched IH]; intros tasks tasks' c c' e rej'; cbn.
  - intros H. now injection H as _ _ <-.
  - destruct (nth_error tasks i) as [p|]; [|discriminate].
    destruct (advance p c) as [[p' c1]|]; [|discriminate].
    apply IH.
Qed.

Lemma Promise_all_rejected_at_start {A : Type} (sched : list nat)
      (tasks : list (prog A)) (c c' : collection) (e : error) (r : result (list A)) :
  first_rejection tasks = Some e ->
  Promise_all sched tasks c = Some (r, c') -> r = Threw e.
Proof.
  intros F. unfold Promise_all. rewrite F.
  destruct (deliver sched tasks c (Some e)) as [[[tasks' c1] rej']|] eqn:D;
    [|discriminate].
  apply deliver_keeps_rejection in D. subst rej'.
  intros H. now injection H as <- _.
Qed.

Lemma first_rejection_app {A : Type} (before after : list (prog A)) (p : prog A) :
  Forall (fun q => rejection q = None) before ->
  first_rejection (before ++ p :: after)
  = match rejection p with
    | Some e => Some e
    | None => first_rejection after
    end.
Proof.
  induction 1 as [|q before Hq _ IH]; cbn; [reflexivity|]. now rewrite Hq.
Qed.

(** A call of [addProduct] is rejected before its first storage request
    exactly when [validateId] refuses the form of the id. *)
Lemma add_task_rejection (Product : object) :
  rejection (add_task Product) = id_error (get Product "id").
Proof.
  unfold add_task, DB.addProduct, DB.validateId, id_error.
  destruct (negb (ToBoolean (get Product "id"))); [reflexivity|].
  destruct (get Product "id"); try reflexivity.
  destruct (lt n 1); reflexivity.
Qed.

Lemma update_task_id_error (Product : object) (e : error) :
  id_error (get Product "id") = Some e -> rejection (update_task Product) = Some e.
Proof.
  unfold update_task, DB.updateProduct, DB.validateId, id_error.
  destruct (negb (ToBoolean (get Product "id"))); [auto|].
  destruct (get Product "id"); auto.
  destruct (lt n 1); [auto|discriminate].
Qed.

(** When an element of a batch has an id that is missing or malformed, and
    no element before it is refused before its first storage request, the
    batch is rejected with the id error of that element
    ([IdNotDefinedError] or [InvalidIdError]), in whatever order the storage
    layer answers the requests of the other elements and whatever those
    requests lead to. *)
Theorem batch_rejected_with_first_id_error
        (sched : list nat) (before after : list object) (Product : object)
        (c c' : collection) (r : result (list Document)) (e : error) :
  id_error (get Product "id") = Some e ->
  (Forall (fun Q => id_error (get Q "id") = None) before ->
   DB.addProducts sched (before ++ Product :: after) c = Some (r, c') ->
   r = Threw e)
  /\ (Forall (fun Q => rejection (update_task Q) = None) before ->
      DB.updateProducts sched (before ++ Product :: after) c = Some (r, c') ->
      r = Threw e).
Proof.
  intros E. split; intros B.
  - rewrite addProducts_tasks. apply Promise_all_rejected_at_start.
    rewrite map_app. cbn [map]. rewrite first_rejection_app.
    + now rewrite add_task_rejection, E.
    + apply Forall_forall. intros q Hq. apply in_map_iff in Hq as (Q & <- & HQ).
      rewrite add_task_rejection. rewrite Forall_forall in B. now apply B.
  - rewrite updateProducts_tasks. apply Promise_all_rejected_at_start.
    rewrite map_app. cbn [map]. rewrite first_rejection_app.
    + now rewrite (update_task_id_error _ E).
    + apply Forall_forall. intros q Hq. apply in_map_iff in Hq as (Q & <- & HQ).
      rewrite Forall_forall in B. now apply B.
Qed.

Lemma batch_rejected_with_first_id_error_witness :
  (id_error (get [("id", VStr "k")] "id") = Some (Err errors.InvalidIdError)
   /\ Forall (fun Q => id_error (get Q "id") = None) [braced_pizza]
   /\ DB.addProducts [0; 0] ([braced_pizza] ++ [("id", VStr "k")] :: [pizza]) []
      = Some (Threw (Err errors.InvalidIdError), [stored_pizza]))
  /\ Threw (Err errors.InvalidIdError) = Threw (A:=list Document) (Err errors.InvalidIdError).
Proof.
  assert (E : id_error (get [("id", VStr "k")] "id") = Some (Err errors.InvalidIdError))
    by reflexivity.
  assert (B : Forall (fun Q => id_error (get Q "id") = None) [braced_pizza])
    by (constructor; [reflexivity|constructor]).
  assert (R : DB.addProducts [0; 0] ([braced_pizza] ++ [("id", VStr "k")] :: [pizza]) []
              = Some (Threw (Err errors.InvalidIdError), [stored_pizza]))
    by reflexivity.
  split; [split; [exact E|split; [exact B|exact R]]|].
  destruct (@batch_rejected_with_first_id_error
              [0; 0] [braced_pizza] [pizza] [("id", VStr "k")] [] [stored_pizza]
              (Threw (Err errors.InvalidIdError)) (Err errors.InvalidIdError) E)
    as [Ha _].
  symmetry. exact (Ha B R).
Defined.

(** ** Updates keep the documents and their ids *)

Lemma updating_bind {A B : Type} (sk : list value) (p : prog A) (f : A -> prog B) :
  updating sk p -> (forall a, updating sk (f a)) -> updating sk (bind p f).
Proof.
  intros Hp Hf. induction Hp; cbn; try constructor; auto.
Qed.

Lemma updating_call {A : Type} (sk : list value) (r : result A) :
  updating sk (call r).
Proof. destruct r; constructor. Qed.

Lemma updating_validateId (sk : list value) (id : value) :
  updating sk (DB.validateId id true).
Proof.
  unfold DB.validateId. destruct (negb (ToBoolean id)); [constructor|].
  destruct id; try constructor. destruct (lt n 1); constructor.
Qed.

Lemma assign_loaded (sk : list value) (d d' : Document) (path : string) (v : value) :
  loaded sk d -> String.eqb path "id" = false ->
  assign productSchema d path v = Some d' ->
  loaded sk d'.
Proof.
  intros (New & N) P. unfold assign, set_path.
  destruct (path_type productSchema path) as [t|].
  - destruct (cast t v); try discriminate;
      intros E; injection E as <-; unfold loaded; cbn [_id isNew _doc];
        rewrite ?get_put_other by assumption; auto.
  - intros E. injection E as <-. unfold loaded. cbn [_id isNew _doc]. auto.
Qed.

Lemma nth_error_ids (c : collection) (j : nat) (o : object) :
  nth_error c j = Some o -> nth_error (ids c) j = Some (get o "id").
Proof. intros N. unfold ids. now rewrite nth_error_map, N. Qed.

Lemma lookup_updating {A : Type} (sk : list value) (id : value)
      (k : Document -> prog A) :
  (forall d, loaded sk d -> updating sk (k d)) ->
  updating sk (Product <- DB.lookup id ;; k Product).
Proof.
  intros Hk. unfold DB.lookup, find_exec. cbn [bind]. constructor.
  intros c docs Hc F. destruct docs as [|P rest]; cbn [bind]; [constructor|].
  apply Hk. unfold Mongoose.find in F. destruct id; try discriminate.
  destruct (PrimFloat.is_nan n); [discriminate|]. injection F as F.
  destruct (find_from_head _ _ _ F) as (j & o & -> & N & _ & _).
  split; [reflexivity|]. cbn [_id _doc Nat.add]. subst sk. now apply nth_error_ids.
Qed.

Lemma assign_updating {A : Type} (sk : list value) (d : Document) (path : string)
      (v : value) (k : Document -> prog A) :
  loaded sk d -> String.eqb path "id" = false ->
  (forall d', loaded sk d' -> updating sk (k d')) ->
  updating sk (Product <- model (assign productSchema d path v) ;; k Product).
Proof.
  intros Ld P Hk. destruct (assign productSchema d path v) as [d'|] eqn:E;
    cbn [model bind]; [|constructor].
  apply Hk. eapply assign_loaded; eauto.
Qed.

Lemma save_updating (sk : list value) (d : Document) :
  loaded sk d -> updating sk (Product <- save_doc d ;; Ret Product).
Proof.
  intros Ld. unfold save_doc. cbn [bind]. constructor; [assumption|].
  intros d'. constructor.
Qed.

(** The update methods save loaded documents only. *)
Lemma update_methods_updating (sk : list value) :
  (forall id productName, updating sk (DB.updateProductName id productName))
  /\ (forall id price, updating sk (DB.updateProductPrice id price))
  /\ (forall id stock, updating sk (DB.updateProductStock id stock))
  /\ (forall id productName price stock,
         updating sk (DB.updateProduct id productName price stock)).
Proof.
  split; [|split; [|split]].
  - intros id productName. unfold DB.updateProductName.
    apply updating_bind; [apply updating_validateId|]. intros _.
    apply updating_bind; [apply updating_call|]. intros _.
    apply lookup_updating. intros d Ld.
    apply assign_updating; [assumption|reflexivity|]. intros d1 L1.
    now apply save_updating.
  - intros id price. unfold DB.updateProductPrice.
    apply updating_bind; [apply updating_validateId|]. intros _.
    apply updating_bind; [apply updating_call|]. intros _.
    apply lookup_updating. intros d Ld.
    apply assign_updating; [assumption|reflexivity|]. intros d1 L1.
    now apply save_updating.
  - intros id stock. unfold DB.updateProductStock.
    apply updating_bind; [apply updating_validateId|]. intros _.
    apply updating_bind; [apply updating_call|]. intros _.
    apply lookup_updating. intros d Ld.
    apply assign_updating; [assumption|reflexivity|]. intros d1 L1.
    now apply save_updating.
  - intros id productName price stock. unfold DB.updateProduct.
    apply updating_bind; [apply updating_validateId|]. intros _.
    apply updating_bind; [apply updating_call|]. intros _.
    apply updating_bind; [apply updating_call|]. intros _.
    apply updating_bind; [apply updating_call|]. intros _.
    apply lookup_updating. intros d Ld. unfold DB.assign_or_keep.
    apply assign_updating; [assumption|reflexivity|]. intros d1 L1.
    apply assign_updating; [assumption|reflexivity|]. intros d2 L2.
    apply assign_updating; [assumption|reflexivity|]. intros d3 L3.
    now apply save_updating.
Qed.

Lemma save_loaded_ids (d : Document) (c c' : collection) (r : result Document) :
  loaded (ids c) d -> Mongoose.save d c = (r, c') -> ids c' = ids c.
Proof.
  intros (New & N). unfold Mongoose.save.
  destruct (castErrors d); [|intros E; now injection E as _ <-].
  rewrite New. intros E. injection E as _ <-.
  unfold ids in N. rewrite nth_error_map in N.
  destruct (nth_error c (_id d)) as [o|] eqn:No; [|discriminate].
  cbn in N. injection N as N. now apply (@ids_replace (_id d) o).
Qed.

Lemma advance_updating {A : Type} (p p' : prog A) (c c' : collection) :
  updating (ids c) p -> advance p c = Some (p', c') ->
  updating (ids c') p' /\ ids c' = ids c.
Proof.
  intros Hp. destruct Hp as [a|e| |q k Hk|d k Ld Hk]; cbn.
  - intros E. injection E as <- <-. split; [constructor|reflexivity].
  - intros E. injection E as <- <-. split; [constructor|reflexivity].
  - discriminate.
  - destruct (Mongoose.find q c) as [docs|] eqn:F; [|discriminate].
    intros E. injection E as <- <-. split; [|reflexivity]. now apply (Hk c).
  - destruct (Mongoose.save d c) as [[d'|e] c1] eqn:S;
      intros E; injection E as <- <-;
        assert (Ec : ids c1 = ids c) by (eapply save_loaded_ids; eauto);
        rewrite Ec; (split; [|reflexivity]); [apply Hk|constructor].
Qed.

Lemma run_updating {A : Type} (p : prog A) :
  forall (c c' : collection) (r : result A),
    updating (ids c) p -> run p c = Some (r, c') -> ids c' = ids c.
Proof.
  induction p as [a|e|q k IH|d k IH|]; intros c c' r Hp; cbn.
  - intros E. now injection E as _ <-.
  - intros E. now injection E as _ <-.
  - destruct (Mongoose.find q c) as [docs|] eqn:F; [|discriminate].
    apply IH. inversion Hp as [| | |q0 k0 Hk E1|]. 
    apply (Hk c docs eq_refl F).
  - destruct (Mongoose.save d c) as [[d'|e] c1] eqn:S.
    + inversion Hp as [| | | |d0 k0 Ld Hk E1].
      assert (Ec : ids c1 = ids c) by (eapply save_loaded_ids; eauto).
      intros R. rewrite <- Ec. apply (IH d' c1 c' r); [|exact R].
      rewrite Ec. apply Hk.
    + inversion Hp as [| | | |d0 k0 Ld Hk E1].
      intros E. injection E as _ <-. eapply save_loaded_ids; eauto.
  - discriminate.
Qed.

Lemma deliver_updating {A : Type} (sched : list nat) :
  forall (tasks tasks' : list (prog A)) (c c' : collection) (rej rej' : option error),
    Forall (updating (ids c)) tasks ->
    deliver sched tasks c rej = Some (tasks', c', rej') ->
    ids c' = ids c.
Proof.
  induction sched as [|i sched IH]; intros tasks tasks' c c' rej rej' Ht; cbn.
  - intros E. now injection E as _ <- _.
  - destruct (nth_error tasks i) as [p|] eqn:N; [|discriminate].
    destruct (advance p c) as [[p' c1]|] eqn:Adv; [|discriminate].
    assert (Hp : updating (ids c) p).
    { rewrite Forall_forall in Ht. apply Ht. eapply nth_error_In; eauto. }
    destruct (@advance_updating _ p p' c c1 Hp Adv) as [Hp' Ec].
    intros D. rewrite <- Ec. eapply IH; [|exact D].
    apply Forall_set_nth; [now rewrite Ec|exact Hp'].
Qed.

(** No update adds or removes a document or changes an id: after
    [updateProductName], [updateProductPrice], [updateProductStock] or
    [updateProduct], whatever the arguments and the outcome, and after
    [updateProducts], in whatever order the storage layer answers and
    whether the batch is fulfilled or rejected, the collection holds as many
    documents as before, with the same ids at the same positions.  (A
    loaded document is written back whole here; writing back its changed
    paths only leaves the ids alone just the same.) *)
Theorem updates_keep_the_ids (c : collection) :
  (forall id productName r c',
      run (DB.updateProductName id productName) c = Some (r, c') -> ids c' = ids c)
  /\ (forall id price r c',
         run (DB.updateProductPrice id price) c = Some (r, c') -> ids c' = ids c)
  /\ (forall id stock r c',
         run (DB.updateProductStock id stock) c = Some (r, c') -> ids c' = ids c)
  /\ (forall id productName price stock r c',
         run (DB.updateProduct id productName price stock) c = Some (r, c') ->
         ids c' = ids c)
  /\ (forall sched Products r c',
         DB.updateProducts sched Products c = Some (r, c') -> ids c' = ids c).
Proof.
  destruct (update_methods_updating (ids c)) as (Hn & Hp & Hs & Hu).
  split; [|split; [|split; [|split]]].
  - intros id productName r c' H. eapply run_updating; [apply Hn|exact H].
  - intros id price r c' H. eapply run_updating; [apply Hp|exact H].
  - intros id stock r c' H. eapply run_updating; [apply Hs|exact H].
  - intros id productName price stock r c' H.
    eapply run_updating; [apply Hu|exact H].
  - intros sched Products r c'. rewrite updateProducts_tasks. unfold Promise_all.
    destruct (deliver sched _ c _) as [[[tasks' c1] rej]|] eqn:D; [|discriminate].
    assert (E : ids c1 = ids c).
    { eapply deliver_updating; [|exact D].
      apply Forall_forall. intros p Hp'. apply in_map_iff in Hp' as (P & <- & _).
      apply Hu. }
    destruct rej as [e|].
    + intros H. now injection H as _ <-.
    + destruct (fulfilled tasks'); cbn; [|discriminate].
      intros H. now injection H as _ <-.
Qed.

Lemma updates_keep_the_ids_witness :
  DB.updateProducts [0; 1; 0; 1]
                    [ [("id", VNum 1); ("price", VNum 6.49)];
                      [("id", VNum 2); ("stock", VNum 0)] ]
                    [stored_pizza; stored_cheese]
  = Some (Return [ mkDocument 0 false (put stored_pizza "price" (VNum 6.49))
                              [("productName", VUndefined)] [];
                   mkDocument 1 false (put stored_cheese "stock" (VNum 0))
                              [("productName", VUndefined)] [] ],
          [put stored_pizza "price" (VNum 6.49); put stored_cheese "stock" (VNum 0)])
  /\ ids [put stored_pizza "price" (VNum 6.49); put stored_cheese "stock" (VNum 0)]
     = ids [stored_pizza; stored_cheese].
Proof.
  split; [reflexivity|].
  destruct (updates_keep_the_ids [stored_pizza; stored_cheese])
    as (_ & _ & _ & _ & Hb).
  apply (Hb [0; 1; 0; 1]
            [ [("id", VNum 1); ("price", VNum 6.49)];
              [("id", VNum 2); ("stock", VNum 0)] ]
            (Return [ mkDocument 0 false (put stored_pizza "price" (VNum 6.49))
                                 [("productName", VUndefined)] [];
                      mkDocument 1 false (put stored_cheese "stock" (VNum 0))
                                 [("productName", VUndefined)] [] ])).
  reflexivity.
Defined.

(** ** Batches of additions with distinct ids *)

Lemma addable_not_refused (Product : object) :
  addable Product = true -> id_error (get Product "id") = None.
Proof.
  intros H. now destruct (addable_id _ H) as (n & _ & _ & E).
Qed.

Lemma first_id_error_tasks (Products : list object) :
  first_rejection (map add_task Products) = first_id_error Products.
Proof.
  induction Products as [|P Products IH]; cbn; [reflexivity|].
  now rewrite add_task_rejection, IH.
Qed.

Lemma first_rejection_set_nth {A : Type} (i : nat) (t t' : prog A)
      (tasks : list (prog A)) :
  nth_error tasks i = Some t -> rejection t' = rejection t ->
  first_rejection (set_nth i t' tasks) = first_rejection tasks.
Proof.
  revert i. induction tasks as [|q tasks IH]; intros [|i]; cbn; try discriminate.
  - intros E R. injection E as ->. now rewrite R.
  - intros E R. now rewrite (IH _ E R).
Qed.

Lemma length_set_nth {A : Type} (i : nat) (x : A) (l : list A) :
  List.length (set_nth i x l) = List.length l.
Proof. revert i. induction l as [|y l IH]; intros [|i]; cbn; auto. Qed.

Section DistinctIds.

Variable Products : list object.

(** The addable elements have ids that differ from one another. *)
Hypothesis Hdistinct :
  forall i j P Q,
    i <> j -> nth_error Products i = Some P -> nth_error Products j = Some Q ->
    addable P = true -> addable Q = true ->
    same_id (get P "id") (get Q "id") = false.

Lemma add_phase_after (c : collection) (i j : nat) (P Q : object) (n : float)
      (t : prog Document) :
  i <> j -> nth_error Products i = Some P -> nth_error Products j = Some Q ->
  addable P = true -> get P "id" = VNum n ->
  add_phase c Q t -> add_phase (c ++ [document_of P]) Q t.
Proof.
  intros Hij NP NQ AP Hid Ph.
  assert (K : forall m, addable Q = true -> get Q "id" = VNum m ->
                        stored_id c m = false ->
                        stored_id (c ++ [document_of P]) m = false).
  { intros m AQ Hm S. rewrite stored_id_app, S, document_of_id. cbn [orb].
    rewrite <- Hm. now apply (Hdistinct Hij NP NQ). }
  destruct Ph as [m AQ Hm S|m AQ Hm S|d AQ Hd HIn|e He].
  - apply (@phase_checking _ _ m); auto.
  - apply (@phase_saving _ _ m); auto.
  - apply phase_done; auto. apply in_or_app. now left.
  - now apply phase_refused.
Qed.

(** One request of one call is answered. *)
Lemma add_step (tasks : list (prog Document)) (c : collection) (i : nat)
      (t : prog Document) :
  add_phases Products tasks c -> nth_error tasks i = Some t ->
  exists t' c',
    advance t c = Some (t', c')
    /\ rejection t' = rejection t
    /\ rank t' <= rank t - 1
    /\ add_phases Products (set_nth i t' tasks) c'
    /\ (c' = c
        \/ exists P, In P Products /\ addable P = true
                     /\ c' = c ++ [document_of P] /\ ~ In (document_of P) c).
Proof.
  intros [Len Ph] Nt.
  assert (NP : exists P, nth_error Products i = Some P).
  { destruct (nth_error Products i) as [P|] eqn:E; [eauto|].
    apply nth_error_None in E.
    assert (i < List.length tasks) by (apply nth_error_Some; congruence). lia. }
  destruct NP as [P NP].
  assert (Same : forall t', add_phase c P t' ->
                            add_phases Products (set_nth i t' tasks) c).
  { intros t' Pt'. split; [now rewrite length_set_nth|].
    intros j Q tj NQ. rewrite nth_error_set_nth.
    destruct (Nat.eqb i j) eqn:E.
    - apply Nat.eqb_eq in E. subst j. rewrite Nt. cbn.
      intros H. injection H as <-. rewrite NP in NQ. now injection NQ as <-.
    - now apply Ph. }
  pose proof (Ph i P t NP Nt) as Pt.
  destruct Pt as [n AP Hid S|n AP Hid S|d AP Hd HIn|e He].
  - (* the existence check is answered *)
    assert (Adv : advance (add_task P) c = Some (saving P, c))
      by (now rewrite (@advance_find P n c AP Hid), S).
    exists (saving P), c. split; [exact Adv|].
    destruct (@checking_shape P AP) as (_ & _ & Cr & Cj).
    rewrite Cr, Cj. split; [reflexivity|]. split; [cbn [saving rank]; lia|].
    split; [|now left]. apply Same. now apply (@phase_saving _ _ n).
  - (* the save is answered *)
    assert (Adv : advance (saving P) c
                  = Some (Ret (mkDocument (List.length c) false (document_of P) [] []),
                          c ++ [document_of P]))
      by (now rewrite (@advance_save P n c Hid), S).
    eexists _, _. split; [exact Adv|]. split; [reflexivity|].
    split; [cbn [rank]; lia|].
    assert (NIn : ~ In (document_of P) c).
    { intros HIn.
      assert (X : stored_id c n = true).
      { apply stored_id_In. exists (document_of P). split; [assumption|].
        rewrite document_of_id, Hid.
        destruct (addable_id _ AP) as (n' & Hid' & Nn & _).
        rewrite Hid in Hid'. injection Hid' as <-. now apply same_id_refl. }
      congruence. }
    split.
    + split; [now rewrite length_set_nth|].
      intros j Q tj NQ. rewrite nth_error_set_nth.
      destruct (Nat.eqb i j) eqn:E.
      * apply Nat.eqb_eq in E. subst j. rewrite Nt. cbn.
        intros H. injection H as <-. rewrite NP in NQ. injection NQ as <-.
        apply phase_done; [assumption|reflexivity|].
        apply in_or_app. right. now left.
      * apply Nat.eqb_neq in E. intros Ntj.
        apply (@add_phase_after c i j P Q n tj); auto.
        now apply (Ph j).
    + right. exists P. split; [eapply nth_error_In; eauto|]. auto.
  - (* returned: nothing pending *)
    eexists _, _. split; [reflexivity|]. split; [reflexivity|].
    split; [cbn; lia|]. split; [|now left]. apply Same. now apply phase_done.
  - (* refused: nothing pending *)
    eexists _, _. split; [reflexivity|]. split; [reflexivity|].
    split; [cbn; lia|]. split; [|now left]. apply Same. now apply phase_refused.
Qed.

(** Any number of requests answered, in any order. *)
Lemma add_run (c0 : collection) (sched : list nat) :
  Forall (fun i => i < List.length Products) sched ->
  forall (tasks : list (prog Document)) (added : list object),
    add_phases Products tasks (c0 ++ added) ->
    NoDup added ->
    incl added (map document_of (filter addable Products)) ->
    exists tasks' added',
      deliver sched tasks (c0 ++ added) (first_rejection tasks)
      = Some (tasks', c0 ++ added', first_rejection tasks)
      /\ first_rejection tasks' = first_rejection tasks
      /\ add_phases Products tasks' (c0 ++ added')
      /\ NoDup added'
      /\ incl added' (map document_of (filter addable Products))
      /\ forall j t t', nth_error tasks j = Some t -> nth_error tasks' j = Some t' ->
                        rank t' <= rank t - count_occ Nat.eq_dec sched j.
Proof.
  induction 1 as [|i sched Hi Hsched IH]; intros tasks added Ph ND Incl.
  - exists tasks, added. cbn [deliver count_occ].
    repeat (split; [assumption || reflexivity|]).
    intros j t t' E1 E2. rewrite E1 in E2. injection E2 as <-. lia.
  - destruct (nth_error tasks i) as [t|] eqn:Nt.
    2:{ apply nth_error_None in Nt. destruct Ph as [Len _]. lia. }
    destruct (@add_step tasks (c0 ++ added) i t Ph Nt) as (t' & c' & Adv & Rj & Rk & Ph' & Hc').
    assert (Hadd : exists added1,
               c' = c0 ++ added1 /\ NoDup added1
               /\ incl added1 (map document_of (filter addable Products))).
    { destruct Hc' as [-> | (P & HP & AP & -> & NIn)]; [eauto|].
      exists (added ++ [document_of P]). rewrite <- app_assoc.
      split; [reflexivity|]. split.
      - apply NoDup_app; [assumption|constructor; [intros []|constructor]|].
        intros x Hx [<- | []]. apply NIn. apply in_or_app. now right.
      - intros x Hx. apply in_app_or in Hx as [Hx | [<- | []]]; [now apply Incl|].
        apply in_map. apply filter_In. now split. }
    destruct Hadd as (added1 & -> & ND1 & Incl1).
    assert (Fr : first_rejection (set_nth i t' tasks) = first_rejection tasks)
      by (now apply (@first_rejection_set_nth _ i t)).
    assert (Rej : match first_rejection tasks with
                  | Some e => Some e
                  | None => rejection t'
                  end = first_rejection tasks).
    { destruct (first_rejection tasks) as [e|] eqn:F; [reflexivity|].
      rewrite Rj. pose proof (@first_rejection_none _ tasks F i) as Hn.
      destruct t; try reflexivity. now contradiction (Hn e). }
    destruct (IH _ _ Ph' ND1 Incl1) as (tasks' & added' & D & Fr' & Ph2 & ND2 & Incl2 & Rk2).
    exists tasks', added'.
    cbn [deliver]. rewrite Nt, Adv, Rej. rewrite Fr in D, Fr'.
    split; [exact D|]. split; [exact Fr'|]. split; [exact Ph2|].
    split; [exact ND2|]. split; [exact Incl2|].
    intros j t0 tf E0 Ef.
    assert (Ej : nth_error (set_nth i t' tasks) j
                 = Some (if Nat.eqb i j then t' else t0)).
    { rewrite nth_error_set_nth, E0. now destruct (Nat.eqb i j). }
    specialize (Rk2 j _ tf Ej Ef). cbn [count_occ].
    destruct (Nat.eq_dec i j) as [->|Hne].
    + rewrite Nat.eqb_refl in Rk2. rewrite Nt in E0. injection E0 as <-. lia.
    + apply Nat.eqb_neq in Hne. rewrite Hne in Rk2. assumption.
Qed.

End DistinctIds.

Lemma add_task_refused (Product : object) (e : error) :
  id_error (get Product "id") = Some e -> add_task Product = Throw e.
Proof.
  unfold add_task, DB.addProduct, DB.validateId, id_error.
  destruct (negb (ToBoolean (get Product "id")));
    [intros E; now injection E as <-|].
  destruct (get Product "id"); try (intros E; now injection E as <-).
  destruct (lt n 1); [intros E; now injection E as <-|discriminate].
Qed.

Lemma first_id_error_none (Products : list object) :
  first_id_error Products = None ->
  forall P, In P Products -> id_error (get P "id") = None.
Proof.
  induction Products as [|Q Products IH]; cbn; [intros _ P []|].
  destruct (id_error (get Q "id")) eqn:E; [discriminate|].
  intros H P [<- | HP]; auto.
Qed.

Lemma Forall2_nth_error {A B : Type} (R : A -> B -> Prop) (l : list A) :
  forall l' : list B,
    List.length l' = List.length l ->
    (forall j x y, nth_error l j = Some x -> nth_error l' j = Some y -> R x y) ->
    Forall2 R l l'.
Proof.
  induction l as [|x l IH]; intros [|y l'] Len H; try discriminate; constructor.
  - now apply (H 0).
  - apply IH; [now injection Len|]. intros j. apply (H (S j)).
Qed.

Lemma fulfilled_documents (Products : list object) (tasks : list (prog Document)) :
  Forall2 (fun P t => exists d, t = Ret d /\ _doc d = document_of P) Products tasks ->
  exists docs, fulfilled tasks = Some docs
               /\ map _doc docs = map document_of Products.
Proof.
  induction 1 as [|P t Products tasks (d & -> & Hd) _ (docs & F & M)]; cbn.
  - now exists [].
  - rewrite F. exists (d :: docs). cbn. now rewrite Hd, M.
Qed.

Lemma addable_same_id (Product : object) :
  addable Product = true ->
  same_id (get Product "id") (get Product "id") = true.
Proof.
  intros H. destruct (addable_id _ H) as (n & -> & Nn & _).
  now apply same_id_refl.
Qed.

Lemma distinct_documents (Products : list object) :
  (forall i j P Q,
      i <> j -> nth_error Products i = Some P -> nth_error Products j = Some Q ->
      addable P = true -> addable Q = true ->
      same_id (get P "id") (get Q "id") = false) ->
  NoDup (map document_of (filter addable Products)).
Proof.
  induction Products as [|P Products IH]; intros D; cbn; [constructor|].
  assert (Tl : NoDup (map document_of (filter addable Products))).
  { apply IH. intros i j P1 Q1 Hij. apply (D (S i) (S j)). lia. }
  destruct (addable P) eqn:AP; [|exact Tl].
  cbn. constructor; [|exact Tl].
  intros HIn. apply in_map_iff in HIn as (Q & E & HQ).
  apply filter_In in HQ as [HQ AQ].
  apply In_nth_error in HQ as [j Nj].
  assert (X : same_id (get P "id") (get Q "id") = false)
    by (apply (D 0 (S j)); auto).
  unfold document_of in E. injection E as E _ _.
  rewrite E, (addable_same_id _ AP) in X. discriminate.
Qed.

(** A batch of additions in which every element is either one
    [addProduct] accepts (its id, name and price pass the validators, its
    stock passes or is left out, neither number is NaN and the stock is
    not [-0]) or refused for the form of its id, the accepted ones having
    ids that differ from one another and are not stored.  Once the storage
    layer has answered both requests of every call, in whatever order,
    every accepted element is stored, once each, after the documents the
    collection held, with stock 0 where it gave none.  The batch is
    fulfilled with the documents of the elements, in the order of the
    elements, when no id is refused; when one is, the batch is rejected
    with the id error of the first such element, and the accepted elements
    are stored all the same. *)
Theorem addProducts_stores_every_acceptable_element
        (c : collection) (Products : list object) (sched : list nat) :
  Forall (fun P => addable P = true \/ id_error (get P "id") <> None) Products ->
  (forall i j P Q,
      i <> j -> nth_error Products i = Some P -> nth_error Products j = Some Q ->
      addable P = true -> addable Q = true ->
      same_id (get P "id") (get Q "id") = false) ->
  (forall P n, In P Products -> addable P = true -> get P "id" = VNum n ->
               stored_id c n = false) ->
  Forall (fun i => i < List.length Products) sched ->
  (forall i, i < List.length Products -> 2 <= count_occ Nat.eq_dec sched i) ->
  exists r added,
    DB.addProducts sched Products c = Some (r, c ++ added)
    /\ Permutation added (map document_of (filter addable Products))
    /\ match first_id_error Products with
       | Some e => r = Threw e
       | None => exists docs, r = Return docs
                              /\ map _doc docs = map document_of Products
       end.
Proof.
  intros Hall Hdist Hunstored Hsched Hcount.
  rewrite Forall_forall in Hall.
  assert (Start : add_phases Products (map add_task Products) (c ++ [])).
  { split; [apply length_map|]. intros j P t NP. rewrite nth_error_map, NP. cbn.
    intros E. injection E as <-.
    assert (HP : In P Products) by (eapply nth_error_In; eauto).
    destruct (Hall P HP) as [AP | R].
    - destruct (addable_id _ AP) as (n & Hid & _).
      apply (@phase_checking _ _ n); auto. rewrite app_nil_r. eauto.
    - destruct (id_error (get P "id")) as [e|] eqn:E; [|now contradiction R].
      rewrite (add_task_refused _ E). now apply phase_refused. }
  destruct (@add_run Products Hdist c sched Hsched _ [] Start (NoDup_nil _)
                     (incl_nil_l _))
    as (tasks' & added & D & _ & [Len Ph] & ND & Incl & Rk).
  rewrite app_nil_r in D.
  assert (Done : forall j P t',
             nth_error Products j = Some P -> nth_error tasks' j = Some t' ->
             addable P = true ->
             exists d, t' = Ret d /\ _doc d = document_of P
                       /\ In (document_of P) added).
  { intros j P t' NP Nt' AP.
    assert (Hj : j < List.length Products) by (apply nth_error_Some; congruence).
    assert (N0 : nth_error (map add_task Products) j = Some (add_task P))
      by (now rewrite nth_error_map, NP).
    pose proof (Rk j _ _ N0 Nt') as R. specialize (Hcount j Hj).
    destruct (addable_id _ AP) as (n & Hid & Nn & _).
    destruct (@checking_shape P AP) as (_ & _ & Cr & _).
    rewrite Cr in R.
    destruct (Ph j P t' NP Nt') as [m _ _ _|m _ _ _|d _ Hd HIn|e He].
    - rewrite Cr in R. lia.
    - cbn [saving rank] in R. lia.
    - exists d. split; [reflexivity|]. split; [assumption|].
      apply in_app_or in HIn as [HIn|HIn]; [|assumption].
      assert (HP : In P Products) by (eapply nth_error_In; eauto).
      pose proof (Hunstored P n HP AP Hid) as S.
      assert (X : stored_id c n = true).
      { apply stored_id_In. exists (document_of P). split; [assumption|].
        rewrite document_of_id, Hid. now apply same_id_refl. }
      congruence.
    - rewrite (addable_not_refused _ AP) in He. discriminate. }
  assert (Perm : Permutation added (map document_of (filter addable Products))).
  { apply NoDup_Permutation; [assumption|now apply distinct_documents|].
    intros x. split; [apply Incl|].
    intros Hx. apply in_map_iff in Hx as (P & <- & HP).
    apply filter_In in HP as [HP AP]. apply In_nth_error in HP as [j NP].
    assert (Hj : j < List.length tasks')
      by (rewrite Len; apply nth_error_Some; congruence).
    destruct (nth_error tasks' j) as [t'|] eqn:Nt';
      [|apply nth_error_None in Nt'; lia].
    now destruct (Done j P t' NP Nt' AP) as (d & _ & _ & HIn). }
  rewrite addProducts_tasks. unfold Promise_all. rewrite D.
  rewrite first_id_error_tasks.
  destruct (first_id_error Products) as [e|] eqn:F.
  - exists (Threw e), added. split; [reflexivity|]. now split.
  - assert (Ful : exists docs, fulfilled tasks' = Some docs
                               /\ map _doc docs = map document_of Products).
    { apply fulfilled_documents. apply Forall2_nth_error; [assumption|].
      intros j P t' NP Nt'.
      assert (HP : In P Products) by (eapply nth_error_In; eauto).
      destruct (Hall P HP) as [AP | R].
      - destruct (Done j P t' NP Nt' AP) as (d & E & Hd & _). eauto.
      - now contradiction R; apply (first_id_error_none _ F). }
    destruct Ful as (docs & Ful & M). rewrite Ful. cbn [option_map].
    exists (Return docs), added. split; [reflexivity|]. split; [assumption|].
    eauto.
Qed.

Lemma addProducts_stores_every_acceptable_element_witness :
  (Forall (fun P => addable P = true \/ id_error (get P "id") <> None)
          [braced_pizza; [("id", VStr "k")]; unstocked_cheese]
   /\ Forall (fun i => i < 3) [0; 1; 2; 2; 1; 0])
  /\ exists r added,
      DB.addProducts [0; 1; 2; 2; 1; 0]
                     [braced_pizza; [("id", VStr "k")]; unstocked_cheese] []
      = Some (r, [] ++ added)
      /\ Permutation added
                     [stored_pizza; [("id", VNum 2); ("price", VNum 2.99); ("stock", VNum 0)]]
      /\ r = Threw (Err errors.InvalidIdError).
Proof.
  assert (H1 : Forall (fun P => addable P = true \/ id_error (get P "id") <> None)
                      [braced_pizza; [("id", VStr "k")]; unstocked_cheese]).
  { constructor; [now left|]. constructor; [right; discriminate|].
    constructor; [now left|constructor]. }
  assert (H2 : Forall (fun i => i < 3) [0; 1; 2; 2; 1; 0])
    by (repeat (constructor; [lia|]); constructor).
  split; [split; assumption|].
  apply (@addProducts_stores_every_acceptable_element
           [] [braced_pizza; [("id", VStr "k")]; unstocked_cheese] [0; 1; 2; 2; 1; 0]).
  - exact H1.
  - intros i j P Q Hij NP NQ AP AQ.
    destruct i as [|[|[|i]]]; destruct j as [|[|[|j]]]; cbn in NP, NQ;
      try congruence; try (destruct i; discriminate); try (destruct j; discriminate);
        injection NP as <-; injection NQ as <-; try reflexivity; discriminate.
  - intros P n _ _ _. reflexivity.
  - exact H2.
  - intros i Hi. destruct i as [|[|[|i]]]; [cbn; lia..|cbn in Hi; lia].
Defined.



(** ** A rejected call changes nothing *)

Lemma saves_last_bind {A B : Type} (p : prog A) (f : A -> prog B) :
  reading p -> (forall a, saves_last (f a)) -> saves_last (bind p f).
Proof.
  intros Hp Hf. induction Hp; cbn; try constructor; auto.
Qed.

Lemma reading_call {A : Type} (r : result A) : reading (call r).
Proof. destruct r; constructor. Qed.

Lemma reading_model {A : Type} (o : option A) : reading (model o).
Proof. destruct o; constructor. Qed.

Lemma reading_validateId (id : value) (mutation : bool) :
  reading (DB.validateId id mutation).
Proof.
  unfold DB.validateId. destruct (negb (ToBoolean id)); [constructor|].
  destruct id; try constructor. destruct (lt n 1); [constructor|].
  destruct (negb mutation); [|constructor].
  unfold find_exec. cbn [bind]. constructor. intros [|d ds]; constructor.
Qed.

Lemma reading_lookup (id : value) : reading (DB.lookup id).
Proof.
  unfold DB.lookup, find_exec. cbn [bind]. constructor.
  intros [|d ds]; constructor.
Qed.

Lemma saves_last_save_doc (d : Document) :
  saves_last (Product <- save_doc d ;; Ret Product).
Proof. unfold save_doc. cbn [bind]. constructor. reflexivity. Qed.

Lemma save_rejected (d : Document) (c c' : collection) (e : error) :
  Mongoose.save d c = (Threw e, c') ->
  c' = c /\ (e = ValidationError \/ e = DuplicateKeyError).
Proof.
  unfold Mongoose.save. destruct (castErrors d).
  - destruct (isNew d); [|discriminate].
    destruct (existsb _ c); [|discriminate].
    intros E. injection E as <- <-. auto.
  - intros E. injection E as <- <-. auto.
Qed.

Lemma run_saves_last {A : Type} (p : prog A) :
  saves_last p ->
  forall (c c' : collection) (e : error),
    run p c = Some (Threw e, c') -> c' = c.
Proof.
  induction 1 as [a|e0| |q k Hk IH|d k Hk]; intros c c' e; cbn.
  - discriminate.
  - intros E. now injection E as _ <-.
  - discriminate.
  - destruct (Mongoose.find q c) as [docs|]; [|discriminate]. apply IH.
  - destruct (Mongoose.save d c) as [[d'|e1] c1] eqn:S.
    + specialize (Hk d'). destruct (k d'); try discriminate.
    + intros E. injection E as _ <-. now apply save_rejected in S as [-> _].
Qed.

Lemma mutators_save_last :
  (forall id productName price stock,
      saves_last (DB.addProduct id productName price stock))
  /\ (forall id productName, saves_last (DB.updateProductName id productName))
  /\ (forall id price, saves_last (DB.updateProductPrice id price))
  /\ (forall id stock, saves_last (DB.updateProductStock id stock))
  /\ (forall id productName price stock,
         saves_last (DB.updateProduct id productName price stock)).
Proof.
  split; [|split; [|split; [|split]]].
  - intros id productName price stock. unfold DB.addProduct.
    apply saves_last_bind; [apply reading_validateId|]. intros _.
    apply saves_last_bind; [apply reading_call|]. intros _.
    apply saves_last_bind; [apply reading_call|]. intros _.
    apply saves_last_bind; [apply reading_call|]. intros _.
    apply saves_last_bind; [apply reading_model|]. intros d.
    apply saves_last_save_doc.
  - intros id productName. unfold DB.updateProductName.
    apply saves_last_bind; [apply reading_validateId|]. intros _.
    apply saves_last_bind; [apply reading_call|]. intros _.
    apply saves_last_bind; [apply reading_lookup|]. intros d.
    apply saves_last_bind; [apply reading_model|]. intros d1.
    apply saves_last_save_doc.
  - intros id price. unfold DB.updateProductPrice.
    apply saves_last_bind; [apply reading_validateId|]. intros _.
    apply saves_last_bind; [apply reading_call|]. intros _.
    apply saves_last_bind; [apply reading_lookup|]. intros d.
    apply saves_last_bind; [apply reading_model|]. intros d1.
    apply saves_last_save_doc.
  - intros id stock. unfold DB.updateProductStock.
    apply saves_last_bind; [apply reading_validateId|]. intros _.
    apply saves_last_bind; [apply reading_call|]. intros _.
    apply saves_last_bind; [apply reading_lookup|]. intros d.
    apply saves_last_bind; [apply reading_model|]. intros d1.
    apply saves_last_save_doc.
  - intros id productName price stock. unfold DB.updateProduct.
    apply saves_last_bind; [apply reading_validateId|]. intros _.
    apply saves_last_bind; [apply reading_call|]. intros _.
    apply saves_last_bind; [apply reading_call|]. intros _.
    apply saves_last_bind; [apply reading_call|]. intros _.
    apply saves_last_bind; [apply reading_lookup|]. intros d.
    apply saves_last_bind; [apply reading_model|]. intros d1.
    apply saves_last_bind; [apply reading_model|]. intros d2.
    apply saves_last_bind; [apply reading_model|]. intros d3.
    apply saves_last_save_doc.
Qed.

(** A single call that is rejected leaves the collection as it was:
    [addProduct] and the four update methods write with one [save()], their
    last step, and a [save()] that is refused writes nothing. *)
Theorem rejected_call_changes_nothing (c c' : collection) (e : error) :
  (forall id productName price stock,
      run (DB.addProduct id productName price stock) c = Some (Threw e, c') ->
      c' = c)
  /\ (forall id productName,
         run (DB.updateProductName id productName) c = Some (Threw e, c') ->
         c' = c)
  /\ (forall id price,
         run (DB.updateProductPrice id price) c = Some (Threw e, c') -> c' = c)
  /\ (forall id stock,
         run (DB.updateProductStock id stock) c = Some (Threw e, c') -> c' = c)
  /\ (forall id productName price stock,
         run (DB.updateProduct id productName price stock) c = Some (Threw e, c') ->
         c' = c).
Proof.
  destruct mutators_save_last as (Ha & Hn & Hp & Hs & Hu).
  split; [|split; [|split; [|split]]]; intros *; apply run_saves_last; auto.
Qed.

Lemma rejected_call_changes_nothing_witness :
  run (DB.updateProduct (VNum 1) VNull (VNum 10000) (VNum 3)) [stored_pizza]
  = Some (Threw (Err errors.InvalidPriceError), [stored_pizza])
  /\ [stored_pizza] = [stored_pizza].
Proof.
  split; [reflexivity|].
  destruct (@rejected_call_changes_nothing
              [stored_pizza] [stored_pizza] (Err errors.InvalidPriceError))
    as (_ & _ & _ & _ & Hu).
  apply (Hu (VNum 1) VNull (VNum 10000) (VNum 3)). reflexivity.
Defined.

(** ** The error that is never thrown *)

Lemma lookup_exports (name : string) :
  errors.get name <> Some errors.InvalidStockError.
Proof.
  unfold errors.get, errors.exports. cbn [errors.lookup].
  repeat match goal with
         | |- (if ?b then _ else _) <> _ => destruct b; [discriminate|]
         end.
  discriminate.
Qed.

Lemma new_error_not_InvalidStockError (name : string) :
  new_error name <> Err errors.InvalidStockError.
Proof.
  unfold new_error. pose proof (lookup_exports name) as H.
  destruct (errors.get name) as [k|]; [|discriminate].
  intros E. injection E as ->. now apply H.
Qed.

Lemma throwing_bind {A B : Type} (S : error -> Prop) (p : prog A) (f : A -> prog B) :
  throwing S p -> (forall a, throwing S (f a)) -> throwing S (bind p f).
Proof.
  intros Hp Hf. induction Hp; cbn; try constructor; auto.
Qed.

Lemma throwing_model {A : Type} (S : error -> Prop) (o : option A) :
  throwing S (model o).
Proof. destruct o; constructor. Qed.

Lemma advance_throwing {A : Type} (S : error -> Prop) (p p' : prog A)
      (c c' : collection) :
  S ValidationError -> S DuplicateKeyError ->
  throwing S p -> advance p c = Some (p', c') -> throwing S p'.
Proof.
  intros SV SD Hp. destruct Hp as [a|e He| |q k Hk|d k Hk]; cbn.
  - intros E. injection E as <- _. constructor.
  - intros E. injection E as <- _. now constructor.
  - discriminate.
  - destruct (Mongoose.find q c); [|discriminate].
    intros E. injection E as <- _. apply Hk.
  - destruct (Mongoose.save d c) as [[d'|e] c1] eqn:Sv;
      intros E; injection E as <- _; [apply Hk|].
    constructor. apply save_rejected in Sv as [_ [-> | ->]]; assumption.
Qed.

Lemma run_throwing {A : Type} (S : error -> Prop) (p : prog A) :
  S ValidationError -> S DuplicateKeyError ->
  throwing S p ->
  forall (c c' : collection) (e : error), run p c = Some (Threw e, c') -> S e.
Proof.
  intros SV SD. induction 1 as [a|e0 He| |q k Hk IH|d k Hk IH]; intros c c' e; cbn.
  - discriminate.
  - intros E. now injection E as <- _.
  - discriminate.
  - destruct (Mongoose.find q c) as [docs|]; [|discriminate]. apply IH.
  - destruct (Mongoose.save d c) as [[d'|e1] c1] eqn:Sv; [apply IH|].
    intros E. injection E as <- _.
    apply save_rejected in Sv as [_ [-> | ->]]; assumption.
Qed.

Lemma deliver_throwing {A : Type} (S : error -> Prop) (sched : list nat) :
  S ValidationError -> S DuplicateKeyError ->
  forall (tasks tasks' : list (prog A)) (c c' : collection) (rej rej' : option error),
    Forall (throwing S) tasks ->
    deliver sched tasks c rej = Some (tasks', c', rej') ->
    Forall (throwing S) tasks'.
Proof.
  intros SV SD.
  induction sched as [|i sched IH]; intros tasks tasks' c c' rej rej' Ht; cbn.
  - intros E. now injection E as <- _ _.
  - destruct (nth_error tasks i) as [p|] eqn:N; [|discriminate].
    destruct (advance p c) as [[p' c1]|] eqn:Adv; [|discriminate].
    apply IH. apply Forall_set_nth; [assumption|].
    eapply advance_throwing; [exact SV|exact SD| |exact Adv].
    rewrite Forall_forall in Ht. apply Ht. eapply nth_error_In; eauto.
Qed.

Lemma Promise_all_throwing {A : Type} (S : error -> Prop) (sched : list nat)
      (tasks : list (prog A)) (c c' : collection) (e : error) :
  S ValidationError -> S DuplicateKeyError ->
  Forall (throwing S) tasks ->
  Promise_all sched tasks c = Some (Threw e, c') -> S e.
Proof.
  intros SV SD Ht H.
  destruct (Promise_all_settles sched tasks c c') as (Hrej & _ & _).
  destruct (Hrej e H) as (tasks' & rej & i & D & N).
  pose proof (@deliver_throwing _ S sched SV SD _ _ _ _ _ _ Ht D) as Ht'.
  rewrite Forall_forall in Ht'. apply nth_error_In in N.
  specialize (Ht' _ N). now inversion Ht'.
Qed.

Section NeverThrown.

Let other (e : error) : Prop := e <> Err errors.InvalidStockError.

Lemma throwing_new_error {A : Type} (name : string) :
  throwing other (@Throw A (new_error name)).
Proof. constructor. apply new_error_not_InvalidStockError. Qed.

Lemma throwing_validateId (id : value) (mutation : bool) :
  throwing other (DB.validateId id mutation).
Proof.
  unfold DB.validateId.
  destruct (negb (ToBoolean id)); [apply throwing_new_error|].
  destruct id; try apply throwing_new_error.
  destruct (lt n 1); [apply throwing_new_error|].
  destruct (negb mutation); [|constructor].
  unfold find_exec. cbn [bind]. constructor.
  intros [|d ds]; [constructor|apply throwing_new_error].
Qed.

Lemma throwing_validators (v : value) :
  throwing other (call (DB.validateProductName v))
  /\ throwing other (call (DB.validatePrice v))
  /\ throwing other (call (DB.validateStock v)).
Proof.
  split; [|split].
  - unfold DB.validateProductName. destruct v; try apply throwing_new_error.
    destruct (negb _); [apply throwing_new_error|constructor].
  - unfold DB.validatePrice. destruct v; try apply throwing_new_error.
    destruct (_ || _); [apply throwing_new_error|constructor].
  - unfold DB.validateStock. destruct v; try apply throwing_new_error.
    destruct (_ || _); [apply throwing_new_error|constructor].
Qed.

Lemma throwing_when_truthy (v : value) :
  throwing other (call (DB.when_truthy v DB.validateProductName))
  /\ throwing other (call (DB.when_truthy v DB.validatePrice))
  /\ throwing other (call (DB.when_truthy v DB.validateStock)).
Proof.
  destruct (throwing_validators v) as (Hn & Hp & Hs).
  unfold DB.when_truthy. destruct (ToBoolean v); [auto|].
  repeat split; constructor.
Qed.

Lemma throwing_lookup (id : value) : throwing other (DB.lookup id).
Proof.
  unfold DB.lookup, find_exec. cbn [bind]. constructor.
  intros [|d ds]; [apply throwing_new_error|constructor].
Qed.

Lemma throwing_save_doc (d : Document) :
  throwing other (Product <- save_doc d ;; Ret Product).
Proof. unfold save_doc. cbn [bind]. constructor. intros d'. constructor. Qed.

Lemma mutators_throwing :
  (forall id productName price stock,
      throwing other (DB.addProduct id productName price stock))
  /\ (forall id productName, throwing other (DB.updateProductName id productName))
  /\ (forall id price, throwing other (DB.updateProductPrice id price))
  /\ (forall id stock, throwing other (DB.updateProductStock id stock))
  /\ (forall id productName price stock,
         throwing other (DB.updateProduct id productName price stock)).
Proof.
  split; [|split; [|split; [|split]]].
  - intros id productName price stock. unfold DB.addProduct.
    apply throwing_bind; [apply throwing_validateId|]. intros _.
    apply throwing_bind; [apply throwing_validators|]. intros _.
    apply throwing_bind; [apply throwing_validators|]. intros _.
    apply throwing_bind; [apply throwing_validators|]. intros _.
    apply throwing_bind; [apply throwing_model|]. intros d.
    apply throwing_save_doc.
  - intros id productName. unfold DB.updateProductName.
    apply throwing_bind; [apply throwing_validateId|]. intros _.
    apply throwing_bind; [apply throwing_validators|]. intros _.
    apply throwing_bind; [apply throwing_lookup|]. intros d.
    apply throwing_bind; [apply throwing_model|]. intros d1.
    apply throwing_save_doc.
  - intros id price. unfold DB.updateProductPrice.
    apply throwing_bind; [apply throwing_validateId|]. intros _.
    apply throwing_bind; [apply throwing_validators|]. intros _.
    apply throwing_bind; [apply throwing_lookup|]. intros d.
    apply throwing_bind; [apply throwing_model|]. intros d1.
    apply throwing_save_doc.
  - intros id stock. unfold DB.updateProductStock.
    apply throwing_bind; [apply throwing_validateId|]. intros _.
    apply throwing_bind; [apply throwing_validators|]. intros _.
    apply throwing_bind; [apply throwing_lookup|]. intros d.
    apply throwing_bind; [apply throwing_model|]. intros d1.
    apply throwing_save_doc.
  - intros id productName price stock. unfold DB.updateProduct.
    apply throwing_bind; [apply throwing_validateId|]. intros _.
    apply throwing_bind; [apply throwing_when_truthy|]. intros _.
    apply throwing_bind; [apply throwing_when_truthy|]. intros _.
    apply throwing_bind; [apply throwing_when_truthy|]. intros _.
    apply throwing_bind; [apply throwing_lookup|]. intros d.
    apply throwing_bind; [apply throwing_model|]. intros d1.
    apply throwing_bind; [apply throwing_model|]. intros d2.
    apply throwing_bind; [apply throwing_model|]. intros d3.
    apply throwing_save_doc.
Qed.

End NeverThrown.

(** No method ever throws [InvalidStockError].  The module object has no
    property that holds the class, whatever the name, so no
    [new errors.X()] constructs it; and no single call, no batch and no
    query is rejected with it, whatever the arguments, the collection and
    the order in which the storage layer answers. *)
Theorem InvalidStockError_is_never_thrown :
  (forall name, errors.get name <> Some errors.InvalidStockError)
  /\ (forall stock, DB.validateStock stock <> Threw (Err errors.InvalidStockError))
  /\ (forall c c' id productName price stock,
         run (DB.addProduct id productName price stock) c
         <> Some (Threw (Err errors.InvalidStockError), c'))
  /\ (forall c c' id stock,
         run (DB.updateProductStock id stock) c
         <> Some (Threw (Err errors.InvalidStockError), c'))
  /\ (forall c c' id productName price stock,
         run (DB.updateProduct id productName price stock) c
         <> Some (Threw (Err errors.InvalidStockError), c'))
  /\ (forall sched Products c c',
         DB.addProducts sched Products c
         <> Some (Threw (Err errors.InvalidStockError), c'))
  /\ (forall sched Products c c',
         DB.updateProducts sched Products c
         <> Some (Threw (Err errors.InvalidStockError), c'))
  /\ (forall stock c,
         DB.query (DB.getProductsByStock stock) c
         <> Some (Threw (Err errors.InvalidStockError))).
Proof.
  destruct mutators_throwing as (Ha & _ & _ & Hs & Hu).
  assert (SV : ValidationError <> Err errors.InvalidStockError) by discriminate.
  assert (SD : DuplicateKeyError <> Err errors.InvalidStockError) by discriminate.
  assert (VS : forall stock,
             DB.validateStock stock <> Threw (Err errors.InvalidStockError)).
  { intros stock. unfold DB.validateStock. rewrite new_error_InvalidStockError.
    destruct stock; try discriminate. destruct (_ || _); discriminate. }
  split; [exact lookup_exports|]. split; [exact VS|].
  split; [|split; [|split; [|split; [|split]]]].
  - intros c c' id productName price stock H.
    now apply (run_throwing SV SD (Ha id productName price stock) _ H).
  - intros c c' id stock H.
    now apply (run_throwing SV SD (Hs id stock) _ H).
  - intros c c' id productName price stock H.
    now apply (run_throwing SV SD (Hu id productName price stock) _ H).
  - intros sched Products c c' H. rewrite addProducts_tasks in H.
    apply (@Promise_all_throwing _ (fun e => e <> Err errors.InvalidStockError)
                                  sched _ c c' _ SV SD) in H; [now apply H|].
    apply Forall_forall. intros p Hp. apply in_map_iff in Hp as (P & <- & _).
    apply Ha.
  - intros sched Products c c' H. rewrite updateProducts_tasks in H.
    apply (@Promise_all_throwing _ (fun e => e <> Err errors.InvalidStockError)
                                  sched _ c c' _ SV SD) in H; [now apply H|].
    apply Forall_forall. intros p Hp. apply in_map_iff in Hp as (P & <- & _).
    apply Hu.
  - intros stock c. unfold DB.getProductsByStock, DB.query.
    pose proof (VS stock) as V.
    destruct (DB.validateStock stock) as [[]|e].
    + destruct (find_filter _ _ _); discriminate.
    + intros E. injection E as ->. now apply V.
Qed.

(** ** When a product can be added *)

(** [addProduct] succeeds exactly when the id is a number that is truthy,
    not below 1 and not the id of a stored document, the name passes
    [validateProductName], and the price and the stock (0 when left out)
    pass their validators and are not NaN. *)
Theorem addProduct_succeeds_iff (c : collection) (id productName price stock : value) :
  (exists d c', run (DB.addProduct id productName price stock) c = Some (Return d, c'))
  <-> (acceptable (product_literal id productName price (default (VNum 0) stock)) = true
       /\ exists n, id = VNum n /\ stored_id c n = false).
Proof.
  split.
  - intros (d & c' & H). apply addProduct_returns in H
      as (n & p & s & -> & -> & Es & T & L & S & VN & VP & Np & VS & Ns & _).
    split; [|eauto].
    unfold acceptable, product_literal.
    cbn [get String.eqb Ascii.eqb Bool.eqb]. rewrite Es.
    now rewrite T, L, VN, VP, Np, VS, Ns.
  - intros [A (n & -> & S)].
    apply acceptable_fields in A
      as (n' & p & s & Hid & Hp & Hs & T & L & Vn & Vp & Np & Vs & Ns).
    unfold product_literal in Hid, Hp, Hs, Vn.
    cbn [get String.eqb Ascii.eqb Bool.eqb] in Hid, Hp, Hs, Vn.
    injection Hid as <-. subst price.
    assert (E : DB.addProduct (VNum n) productName (VNum p) stock
                = DB.addProduct (VNum n) productName (VNum p) (VNum s)).
    { unfold DB.addProduct. now rewrite Hs. }
    rewrite E. eexists _, _. now apply addProduct_valid.
Qed.

(** ** Batches of updates of different products *)

Lemma find_from_head_ids (n : float) (c : collection) :
  forall (c' : collection) (i j : nat) (o o' : object) (rest : list Document),
    ids c' = ids c ->
    find_from i n c = mkDocument (i + j) false o [] [] :: rest ->
    nth_error c' j = Some o' ->
    exists rest', find_from i n c' = mkDocument (i + j) false o' [] [] :: rest'.
Proof.
  induction c as [|o0 c IH]; intros c' i j o o' rest Hids F N; [discriminate|].
  destruct c' as [|o0' c']; [discriminate|].
  cbn in Hids. injection Hids as Hid Hids.
  cbn [find_from] in F |- *. rewrite Hid.
  destruct (same_id (get o0 "id") (VNum n)) eqn:E.
  - injection F as Hj _ _. assert (j = 0) by lia. subst j.
    cbn in N. injection N as <-. rewrite Nat.add_0_r. eauto.
  - destruct (find_from_head _ _ _ F) as (j1 & o1 & E1 & _).
    injection E1 as Hj _. assert (j = S j1) by lia. subst j.
    cbn in N. rewrite Nat.add_succ_r in F |- *.
    change (S (i + j1)) with (S i + j1) in F |- *.
    now apply (IH c' (S i) j1 o o' rest).
Qed.

Lemma update_of_id (o Product : object) : get (update_of o Product) "id" = get o "id".
Proof. unfold update_of. now rewrite !get_put_other by reflexivity. Qed.

Lemma rejection_Throw {A : Type} (p : prog A) (e : error) :
  rejection p = Some e -> p = Throw e.
Proof. destruct p; try discriminate. intros E. now injection E as ->. Qed.

(** The call for an updatable element: the lookup, then the [save()] of
    the document with the element applied. *)
Lemma update_task_find (c0 : collection) (Product : object) (n : float) :
  updatable c0 Product -> get Product "id" = VNum n ->
  exists k,
    update_task Product = Find (VNum n) k
    /\ forall j o rest,
        stable (get o "price") -> stable (get o "stock") ->
        k (mkDocument j false o [] [] :: rest)
        = Save (mkDocument j false (update_of o Product)
                           [("productName",
                             coalesce (default VNull (get Product "productName"))
                                      VUndefined)] [])
               (fun r => Ret r).
Proof.
  intros (n' & o0 & Hid & T & L & _ & _ & _ & VN & VP & VS & _) Hn.
  rewrite Hn in Hid. injection Hid as <-.
  unfold update_task, DB.updateProduct. rewrite Hn.
  unfold DB.validateId. rewrite T, L. cbn [negb bind].
  rewrite VN. cbn [call bind].
  assert (WP : forall old, stable old ->
                 DB.when_truthy (default VNull (get Product "price")) DB.validatePrice
                 = Return tt
                 /\ castNumber (coalesce (default VNull (get Product "price")) old)
                    = Cast (coalesce (get Product "price") old))
    by (intros old; now apply absent_or_valid_passes).
  assert (WS : forall old, stable old ->
                 DB.when_truthy (default VNull (get Product "stock")) DB.validateStock
                 = Return tt
                 /\ castNumber (coalesce (default VNull (get Product "stock")) old)
                    = Cast (coalesce (get Product "stock") old))
    by (intros old; now apply absent_or_valid_passes).
  destruct (WP VNull eq_refl) as [WP1 _]. destruct (WS VNull eq_refl) as [WS1 _].
  rewrite WP1. cbn [call bind]. rewrite WS1. cbn [call bind].
  unfold DB.lookup, find_exec. cbn [bind].
  eexists. split; [reflexivity|].
  intros j o rest Sp Ss. cbn beta iota. cbn [bind].
  destruct (WP _ Sp) as [_ CP]. destruct (WS _ Ss) as [_ CS].
  unfold DB.assign_or_keep at 1. rewrite assign_own by reflexivity.
  cbn [model bind _id isNew _doc own castErrors].
  unfold DB.assign_or_keep at 1.
  assert (Rp : forall d, read productSchema d "price" = get (_doc d) "price")
    by reflexivity.
  assert (Rs : forall d, read productSchema d "stock" = get (_doc d) "stock")
    by reflexivity.
  rewrite Rp. cbn [_doc].
  rewrite (@assign_cast _ "price" _ _ eq_refl CP).
  cbn [model bind remove_path filter _id isNew _doc own castErrors].
  unfold DB.assign_or_keep. rewrite Rs. cbn [_doc].
  rewrite get_put_other by reflexivity.
  rewrite (@assign_cast _ "stock" _ _ eq_refl CS).
  cbn [model bind remove_path filter _id isNew _doc own castErrors].
  reflexivity.
Qed.

Lemma find_from_stored (c : collection) (n : float) (j : nat) (o : object)
      (rest : list Document) :
  find_from 0 n c = mkDocument j false o [] [] :: rest ->
  stored c n = Some o /\ nth_error c j = Some o
  /\ same_id (get o "id") (VNum n) = true.
Proof.
  intros F. split; [unfold stored; now rewrite F|].
  destruct (find_from_head _ _ _ F) as (j1 & o1 & E & N & Sm & _).
  injection E as -> ->. auto.
Qed.

Lemma find_from_frame (m : float) (c : collection) :
  forall (c' : collection) (i : nat),
    ids c' = ids c ->
    (forall j o, nth_error c j = Some o ->
                 same_id (get o "id") (VNum m) = true -> nth_error c' j = Some o) ->
    find_from i m c' = find_from i m c.
Proof.
  induction c as [|o c IH]; intros [|o' c'] i Hids K; try discriminate;
    [reflexivity|].
  cbn in Hids. injection Hids as Hid Hids. cbn [find_from]. rewrite Hid.
  rewrite (IH c' (S i) Hids (fun j => K (S j))).
  destruct (same_id (get o "id") (VNum m)) eqn:E; [|reflexivity].
  specialize (K 0 o eq_refl E). cbn in K. now injection K as ->.
Qed.

Section DistinctTargets.

Variable c0 : collection.
Variable Products : list object.

(** The document an updatable element is applied to does not have the id
    of another updatable element. *)
Hypothesis Hdistinct :
  forall i i' P Q n m o,
    i <> i' -> nth_error Products i = Some P -> nth_error Products i' = Some Q ->
    updatable c0 P -> updatable c0 Q ->
    get P "id" = VNum n -> get Q "id" = VNum m -> stored c0 n = Some o ->
    same_id (get o "id") (VNum m) = false.

Lemma targets_differ (i i' : nat) (P Q : object) (n m : float) (j j' : nat)
      (o o' : object) (rest rest' : list Document) :
  i <> i' -> nth_error Products i = Some P -> nth_error Products i' = Some Q ->
  updatable c0 P -> updatable c0 Q ->
  get P "id" = VNum n -> get Q "id" = VNum m ->
  find_from 0 n c0 = mkDocument j false o [] [] :: rest ->
  find_from 0 m c0 = mkDocument j' false o' [] [] :: rest' ->
  j <> j'.
Proof.
  intros Hii NP NQ UP UQ Hn Hm F F' ->.
  destruct (find_from_stored _ _ F) as (St & N & _).
  destruct (find_from_stored _ _ F') as (_ & N' & Sm').
  rewrite N in N'. injection N' as <-.
  rewrite (Hdistinct Hii NP NQ UP UQ Hn Hm St) in Sm'. discriminate.
Qed.

Lemma update_phase_after (c : collection) (i i' : nat) (P Q : object) (n : float)
      (j : nat) (o o1 : object) (rest : list Document) (t : prog Document) :
  i <> i' -> nth_error Products i = Some P -> nth_error Products i' = Some Q ->
  updatable c0 P -> get P "id" = VNum n ->
  find_from 0 n c0 = mkDocument j false o [] [] :: rest ->
  update_phase c0 c Q t -> update_phase c0 (replace j o1 c) Q t.
Proof.
  intros Hii NP NQ UP Hn F Ph.
  assert (K : forall m j' o' rest',
             updatable c0 Q -> get Q "id" = VNum m ->
             find_from 0 m c0 = mkDocument j' false o' [] [] :: rest' ->
             forall x, nth_error c j' = Some x ->
                       nth_error (replace j o1 c) j' = Some x).
  { intros m j' o' rest' UQ Hm F' x Hx. rewrite nth_error_replace.
    assert (D : j <> j') by (eapply (@targets_differ i i'); eauto).
    apply Nat.eqb_neq in D. now rewrite D. }
  destruct Ph as [m j' o' rest' UQ Hm F' N|m j' o' rest' UQ Hm F' N
                  |m j' o' rest' d UQ Hm F' N Hd|e He].
  - eapply uphase_looking; eauto.
  - eapply uphase_saving; eauto.
  - eapply uphase_done; eauto.
  - now apply uphase_refused.
Qed.

(** One request of one call is answered. *)
Lemma update_step (tasks : list (prog Document)) (c : collection) (i : nat)
      (t : prog Document) :
  update_phases c0 Products tasks c -> nth_error tasks i = Some t ->
  exists t' c',
    advance t c = Some (t', c')
    /\ rejection t' = rejection t
    /\ rank t' <= rank t - 1
    /\ update_phases c0 Products (set_nth i t' tasks) c'.
Proof.
  intros (Len & Hids & Ph & Fr) Nt.
  assert (NP : exists P, nth_error Products i = Some P).
  { destruct (nth_error Products i) as [P|] eqn:E; [eauto|].
    apply nth_error_None in E.
    assert (i < List.length tasks) by (apply nth_error_Some; congruence). lia. }
  destruct NP as [P NP].
  assert (Same : forall t', update_phase c0 c P t' ->
                            update_phases c0 Products (set_nth i t' tasks) c).
  { intros t' Pt'. split; [now rewrite length_set_nth|]. split; [assumption|].
    split; [|assumption].
    intros i' Q ti NQ. rewrite nth_error_set_nth.
    destruct (Nat.eqb i i') eqn:E.
    - apply Nat.eqb_eq in E. subst i'. rewrite Nt. cbn.
      intros H. injection H as <-. rewrite NP in NQ. now injection NQ as <-.
    - now apply Ph. }
  pose proof (Ph i P t NP Nt) as Pt.
  destruct Pt as [n j o rest UP Hn F N|n j o rest UP Hn F N
                  |n j o rest d UP Hn F N Hd|e He].
  - (* the lookup is answered *)
    destruct (@update_task_find c0 P n UP Hn) as (k & Ek & Hk).
    assert (Nn : PrimFloat.is_nan n = false).
    { destruct UP as (n' & o' & Hn' & T & _). rewrite Hn in Hn'.
      injection Hn' as <-. now apply truthy_not_nan. }
    assert (St : stable (get o "price") /\ stable (get o "stock")).
    { destruct UP as (n' & o' & Hn' & _ & _ & St & Sp & Ss & _).
      rewrite Hn in Hn'. injection Hn' as <-.
      destruct (find_from_stored _ _ F) as (St' & _).
      rewrite St in St'. injection St' as ->. auto. }
    destruct (@find_from_head_ids n c0 c 0 j o o rest Hids F N) as (rest' & F').
    cbn [Nat.add] in F'.
    rewrite Ek. cbn [advance Mongoose.find]. rewrite Nn, F'.
    rewrite (Hk j o rest' (proj1 St) (proj2 St)).
    eexists _, _. split; [reflexivity|]. split; [reflexivity|].
    split; [cbn; lia|]. apply Same. eapply uphase_saving; eauto.
  - (* the save is answered *)
    cbn [advance]. unfold Mongoose.save. cbn [castErrors isNew _id _doc].
    eexists _, _. split; [reflexivity|]. split; [reflexivity|].
    split; [cbn; lia|].
    split; [now rewrite length_set_nth|]. split; [|split].
    + rewrite <- Hids. apply (@ids_replace j o); [assumption|apply update_of_id].
    + intros i' Q ti NQ. rewrite nth_error_set_nth.
      destruct (Nat.eqb i i') eqn:E.
      * apply Nat.eqb_eq in E. subst i'. rewrite Nt. cbn.
        intros H. injection H as <-. rewrite NP in NQ. injection NQ as <-.
        eapply uphase_done; eauto.
        rewrite nth_error_replace, Nat.eqb_refl, N. reflexivity.
      * apply Nat.eqb_neq in E. intros Nti.
        eapply (@update_phase_after c i i' P Q n j o); eauto.
    + intros j1 o1 N1. destruct (Fr j1 o1 N1) as [Keep | Target]; [|now right].
      destruct (Nat.eq_dec j j1) as [<- | D].
      * right. exists P, n, rest. rewrite N in Keep. injection Keep as <-.
        split; [eapply nth_error_In; eauto|]. auto.
      * left. rewrite nth_error_replace. apply Nat.eqb_neq in D. now rewrite D.
  - (* returned: nothing pending *)
    eexists _, _. split; [reflexivity|]. split; [reflexivity|].
    split; [cbn; lia|]. apply Same. eapply uphase_done; eauto.
  - (* refused: nothing pending *)
    eexists _, _. split; [reflexivity|]. split; [reflexivity|].
    split; [cbn; lia|]. apply Same. now apply uphase_refused.
Qed.

(** Any number of requests answered, in any order. *)
Lemma update_run (sched : list nat) :
  Forall (fun i => i < List.length Products) sched ->
  forall (tasks : list (prog Document)) (c : collection),
    update_phases c0 Products tasks c ->
    exists tasks' c',
      deliver sched tasks c (first_rejection tasks)
      = Some (tasks', c', first_rejection tasks)
      /\ update_phases c0 Products tasks' c'
      /\ forall i t t', nth_error tasks i = Some t -> nth_error tasks' i = Some t' ->
                        rank t' <= rank t - count_occ Nat.eq_dec sched i.
Proof.
  induction 1 as [|i sched Hi Hsched IH]; intros tasks c Ph.
  - exists tasks, c. cbn [deliver count_occ].
    split; [reflexivity|]. split; [assumption|].
    intros j t t' E1 E2. rewrite E1 in E2. injection E2 as <-. lia.
  - destruct (nth_error tasks i) as [t|] eqn:Nt.
    2:{ apply nth_error_None in Nt. destruct Ph as [Len _]. lia. }
    destruct (@update_step tasks c i t Ph Nt) as (t' & c' & Adv & Rj & Rk & Ph').
    assert (Fr : first_rejection (set_nth i t' tasks) = first_rejection tasks)
      by (now apply (@first_rejection_set_nth _ i t)).
    assert (Rej : match first_rejection tasks with
                  | Some e => Some e
                  | None => rejection t'
                  end = first_rejection tasks).
    { destruct (first_rejection tasks) as [e|] eqn:F; [reflexivity|].
      rewrite Rj. pose proof (@first_rejection_none _ tasks F i) as Hn.
      destruct t; try reflexivity. now contradiction (Hn e). }
    destruct (IH _ _ Ph') as (tasks' & c2 & D & Ph2 & Rk2).
    exists tasks', c2.
    cbn [deliver]. rewrite Nt, Adv, Rej. rewrite Fr in D.
    split; [exact D|]. split; [exact Ph2|].
    intros j t0 tf E0 Ef.
    assert (Ej : nth_error (set_nth i t' tasks) j
                 = Some (if Nat.eqb i j then t' else t0)).
    { rewrite nth_error_set_nth, E0. now destruct (Nat.eqb i j). }
    specialize (Rk2 j _ tf Ej Ef). cbn [count_occ].
    destruct (Nat.eq_dec i j) as [->|Hne].
    + rewrite Nat.eqb_refl in Rk2. rewrite Nt in E0. injection E0 as <-. lia.
    + apply Nat.eqb_neq in Hne. rewrite Hne in Rk2. assumption.
Qed.

End DistinctTargets.

Lemma fulfilled_Forall2 {A B : Type} (R : A -> B -> Prop) (l : list A)
      (tasks : list (prog B)) :
  Forall2 (fun x t => exists d, t = Ret d /\ R x d) l tasks ->
  exists docs, fulfilled tasks = Some docs /\ Forall2 R l docs.
Proof.
  induction 1 as [|x t l tasks (d & -> & Hd) _ (docs & F & M)]; cbn.
  - exists []. split; [reflexivity|constructor].
  - rewrite F. exists (d :: docs). split; [reflexivity|now constructor].
Qed.

(** A batch of updates in which every element is either updatable in the
    collection (its numbers other than NaN and [-0]) or refused before any
    storage request, no two updatable
    elements being applied to one document.  Once the storage layer has
    answered both requests of every call, in whatever order, every
    updatable element is applied to the stored document of its id, the
    documents of the other ids are as they were, and no document is added
    or removed.  The batch is fulfilled with the updated documents, in the
    order of the elements, when no element is refused; when one is, the
    batch is rejected with the error of the first such element, and the
    updatable elements are applied all the same. *)
Theorem updateProducts_applies_every_updatable_element
        (c : collection) (Products : list object) (sched : list nat) :
  Forall (fun P => updatable c P \/ rejection (update_task P) <> None) Products ->
  (forall i i' P Q n m o,
      i <> i' -> nth_error Products i = Some P -> nth_error Products i' = Some Q ->
      updatable c P -> updatable c Q ->
      get P "id" = VNum n -> get Q "id" = VNum m -> stored c n = Some o ->
      same_id (get o "id") (VNum m) = false) ->
  Forall (fun i => i < List.length Products) sched ->
  (forall i, i < List.length Products -> 2 <= count_occ Nat.eq_dec sched i) ->
  exists r c',
    DB.updateProducts sched Products c = Some (r, c')
    /\ ids c' = ids c
    /\ (forall P n o,
           In P Products -> updatable c P -> get P "id" = VNum n ->
           stored c n = Some o -> stored c' n = Some (update_of o P))
    /\ (forall m,
           (forall P n o,
               In P Products -> updatable c P -> get P "id" = VNum n ->
               stored c n = Some o -> same_id (get o "id") (VNum m) = false) ->
           stored c' m = stored c m)
    /\ match first_rejection (map update_task Products) with
       | Some e => r = Threw e
       | None =>
           exists docs,
             r = Return docs
             /\ Forall2 (fun P d => exists n o,
                             get P "id" = VNum n /\ stored c n = Some o
                             /\ _doc d = update_of o P) Products docs
       end.
Proof.
  intros Hall Hdist Hsched Hcount.
  rewrite Forall_forall in Hall.
  assert (Start : update_phases c Products (map update_task Products) c).
  { split; [apply length_map|]. split; [reflexivity|]. split; [|now left].
    intros i P t NP. rewrite nth_error_map, NP. cbn [option_map].
    intros E. injection E as <-.
    assert (HP : In P Products) by (eapply nth_error_In; eauto).
    destruct (Hall P HP) as [UP | R].
    - pose proof UP as (n & o & Hn & _ & _ & St & _).
      destruct (stored_find _ _ St) as (j & rest & F & N & _).
      eapply uphase_looking; eauto.
    - destruct (rejection (update_task P)) as [e|] eqn:E; [|now contradiction R].
      pose proof (rejection_Throw _ E) as Et. rewrite Et.
      apply uphase_refused. now rewrite Et. }
  destruct (@update_run c Products Hdist sched Hsched _ _ Start)
    as (tasks' & c' & D & (Len & Hids & Ph & Fr) & Rk).
  assert (Done : forall i P t' n o,
             nth_error Products i = Some P -> nth_error tasks' i = Some t' ->
             updatable c P -> get P "id" = VNum n -> stored c n = Some o ->
             exists d, t' = Ret d /\ _doc d = update_of o P
                       /\ stored c' n = Some (update_of o P)).
  { intros i P t' n o NP Nt' UP Hn St.
    assert (Hi : i < List.length Products) by (apply nth_error_Some; congruence).
    assert (N0 : nth_error (map update_task Products) i = Some (update_task P))
      by (now rewrite nth_error_map, NP).
    pose proof (Rk i _ _ N0 Nt') as R. specialize (Hcount i Hi).
    destruct (@update_task_find c P n UP Hn) as (k & Ek & _).
    rewrite Ek in R. cbn [rank] in R.
    destruct (Ph i P t' NP Nt') as [n1 j o1 rest _ Hn1 F N|n1 j o1 rest _ Hn1 F N
                                    |n1 j o1 rest d _ Hn1 F N Hd|e He].
    - rewrite Ek in R. cbn [rank] in R. lia.
    - cbn [rank] in R. lia.
    - rewrite Hn in Hn1. injection Hn1 as <-.
      destruct (find_from_stored _ _ F) as (St1 & _).
      rewrite St in St1. injection St1 as <-.
      exists d. split; [reflexivity|]. split; [assumption|].
      destruct (@find_from_head_ids n c c' 0 j o (update_of o P) rest Hids F N)
        as (rest' & F').
      unfold stored. now rewrite F'.
    - rewrite Ek in He. discriminate. }
  exists (match first_rejection (map update_task Products) with
          | Some e => Threw e
          | None => match fulfilled tasks' with
                    | Some docs => Return docs
                    | None => Return []
                    end
          end), c'.
  assert (Res :
            match first_rejection (map update_task Products) with
            | Some e => True
            | None =>
                exists docs,
                  fulfilled tasks' = Some docs
                  /\ Forall2 (fun P d => exists n o,
                                  get P "id" = VNum n /\ stored c n = Some o
                                  /\ _doc d = update_of o P) Products docs
            end).
  { destruct (first_rejection (map update_task Products)) as [e|] eqn:F;
      [exact I|].
    apply fulfilled_Forall2. apply Forall2_nth_error; [assumption|].
    intros i P t' NP Nt'.
    assert (HP : In P Products) by (eapply nth_error_In; eauto).
    destruct (Hall P HP) as [UP | R].
    - pose proof UP as (n & o & Hn & _ & _ & St & _).
      destruct (Done i P t' n o NP Nt' UP Hn St) as (d & E & Hd & _).
      exists d. split; [assumption|]. eauto.
    - destruct (rejection (update_task P)) as [e|] eqn:E; [|now contradiction R].
      apply rejection_Throw in E.
      exfalso. apply (@first_rejection_none _ _ F i e).
      rewrite nth_error_map, NP. cbn [option_map]. now rewrite E. }
  split; [|split; [|split; [|split]]].
  - rewrite updateProducts_tasks. unfold Promise_all. rewrite D.
    destruct (first_rejection (map update_task Products)) as [e|];
      [reflexivity|].
    destruct Res as (docs & Ful & _). now rewrite Ful.
  - exact Hids.
  - intros P n o HP UP Hn St. apply In_nth_error in HP as [i NP].
    assert (Hi : i < List.length tasks')
      by (rewrite Len; apply nth_error_Some; congruence).
    destruct (nth_error tasks' i) as [t'|] eqn:Nt';
      [|apply nth_error_None in Nt'; lia].
    now destruct (Done i P t' n o NP Nt' UP Hn St) as (d & _ & _ & S').
  - intros m Hm. unfold stored. rewrite (@find_from_frame m c c' 0 Hids);
      [reflexivity|].
    intros j o N Sm. destruct (Fr j o N) as [Keep | (P & n & rest & HP & UP & Hn & F)];
      [assumption|].
    destruct (find_from_stored _ _ F) as (St & _).
    rewrite (Hm P n o HP UP Hn St) in Sm. discriminate.
  - destruct (first_rejection (map update_task Products)) as [e|];
      [reflexivity|].
    destruct Res as (docs & Ful & F2). rewrite Ful. eauto.
Qed.

Lemma updateProducts_applies_every_updatable_element_witness :
  (Forall (fun P => updatable [stored_pizza; stored_cheese] P
                    \/ rejection (update_task P) <> None)
          [ [("id", VNum 2); ("stock", VNum 0)];
            [("id", VNum 1); ("price", VNum 6.49)] ]
   /\ Forall (fun i => i < 2) [0; 1; 1; 0])
  /\ exists r c',
      DB.updateProducts [0; 1; 1; 0]
                        [ [("id", VNum 2); ("stock", VNum 0)];
                          [("id", VNum 1); ("price", VNum 6.49)] ]
                        [stored_pizza; stored_cheese] = Some (r, c')
      /\ ids c' = ids [stored_pizza; stored_cheese]
      /\ stored c' 1 = Some (put stored_pizza "price" (VNum 6.49))
      /\ stored c' 2 = Some (put stored_cheese "stock" (VNum 0)).
Proof.
  assert (U1 : updatable [stored_pizza; stored_cheese]
                         [("id", VNum 2); ("stock", VNum 0)]).
  { exists 2%float, stored_cheese.
    split; [reflexivity|]. split; [reflexivity|]. split; [reflexivity|].
    split; [reflexivity|]. split; [reflexivity|]. split; [reflexivity|].
    split; [reflexivity|]. split; [now left|]. split; [|reflexivity].
    right. exists 0%float. split; [reflexivity|]. split; reflexivity. }
  assert (U2 : updatable [stored_pizza; stored_cheese]
                         [("id", VNum 1); ("price", VNum 6.49)]).
  { exists 1%float, stored_pizza.
    split; [reflexivity|]. split; [reflexivity|]. split; [reflexivity|].
    split; [reflexivity|]. split; [reflexivity|]. split; [reflexivity|].
    split; [reflexivity|]. split; [|split; [now left|reflexivity]].
    right. exists 6.49%float. split; [reflexivity|]. split; reflexivity. }
  assert (H1 : Forall (fun P => updatable [stored_pizza; stored_cheese] P
                                \/ rejection (update_task P) <> None)
                      [ [("id", VNum 2); ("stock", VNum 0)];
                        [("id", VNum 1); ("price", VNum 6.49)] ]).
  { constructor; [now left|]. constructor; [now left|constructor]. }
  assert (H2 : Forall (fun i => i < 2) [0; 1; 1; 0])
    by (repeat (constructor; [lia|]); constructor).
  split; [split; assumption|].
  destruct (@updateProducts_applies_every_updatable_element
              [stored_pizza; stored_cheese]
              [ [("id", VNum 2); ("stock", VNum 0)];
                [("id", VNum 1); ("price", VNum 6.49)] ]
              [0; 1; 1; 0] H1) as (r & c' & R & Hids & Happ & _).
  - intros i i' P Q n m o Hii NP NQ _ _ Hn Hm St.
    destruct i as [|[|i]]; destruct i' as [|[|i']]; cbn in NP, NQ;
      try congruence; try (destruct i; discriminate);
        try (destruct i'; discriminate);
        injection NP as <-; injection NQ as <-;
          cbn in Hn, Hm; injection Hn as <-; injection Hm as <-;
            cbv in St; injection St as <-; reflexivity.
  - exact H2.
  - intros i Hi. destruct i as [|[|i]]; [cbn; lia..|cbn in Hi; lia].
  - exists r, c'. split; [exact R|]. split; [exact Hids|]. split.
    + apply (Happ [("id", VNum 1); ("price", VNum 6.49)] 1%float stored_pizza);
        [right; now left|exact U2|reflexivity|reflexivity].
    + apply (Happ [("id", VNum 2); ("stock", VNum 0)] 2%float stored_cheese);
        [now left|exact U1|reflexivity|reflexivity].
Defined.
